(** * fstab.py: the mount-table line model and its atomic rewrite

    A shallow embedding of [fstab.py] (classes [Line] and [Fstab]) and of
    the functions of [setup.py] that work on files ([get_default_user],
    [add_davfs2_secret], [add_fstab_entry]), together with the small parts
    of the Python runtime they lean on: [str.strip], the backtracking
    matcher behind [re.match], [str.format] on integers, [int], files
    opened in text mode, and the [os] / [tempfile] calls used by
    [Fstab.write].

    Text is a [string] of 8-bit characters: a Python 2 byte string, or
    Python 3 text with code points below 256.  An object is its state,
    and a method that mutates [self] returns the new state; a method that
    can raise returns a [result].  Code that touches the file system runs
    in a state monad over a world of names, inodes and pending faults.

    Definitions come first, in the order of the source; the proofs follow,
    with the theorems for the specification's claims C1..C10 marked, and
    after them further properties of the code, marked X1..X26. *)

From Stdlib Require Import ZArith Ascii String List Lia Decimal DecimalString DecimalZ.
From stdpp Require Import base option list strings gmap.

Local Open Scope Z_scope.

(** ** Exceptions and results *)

Inductive errno := ENOENT | EEXIST | EACCES | EPERM | EIO | ENOSPC.

Inductive exn :=
| Exception (msg : string)
| AttributeError (name : string)
| KeyError (key : string)
| TypeError
| OSError (e : errno).

Inductive result (A : Type) :=
| Ok (a : A)
| Raise (e : exn).
Arguments Ok {A} a.
Arguments Raise {A} e.

Global Instance result_ret : MRet result := fun A a => Ok a.
Global Instance result_bind : MBind result := fun A B f m =>
  match m with
  | Ok a => f a
  | Raise e => Raise e
  end.
Global Instance result_fmap : FMap result := fun A B f m =>
  match m with
  | Ok a => Ok (f a)
  | Raise e => Raise e
  end.

(** ** Python values held in [Line.dict] or assigned to attributes *)

Inductive pyobj :=
| PyNone
| PyStr (s : string)
| PyInt (n : Z)
| PyList (l : list string).

Global Instance errno_eq_dec : EqDecision errno.
Proof. solve_decision. Defined.
Global Instance exn_eq_dec : EqDecision exn.
Proof. solve_decision. Defined.
Global Instance pyobj_eq_dec : EqDecision pyobj.
Proof. solve_decision. Defined.

(** ** The runtime's character classes and [repr]

    [isspace] is the class shared by [str.strip] and the regular
    expression escapes [\s] / [\S]; [isdigit] is the class of [\d].
    Python 2 byte strings and Python 3 text differ on a few characters, so
    both are taken as parameters; [repr_list] stands for [str] of a list,
    which only an assignment of a list to [dump] or [fsck] would reach. *)

Class PyRuntime := {
  isspace : ascii -> bool;
  isdigit : ascii -> bool;
  repr_list : list string -> string;
}.

(** What both interpreters agree on. *)
Class PyRuntimeLaws `{PyRuntime} : Prop := {
  isspace_SP : isspace " " = true;
  isspace_LF : isspace "010" = true;
  isdigit_ascii : forall c, Ascii.is_nat c <> None -> isdigit c = true;
  isdigit_nonspace : forall c, isdigit c = true -> isspace c = false;
}.

(** The classes of Python 2 byte strings ([string.whitespace], [0-9]). *)
Definition py2_runtime : PyRuntime := {|
  isspace := Ascii.is_space;
  isdigit := fun c => bool_decide (Ascii.is_nat c <> None);
  repr_list := fun l => "[" +:+ String.concat ", " (map (fun s => "'" +:+ s +:+ "'") l) +:+ "]";
|}.

(** The classes of Python 3 text restricted to code points below 256:
    U+001C..U+001F, U+0085 and U+00A0 are whitespace as well. *)
Definition py3_runtime : PyRuntime := {|
  isspace := fun c =>
    Ascii.is_space c ||
    match c with
    | "028" | "029" | "030" | "031" | "133" | "160" => true
    | _ => false
    end%char;
  isdigit := fun c => bool_decide (Ascii.is_nat c <> None);
  repr_list := fun l => "[" +:+ String.concat ", " (map (fun s => "'" +:+ s +:+ "'") l) +:+ "]";
|}.

(** ** Strings *)

Module Str.

Fixpoint forallb (p : ascii -> bool) (s : string) : bool :=
  match s with
  | EmptyString => true
  | String c s' => p c && forallb p s'
  end.

(** [s.lstrip()], [s.rstrip()], [s.strip()] *)
Fixpoint lstrip `{PyRuntime} (s : string) : string :=
  match s with
  | EmptyString => EmptyString
  | String c s' => if isspace c then lstrip s' else s
  end.

Fixpoint rstrip `{PyRuntime} (s : string) : string :=
  match s with
  | EmptyString => EmptyString
  | String c s' =>
      match rstrip s' with
      | EmptyString => if isspace c then EmptyString else String c EmptyString
      | r => String c r
      end
  end.

Definition strip `{PyRuntime} (s : string) : string := rstrip (lstrip s).

(** [s.startswith(prefix)] *)
Definition startswith (s prefix : string) : bool := String.prefix prefix s.

(** [sep.join(l)] *)
Definition join (sep : string) (l : list string) : string := String.concat sep l.

(** [s.split(sep)] for a one-character separator: always at least one
    piece, empty pieces kept. *)
Fixpoint split (sep : ascii) (s : string) : list string :=
  match s with
  | EmptyString => [EmptyString]
  | String c s' =>
      if bool_decide (c = sep) then EmptyString :: split sep s'
      else match split sep s' with
           | piece :: pieces => String c piece :: pieces
           | [] => [String c EmptyString]
           end
  end.

(** [str(n)] and ["{}".format(n)] for an integer *)
Definition of_Z (n : Z) : string := NilZero.string_of_int (Z.to_int n).

(** the characters of a string, as [",".join(s)] iterates them *)
Fixpoint chars (s : string) : list string :=
  match s with
  | EmptyString => []
  | String c s' => String c EmptyString :: chars s'
  end.

(** [s.replace(old, new)] for a one-character [old] *)
Fixpoint replace (old : ascii) (new : string) (s : string) : string :=
  match s with
  | EmptyString => EmptyString
  | String c s' =>
      (if bool_decide (c = old) then new else String c EmptyString) +:+ replace old new s'
  end.

(** The lines of a text as a file hands them out: each one up to and
    including its newline, the last one as far as the text goes. *)
Fixpoint lines (s : string) : list string :=
  match s with
  | EmptyString => []
  | String c s' =>
      if bool_decide (c = "010"%char) then String c EmptyString :: lines s'
      else match lines s' with
           | line :: rest => String c line :: rest
           | [] => [String c EmptyString]
           end
  end.

(** [s[n:]] *)
Fixpoint drop (n : nat) (s : string) : string :=
  match n, s with
  | S n', String _ s' => drop n' s'
  | _, _ => s
  end.

(** The first [n] characters of [s], filled up with NUL where [s] is
    shorter: what a file of content [s] holds up to offset [n]. *)
Fixpoint resize (n : nat) (s : string) : string :=
  match n with
  | O => EmptyString
  | S n' =>
      match s with
      | String c s' => String c (resize n' s')
      | EmptyString => String "000" (resize n' EmptyString)
      end
  end.

End Str.

(** [str(value)] *)
Definition str `{PyRuntime} (value : pyobj) : string :=
  match value with
  | PyNone => "None"
  | PyStr s => s
  | PyInt n => Str.of_Z n
  | PyList l => repr_list l
  end.

(** ** Built-ins with exceptions of their own

    [int] raises [ValueError] on text that is no number, and indexing an
    empty list raises [IndexError].  Code that can meet one of them
    returns an [outcome]. *)

Inductive exception :=
| Exn (e : exn)
| ValueError (literal : string)
| IndexError.

Inductive outcome (A : Type) :=
| Returns (a : A)
| Raises (e : exception).
Arguments Returns {A} a.
Arguments Raises {A} e.

Global Instance exception_eq_dec : EqDecision exception.
Proof. solve_decision. Defined.

Global Instance outcome_ret : MRet outcome := fun A a => Returns a.
Global Instance outcome_bind : MBind outcome := fun A B f m =>
  match m with
  | Returns a => f a
  | Raises e => Raises e
  end.
Global Instance outcome_fmap : FMap outcome := fun A B f m =>
  match m with
  | Returns a => Returns (f a)
  | Raises e => Raises e
  end.

Definition of_result {A} (r : result A) : outcome A :=
  match r with
  | Ok a => Returns a
  | Raise e => Raises (Exn e)
  end.

(** [int(s)] on text, and what a file that is read in text mode makes of
    the line ends, are the interpreter's: [int_str] gives the number or
    [None] where [int] raises [ValueError]. *)
Class PyBuiltins := {
  int_str : string -> option Z;
  text_mode : string -> string;
}.

(** [int(value)] *)
Definition int_ `{PyBuiltins} (value : pyobj) : outcome Z :=
  match value with
  | PyInt n => Returns n
  | PyStr s =>
      match int_str s with
      | Some n => Returns n
      | None => Raises (ValueError s)
      end
  | PyNone | PyList _ => Raises (Exn TypeError)
  end.

(** A decimal digit of 8-bit text. *)
Definition decimal (c : ascii) : bool := bool_decide (Ascii.is_nat c <> None).

(** The text of a number as [int] reads it, once blanks and sign are
    gone: decimal digits, and where [grouped] single underscores between
    them.  The result is the digits alone. *)
Fixpoint ungroup (grouped : bool) (after_digit : bool) (s : string) : option string :=
  match s with
  | EmptyString => if after_digit then Some EmptyString else None
  | String c s' =>
      if decimal c then String c <$> ungroup grouped true s'
      else if bool_decide (c = "_"%char) && grouped && after_digit
           then ungroup grouped false s'
           else None
  end.

Fixpoint lstrip_by (p : ascii -> bool) (s : string) : string :=
  match s with
  | EmptyString => EmptyString
  | String c s' => if p c then lstrip_by p s' else s
  end.

Fixpoint rstrip_by (p : ascii -> bool) (s : string) : string :=
  match s with
  | EmptyString => EmptyString
  | String c s' =>
      match rstrip_by p s' with
      | EmptyString => if p c then EmptyString else String c EmptyString
      | r => String c r
      end
  end.

Definition signed (s : string) : bool * string :=
  match s with
  | String "-" s' => (true, s')
  | String "+" s' => (false, s')
  | _ => (false, s)
  end.

Definition number (negative : bool) (digits : string) : option Z :=
  u ← NilEmpty.uint_of_string digits;
  Some (if negative then - Z.of_uint u else Z.of_uint u).

(** Python 3 (3.6 and later).  [int]: blanks around the number (the six
    of ASCII, U+0085 and U+00A0), one sign directly before the digits,
    underscores between digits.  Reading in text mode: [\r\n] and a lone
    [\r] arrive as [\n]. *)
Module py3.

Definition int_space (c : ascii) : bool :=
  Ascii.is_space c ||
  match c with
  | "133" | "160" => true
  | _ => false
  end%char.

Definition int_str (s : string) : option Z :=
  let '(negative, body) := signed (rstrip_by int_space (lstrip_by int_space s)) in
  digits ← ungroup true false body;
  number negative digits.

Fixpoint universal_newlines (s : string) : string :=
  match s with
  | EmptyString => EmptyString
  | String "013" s' =>
      String "010" match s' with
                   | String "010" s'' => universal_newlines s''
                   | _ => universal_newlines s'
                   end
  | String c s' => String c (universal_newlines s')
  end.

End py3.

Definition py3_builtins : PyBuiltins := {|
  int_str := py3.int_str;
  text_mode := py3.universal_newlines;
|}.

(** Python 2.  [int]: the blanks of the C locale, which may also stand
    between the sign and the digits; no underscores.  A file opened with
    mode [r] hands out its bytes as they are. *)
Module py2.

Definition int_str (s : string) : option Z :=
  let '(negative, body) := signed (rstrip_by Ascii.is_space (lstrip_by Ascii.is_space s)) in
  digits ← ungroup false false (lstrip_by Ascii.is_space body);
  number negative digits.

End py2.

Definition py2_builtins : PyBuiltins := {|
  int_str := py2.int_str;
  text_mode := fun s => s;
|}.

(** ** [re.match] on a sequence of named greedy groups

    The pattern of [Line.set_raw] is [^], thirteen named groups, each one
    character class under a greedy [*] or [+], and [$].  The matcher is the
    backtracking one: a greedy repetition first takes as many characters as
    it can and gives them back one at a time while the rest of the pattern
    fails. *)

Module re.

Inductive charset := s_ | S_ | d_.       (* \s  \S  \d *)
Inductive quant := star | plus.          (* *   +      *)

Record group := Group { name : string; cls : charset; rep : quant }.

Definition pattern := list group.

Definition in_charset `{PyRuntime} (cs : charset) (c : ascii) : bool :=
  match cs with
  | s_ => isspace c
  | S_ => negb (isspace c)
  | d_ => isdigit c
  end.

Definition enough (q : quant) (g : string) : bool :=
  match q with
  | star => true
  | plus => negb (bool_decide (g = EmptyString))
  end.

(** [$] without MULTILINE: at the end, or just before a final newline. *)
Definition at_dollar (rest : string) : bool :=
  bool_decide (rest = EmptyString) || bool_decide (rest = String "010" EmptyString).

Fixpoint greedy {R} (p : ascii -> bool) (k : string -> string -> option R)
    (s : string) : option R :=
  match s with
  | String c s' =>
      if p c then
        match greedy p (fun g rest => k (String c g) rest) s' with
        | Some r => Some r
        | None => k EmptyString s
        end
      else k EmptyString s
  | EmptyString => k EmptyString s
  end.

(** The match object: the text of each named group, in pattern order. *)
Fixpoint match_ `{PyRuntime} (pat : pattern) (s : string)
    : option (list (string * string)) :=
  match pat with
  | [] => if at_dollar s then Some [] else None
  | g :: pat' =>
      greedy (in_charset (cls g))
        (fun text rest =>
           if enough (rep g) text
           then cons (name g, text) <$> match_ pat' rest
           else None)
        s
  end.

(** [m.group(name)] *)
Definition group_ (m : list (string * string)) (name : string) : string :=
  (list_to_map m : gmap string string) !!! name.

End re.

(** ** class Line *)

Module Line.

(** The object's state is its [dict]: attribute name to [None] or text. *)
Record t := mk { dict : gmap string pyobj }.

Definition attrs : list string :=
  ["ws1"; "device"; "ws2"; "directory"; "ws3"; "fstype";
   "ws4"; "options"; "ws5"; "dump"; "ws6"; "fsck"; "ws7"].

Definition __getattr__ (self : t) (name : string) : result pyobj :=
  match dict self !! name with
  | Some v => Ok v
  | None => Raise (AttributeError name)
  end.

(** [self.dict[key]] *)
Definition getitem (self : t) (key : string) : result pyobj :=
  match dict self !! key with
  | Some v => Ok v
  | None => Raise (KeyError key)
  end.

Definition set_dump `{PyRuntime} (self : t) (value : pyobj) : t :=
  mk (<["dump" := PyStr (str value)]> (dict self)).

Definition set_fsck `{PyRuntime} (self : t) (value : pyobj) : t :=
  mk (<["fsck" := PyStr (str value)]> (dict self)).

Definition get_options (self : t) : result (list string) :=
  v ← getitem self "options";
  match v with
  | PyStr s => Ok (Str.split "," s)
  | _ => Raise (AttributeError "split")
  end.

(** [",".join(list)]: a list of text, or text taken character by
    character; anything else is not iterable. *)
Definition set_options (self : t) (list : pyobj) : result t :=
  match list with
  | PyList l => Ok (mk (<["options" := PyStr (Str.join "," l)]> (dict self)))
  | PyStr s => Ok (mk (<["options" := PyStr (Str.join "," (Str.chars s))]> (dict self)))
  | _ => Raise TypeError
  end.

Definition pat : re.pattern :=
  [ re.Group "ws1" re.s_ re.star;
    re.Group "device" re.S_ re.star;
    re.Group "ws2" re.s_ re.plus;
    re.Group "directory" re.S_ re.plus;
    re.Group "ws3" re.s_ re.plus;
    re.Group "fstype" re.S_ re.plus;
    re.Group "ws4" re.s_ re.plus;
    re.Group "options" re.S_ re.plus;
    re.Group "ws5" re.s_ re.plus;
    re.Group "dump" re.d_ re.plus;
    re.Group "ws6" re.s_ re.plus;
    re.Group "fsck" re.d_ re.plus;
    re.Group "ws7" re.s_ re.star ].

(** [self.dict.update((attr, f(attr)) for attr in self.attrs)] *)
Definition update (d : gmap string pyobj) (f : string -> pyobj) : gmap string pyobj :=
  foldl (fun d attr => <[attr := f attr]> d) d attrs.

Definition set_raw `{PyRuntime} (self : t) (raw : string) : t :=
  let match_ :=
    if negb (bool_decide (Str.strip raw = ""))
       && negb (Str.startswith (Str.strip raw) "#")
    then re.match_ pat raw
    else None in
  let d :=
    match match_ with
    | Some m => update (dict self) (fun attr => PyStr (re.group_ m attr))
    | None => update (dict self) (fun _ => PyNone)
    end in
  mk (<["raw" := PyStr raw]> d).

(** [Line(raw)]: [self.dict = {}], then [self.raw = raw], which reaches
    the property setter [set_raw] because [dict] has no key [raw] yet. *)
Definition __init__ `{PyRuntime} (raw : string) : t := set_raw (mk ∅) raw.

Definition has_filesystem (self : t) : result bool :=
  device ← __getattr__ self "device";
  Ok (negb (bool_decide (device = PyNone))).

(** ["".join(items)]: every item has to be text. *)
Fixpoint join_items (items : list pyobj) : result string :=
  match items with
  | [] => Ok ""
  | PyStr s :: items' => rest ← join_items items'; Ok (s +:+ rest)
  | _ :: _ => Raise TypeError
  end.

Definition get_raw (self : t) : result pyobj :=
  fs ← has_filesystem self;
  if (fs : bool) then
    items ← mapM (getitem self) attrs;
    PyStr <$> join_items items
  else getitem self "raw".

Definition forbidden : list string := ["dict"; "dump"; "fsck"; "options"].

(** [object.__setattr__(self, name, value)]: the properties [dump],
    [fsck], [options] and [raw] run their setters; any other name lands
    in the instance's own attributes, which are outside [dict] ([dict]
    itself is rebound by [__init__] only). *)
Definition object_setattr `{PyRuntime} (self : t) (name : string) (value : pyobj)
    : result t :=
  if bool_decide (name = "dump") then Ok (set_dump self value)
  else if bool_decide (name = "fsck") then Ok (set_fsck self value)
  else if bool_decide (name = "options") then set_options self value
  else if bool_decide (name = "raw") then
    match value with
    | PyStr raw => Ok (set_raw self raw)
    | _ => Raise (AttributeError "strip")
    end
  else Ok self.

Definition __setattr__ `{PyRuntime} (self : t) (name : string) (value : pyobj)
    : result t :=
  if bool_decide (name ∉ forbidden) && bool_decide (name ∈ dom (dict self)) then
    if bool_decide (dict self !! name = Some PyNone) then
      Raise (Exception ("Cannot set attribute " +:+ name +:+
                        " when line does not contain filesystem specification"))
    else Ok (mk (<[name := value]> (dict self)))
  else object_setattr self name value.

Definition get_dump `{PyBuiltins} (self : t) : outcome Z :=
  value ← of_result (getitem self "dump");
  int_ value.

Definition get_fsck `{PyBuiltins} (self : t) : outcome Z :=
  value ← of_result (getitem self "fsck");
  int_ value.

(** Reading an attribute that is a [property]: the getter runs, and when
    it raises [AttributeError] the lookup goes on to [__getattr__]. *)
Definition property (fget : t -> outcome pyobj) (name : string) (self : t)
    : outcome pyobj :=
  match fget self with
  | Raises (Exn (AttributeError _)) => of_result (__getattr__ self name)
  | r => r
  end.

(** [line.dump], [line.fsck], [line.options], [line.raw] *)
Definition dump `{PyBuiltins} : t -> outcome pyobj :=
  property (fun self => PyInt <$> get_dump self) "dump".

Definition fsck `{PyBuiltins} : t -> outcome pyobj :=
  property (fun self => PyInt <$> get_fsck self) "fsck".

Definition options : t -> outcome pyobj :=
  property (fun self => PyList <$> of_result (get_options self)) "options".

Definition raw : t -> outcome pyobj :=
  property (fun self => of_result (get_raw self)) "raw".

(** [repr(line)] is [self.raw]. *)
Definition __repr__ (self : t) : outcome pyobj := raw self.

End Line.

(** ** The operating system as [Fstab.write] sees it

    Names are hard links to numbered inodes, so that a backup made with
    [os.link] keeps the old content when the name is re-bound by
    [os.rename].  The name space holds regular files only, and a file is
    known by its path as written.  Every system call first consults the
    environment's list of pending faults, which stands for the failures
    the model has no cause for (permissions, a full disk, a missing
    directory). *)

Module os.

Record inode := Inode { st_mode : Z; data : string }.

Record filesystem := FS {
  names : gmap string nat;
  inodes : gmap nat inode;
}.

Record world := World {
  fs : filesystem;
  umask : Z;
  faults : list (option errno);
  rng : nat -> string;      (* the names [tempfile] will draw *)
  drawn : nat;
}.

Definition IO (A : Type) : Type := world -> result A * world.

Definition ret {A} (a : A) : IO A := fun w => (Ok a, w).
Definition bind {A B} (m : IO A) (f : A -> IO B) : IO B := fun w =>
  match m w with
  | (Ok a, w') => f a w'
  | (Raise e, w') => (Raise e, w')
  end.
Definition raise {A} (e : exn) : IO A := fun w => (Raise e, w).
Definition lift {A} (r : result A) : IO A := fun w => (r, w).

(** [try: body finally: cleanup] *)
Definition finally {A} (body : IO A) (cleanup : IO unit) : IO A := fun w =>
  match body w with
  | (r, w') =>
      match cleanup w' with
      | (Ok _, w'') => (r, w'')
      | (Raise e, w'') => (Raise e, w'')
      end
  end.

Definition S_IFREG : Z := 32768.       (* 0o100000 *)
Definition S_IMODE (mode : Z) : Z := Z.land mode 4095.   (* 0o7777 *)

Definition set_fs (w : world) (fs' : filesystem) : world :=
  World fs' (umask w) (faults w) (rng w) (drawn w).

(** One system call: a pending fault wins, otherwise the call runs on
    the file system. *)
Definition syscall {A} (call : world -> errno + A * filesystem) : IO A := fun w =>
  let w' := World (fs w) (umask w) (tail (faults w)) (rng w) (drawn w) in
  match faults w with
  | Some e :: _ => (Raise (OSError e), w')
  | _ =>
      match call w' with
      | inl e => (Raise (OSError e), w')
      | inr (a, fs') => (Ok a, set_fs w' fs')
      end
  end.

Definition lookup_inode (f : filesystem) (name : string) : option (nat * inode) :=
  ino ← names f !! name;
  i ← inodes f !! ino;
  Some (ino, i).

(** [os.stat(filename).st_mode] *)
Definition stat (filename : string) : IO Z :=
  syscall (fun w =>
    match lookup_inode (fs w) filename with
    | Some (_, i) => inr (st_mode i, fs w)
    | None => inl ENOENT
    end).

(** [os.chmod(filename, mode)]: only the permission bits change. *)
Definition chmod (filename : string) (mode : Z) : IO unit :=
  syscall (fun w =>
    match lookup_inode (fs w) filename with
    | Some (ino, i) =>
        let m := Z.lor (Z.land (st_mode i) (Z.lnot 4095)) (S_IMODE mode) in
        inr (tt, FS (names (fs w)) (<[ino := Inode m (data i)]> (inodes (fs w))))
    | None => inl ENOENT
    end).

(** [os.remove(name)] *)
Definition remove (name : string) : IO unit :=
  syscall (fun w =>
    match names (fs w) !! name with
    | Some _ => inr (tt, FS (delete name (names (fs w))) (inodes (fs w)))
    | None => inl ENOENT
    end).

(** [os.link(oldname, newname)] *)
Definition link (oldname newname : string) : IO unit :=
  syscall (fun w =>
    match names (fs w) !! oldname with
    | None => inl ENOENT
    | Some ino =>
        match names (fs w) !! newname with
        | Some _ => inl EEXIST
        | None => inr (tt, FS (<[newname := ino]> (names (fs w))) (inodes (fs w)))
        end
    end).

(** [os.rename(oldname, newname)]: when both names are links to one
    inode nothing happens. *)
Definition rename (oldname newname : string) : IO unit :=
  syscall (fun w =>
    match names (fs w) !! oldname with
    | None => inl ENOENT
    | Some ino =>
        if bool_decide (names (fs w) !! newname = Some ino) then inr (tt, fs w)
        else inr (tt, FS (<[newname := ino]> (delete oldname (names (fs w))))
                         (inodes (fs w)))
    end).

(** [os.open(file, O_RDWR | O_CREAT | O_EXCL, 0o600)]; the descriptor is
    the inode number. *)
Definition open_excl (file : string) : IO nat :=
  syscall (fun w =>
    match names (fs w) !! file with
    | Some _ => inl EEXIST
    | None =>
        let ino := fresh (dom (inodes (fs w))) in
        inr (ino, FS (<[file := ino]> (names (fs w)))
                     (<[ino := Inode (Z.lor S_IFREG 384) ""]> (inodes (fs w))))
    end).

(** [os.close(fd)] *)
Definition close (fd : nat) : IO unit :=
  syscall (fun w => inr (tt, fs w)).

(** [open(name, "w")]: create or truncate; the file object is the inode
    number. *)
Definition open_w (name : string) : IO nat :=
  syscall (fun w =>
    match lookup_inode (fs w) name with
    | Some (ino, i) =>
        inr (ino, FS (names (fs w)) (<[ino := Inode (st_mode i) ""]> (inodes (fs w))))
    | None =>
        let ino := fresh (dom (inodes (fs w))) in
        let m := Z.lor S_IFREG (Z.land 438 (Z.lnot (umask w))) in
        inr (ino, FS (<[name := ino]> (names (fs w)))
                     (<[ino := Inode m ""]> (inodes (fs w))))
    end).

(** [f.write(text)], unbuffered *)
Definition file_write (f : nat) (text : string) : IO unit :=
  syscall (fun w =>
    match inodes (fs w) !! f with
    | Some i =>
        inr (tt, FS (names (fs w))
                    (<[f := Inode (st_mode i) (data i +:+ text)]> (inodes (fs w))))
    | None => inl EIO
    end).

(** [with open(name, "w") as f: body(f)] *)
Definition with_open_w {A} (name : string) (body : nat -> IO A) : IO A :=
  bind (open_w name) (fun f => finally (body f) (close f)).

(** [open(name, "r")]: the file has to be there. *)
Definition open_r (name : string) : IO nat :=
  syscall (fun w =>
    match lookup_inode (fs w) name with
    | Some (ino, _) => inr (ino, fs w)
    | None => inl ENOENT
    end).

(** [open(name, "r+")]: likewise, nothing is created or truncated. *)
Definition open_rplus (name : string) : IO nat :=
  syscall (fun w =>
    match lookup_inode (fs w) name with
    | Some (ino, _) => inr (ino, fs w)
    | None => inl ENOENT
    end).

(** [open(name, "a")]: the file is created when it is not there. *)
Definition open_a (name : string) : IO nat :=
  syscall (fun w =>
    match lookup_inode (fs w) name with
    | Some (ino, _) => inr (ino, fs w)
    | None =>
        let ino := fresh (dom (inodes (fs w))) in
        let m := Z.lor S_IFREG (Z.land 438 (Z.lnot (umask w))) in
        inr (ino, FS (<[name := ino]> (names (fs w)))
                     (<[ino := Inode m ""]> (inodes (fs w))))
    end).

(** Reading a file from its start to its end; one call stands for the
    reads. *)
Definition file_read (f : nat) : IO string :=
  syscall (fun w =>
    match inodes (fs w) !! f with
    | Some i => inr (data i, fs w)
    | None => inl EIO
    end).

(** [for line in f] and [f.readlines()] on a file just opened: the lines
    of its text. *)
Definition readlines `{PyBuiltins} (f : nat) : IO (list string) :=
  bind (file_read f) (fun bytes => ret (Str.lines (text_mode bytes))).

(** [f.seek(pos)] *)
Definition lseek (f : nat) (pos : nat) : IO unit :=
  syscall (fun w => inr (tt, fs w)).

(** [f.write(text)] at offset [pos] of a file opened with [r+]: the text
    replaces what was there and the rest stays. *)
Definition pwrite (f : nat) (pos : nat) (text : string) : IO unit :=
  syscall (fun w =>
    match inodes (fs w) !! f with
    | Some i =>
        let data' := Str.resize pos (data i) +:+ text
                       +:+ Str.drop (pos + String.length text) (data i) in
        inr (tt, FS (names (fs w)) (<[f := Inode (st_mode i) data']> (inodes (fs w))))
    | None => inl EIO
    end).

(** [f.truncate()] at offset [size] *)
Definition ftruncate (f : nat) (size : nat) : IO unit :=
  syscall (fun w =>
    match inodes (fs w) !! f with
    | Some i =>
        inr (tt, FS (names (fs w))
                    (<[f := Inode (st_mode i) (Str.resize size (data i))]> (inodes (fs w))))
    | None => inl EIO
    end).

(** [f.writelines(lines)] from offset [pos]; the offset reached is
    returned. *)
Fixpoint writelines (f : nat) (pos : nat) (lines : list string) : IO nat :=
  match lines with
  | [] => ret pos
  | line :: lines' =>
      bind (pwrite f pos line) (fun _ =>
        writelines f (pos + String.length line) lines')
  end.

(** [with open(name, mode) as f: body(f)] for the other modes *)
Definition with_open_r {A} (name : string) (body : nat -> IO A) : IO A :=
  bind (open_r name) (fun f => finally (body f) (close f)).

Definition with_open_rplus {A} (name : string) (body : nat -> IO A) : IO A :=
  bind (open_rplus name) (fun f => finally (body f) (close f)).

Definition with_open_a {A} (name : string) (body : nat -> IO A) : IO A :=
  bind (open_a name) (fun f => finally (body f) (close f)).

Module path.

(** [os.path.exists(name)]: a failing [stat] means no. *)
Definition exists_ (name : string) : IO bool := fun w =>
  match stat name w with
  | (Ok _, w') => (Ok true, w')
  | (Raise _, w') => (Ok false, w')
  end.

(** [p[:i], p[i:]] for [i = p.rfind('/') + 1] *)
Fixpoint rsplit (p : string) : string * string :=
  match p with
  | EmptyString => (EmptyString, EmptyString)
  | String c p' =>
      match rsplit p' with
      | (EmptyString, tail) =>
          if bool_decide (c = "/"%char) then (String c EmptyString, tail)
          else (EmptyString, String c tail)
      | (head, tail) => (String c head, tail)
      end
  end.

(** [head.rstrip('/')] *)
Fixpoint rstrip_slash (s : string) : string :=
  match s with
  | EmptyString => EmptyString
  | String c s' =>
      match rstrip_slash s' with
      | EmptyString =>
          if bool_decide (c = "/"%char) then EmptyString else String c EmptyString
      | r => String c r
      end
  end.

Definition basename (p : string) : string := snd (rsplit p).

(** [head] unless it is empty or all slashes, then stripped *)
Definition dirname (p : string) : string :=
  let head := fst (rsplit p) in
  if bool_decide (rstrip_slash head = EmptyString) then head
  else rstrip_slash head.

(** [a.endswith('/')] *)
Fixpoint endswith_slash (a : string) : bool :=
  match a with
  | EmptyString => false
  | String c EmptyString => bool_decide (c = "/"%char)
  | String _ a' => endswith_slash a'
  end.

(** [os.path.join(a, b)] *)
Definition join (a b : string) : string :=
  if Str.startswith b "/" then b
  else if bool_decide (a = EmptyString) || endswith_slash a then a +:+ b
  else a +:+ "/" +:+ b.

End path.

End os.

Global Instance IO_ret : MRet os.IO := @os.ret.
Global Instance IO_bind : MBind os.IO := fun A B f m => os.bind m f.

Module tempfile.

Definition TMP_MAX : nat := Nat.of_num_uint 10000%uint.

(** The loop of [_mkstemp_inner]: draw a name, try to create the file
    exclusively, go on to the next name when it exists already. *)
Fixpoint mkstemp_inner (seq : nat) (dir pre : string) : os.IO (nat * string) :=
  match seq with
  | O => os.raise (OSError EEXIST)
  | S seq' => fun w =>
      let name := os.rng w (os.drawn w) in
      let w1 := os.World (os.fs w) (os.umask w) (os.faults w) (os.rng w) (S (os.drawn w)) in
      let file := os.path.join dir (pre +:+ name) in
      match os.open_excl file w1 with
      | (Ok fd, w2) => (Ok (fd, file), w2)
      | (Raise (OSError EEXIST), w2) => mkstemp_inner seq' dir pre w2
      | (Raise e, w2) => (Raise e, w2)
      end
  end.

(** [tempfile.mkstemp(dir=dir, prefix=prefix)] *)
Definition mkstemp (dir prefix : string) : os.IO (nat * string) :=
  mkstemp_inner TMP_MAX dir prefix.

End tempfile.

(** ** class Fstab *)

Module Fstab.

Record t := mk { fstab_file : string; lines : list Line.t }.

(** [Fstab(fstab_file)]; the default argument is [/etc/fstab]. *)
Definition __init__ (fstab_file : string) : t := mk fstab_file [].

Definition get_perms (filename : string) : os.IO Z := os.stat filename.

Definition chmod_file (filename : string) (mode : Z) : os.IO unit :=
  os.chmod filename mode.

Definition link_file (oldname newname : string) : os.IO unit :=
  there ← os.path.exists_ newname;
  (if (there : bool) then os.remove newname else mret tt);;
  os.link oldname newname.

Definition rename_file (oldname newname : string) : os.IO unit :=
  os.rename oldname newname.

(** [for line in self.lines: f.write(line.raw)] *)
Fixpoint write_lines (f : nat) (lines : list Line.t) : os.IO unit :=
  match lines with
  | [] => mret tt
  | line :: lines' =>
      raw ← os.lift (Line.get_raw line);
      match raw with
      | PyStr text => os.file_write f text
      | _ => os.raise TypeError
      end;;
      write_lines f lines'
  end.

(** [if not fn: fn = self.fstab_file] *)
Definition fn_or_default (self : t) (fn : option string) : string :=
  match fn with
  | Some name => if bool_decide (name = "") then fstab_file self else name
  | None => fstab_file self
  end.

Definition write (self : t) (fn : option string) : os.IO unit :=
  let fn := fn_or_default self fn in
  let dirname := os.path.dirname fn in
  let prefix := os.path.basename fn +:+ "." in
  '(fd, tempname) ← tempfile.mkstemp dirname prefix;
  os.close fd;;
  os.with_open_w tempname (fun f => write_lines f (lines self));;
  mode ← get_perms fn;
  chmod_file tempname mode;;
  link_file fn (fn +:+ ".bak");;
  rename_file tempname fn.

(** [getattr(line, 'directory') == directory] *)
Definition is_entry (line : Line.t) (directory : string) : result bool :=
  d ← Line.__getattr__ line "directory";
  mret (bool_decide (d = PyStr directory)).

(** Returns the line, or [None] when the loop falls through. *)
Fixpoint get_entry_loop (lines : list Line.t) (directory : string)
    : result (option Line.t) :=
  match lines with
  | [] => mret None
  | line :: lines' =>
      hit ← is_entry line directory;
      if (hit : bool) then mret (Some line) else get_entry_loop lines' directory
  end.

Definition get_entry (self : t) (directory : string) : result (option Line.t) :=
  get_entry_loop (lines self) directory.

(** [for i, line in enumerate(self.lines): if ...: del self.lines[i]].
    The list is shortened while its iterator is live: the iterator
    keeps its position [i], so after a deletion the element that moved
    into slot [i] is never visited.  The loop ends when [i] reaches the
    current length; [steps] bounds the number of iterations. *)
Fixpoint delete_entry_loop (steps : nat) (i : nat) (lines : list Line.t)
    (directory : string) : result (list Line.t) :=
  match steps with
  | O => mret lines
  | S steps' =>
      match lines !! i with
      | None => mret lines
      | Some line =>
          hit ← is_entry line directory;
          if (hit : bool)
          then delete_entry_loop steps' (S i) (delete i lines) directory
          else delete_entry_loop steps' (S i) lines directory
      end
  end.

Definition delete_entry (self : t) (directory : string) : result t :=
  lines' ← delete_entry_loop (length (lines self)) 0 (lines self) directory;
  mret (mk (fstab_file self) lines').

(** ["{} {} {} {} {} {}\n".format(device, directory, fstype, options, dump, fsck)] *)
Definition format_entry (device directory fstype options : string) (dump fsck : Z)
    : string :=
  device +:+ " " +:+ directory +:+ " " +:+ fstype +:+ " " +:+ options +:+ " "
    +:+ Str.of_Z dump +:+ " " +:+ Str.of_Z fsck +:+ String "010" "".

(** A [Line] object is always true, so [if self.get_entry(directory)]
    asks whether an entry was found. *)
Definition add_entry `{PyRuntime} (self : t)
    (device directory fstype options : string) (dump fsck : Z) : result t :=
  found ← get_entry self directory;
  self' ← (if bool_decide (found = None) then mret self
           else delete_entry self directory);
  let line := Line.__init__ (format_entry device directory fstype options dump fsck) in
  mret (mk (fstab_file self') (lines self' ++ [line])).

(** [read] assigns [self.lines] inside the [with] block, after the loop
    and before the file is closed: the table is replaced once the whole
    file has been read, also when closing fails afterwards.  The method
    hands back its status and the object's state. *)
Definition read `{PyRuntime} `{PyBuiltins} (self : t) (fn : option string)
    : os.world -> result unit * t * os.world := fun w =>
  let fn := fn_or_default self fn in
  match os.open_r fn w with
  | (Raise e, w1) => (Raise e, self, w1)
  | (Ok f, w1) =>
      let '(r, w2) := os.readlines f w1 in
      let '(status, self') :=
        match r with
        | Ok file_lines =>
            (Ok tt,
             mk (fstab_file self)
                (foldl (fun lines line => lines ++ [Line.__init__ line]) [] file_lines))
        | Raise e => (Raise e, self)
        end in
      match os.close f w2 with
      | (Ok _, w3) => (status, self', w3)
      | (Raise e, w3) => (Raise e, self', w3)
      end
  end.

End Fstab.

(** ** setup.py: the mount-table entry and the davfs2 secret

    The functions that work on files.  The host adds to the world the
    records [LOG] has emitted, the password database and the entries of
    [/home]. *)

Module setup.

Definition CLOUDSTOR_URL : string :=
  "https://cloudstor.aarnet.edu.au/plus/remote.php/webdav/".
Definition CLOUDSTOR_MOUNT : string := "/cloudstor".

Inductive level := INFO | ERROR.

Record host := Host {
  world : os.world;
  log : list (level * string);
  passwd : gmap Z string;           (* uid to pw_name *)
  home : option (list string);      (* the entries of /home, if it can be listed *)
}.

Definition IO (A : Type) : Type := host -> outcome A * host.

Definition ret {A} (a : A) : IO A := fun h => (Returns a, h).
Definition bind {A B} (m : IO A) (f : A -> IO B) : IO B := fun h =>
  match m h with
  | (Returns a, h') => f a h'
  | (Raises e, h') => (Raises e, h')
  end.
Definition raise {A} (e : exception) : IO A := fun h => (Raises e, h).

Global Instance IO_ret : MRet IO := @ret.
Global Instance IO_bind : MBind IO := fun A B f m => bind m f.

(** A computation on the file system, run on the host's world. *)
Definition io {A} (m : os.IO A) : IO A := fun h =>
  match m (world h) with
  | (r, w') => (of_result r, Host w' (log h) (passwd h) (home h))
  end.

Definition lift {A} (r : result A) : IO A := fun h => (of_result r, h).

Module LOG.

Definition info (msg : string) : IO unit := fun h =>
  (Returns tt, Host (world h) (log h ++ [(INFO, msg)]) (passwd h) (home h)).

End LOG.

(** [os.listdir('/home')] *)
Definition listdir_home : IO (list string) := fun h =>
  io (os.syscall (fun w =>
        match home h with
        | Some entries => inr (entries, os.fs w)
        | None => inl ENOENT
        end)) h.

(** [pwd.getpwuid(1000).pw_name], and on [KeyError] the first entry of
    [/home]. *)
Definition get_default_user : IO string := fun h =>
  match passwd h !! 1000 with
  | Some pw_name => (Returns pw_name, h)
  | None =>
      (entries ← listdir_home;
       match entries with
       | name :: _ => mret name
       | [] => raise IndexError
       end) h
  end.

Definition DQ : string := String "034" "".

Definition add_davfs2_secret `{PyBuiltins} (url username password : string) : IO unit :=
  LOG.info "Adding credentials to davfs2 config";;
  let secrets_file := "/etc/davfs2/secrets" in
  let quote_pass := Str.replace "034" (String "092" DQ) password in
  io (os.with_open_rplus secrets_file (fun f =>
        lines ← os.readlines f;
        os.lseek f 0;;
        pos ← os.writelines f 0 (filter (fun l => Str.startswith l url = false) lines);
        os.ftruncate f pos));;
  io (os.with_open_a secrets_file (fun f =>
        os.file_write f (url +:+ " " +:+ username +:+ " " +:+ DQ +:+ quote_pass +:+ DQ
                           +:+ String "010" ""))).

Definition add_fstab_entry `{PyRuntime} `{PyBuiltins} : IO bool :=
  let fstab := Fstab.__init__ "/etc/fstab" in
  fstab ← (fun h =>
             match Fstab.read fstab None (world h) with
             | (Ok _, fstab', w') => (Returns fstab', Host w' (log h) (passwd h) (home h))
             | (Raise e, _, w') => (Raises (Exn e), Host w' (log h) (passwd h) (home h))
             end);
  found ← lift (Fstab.get_entry fstab CLOUDSTOR_MOUNT);
  (if bool_decide (found = None) then
     LOG.info "Adding fstab entry";;
     default_user ← get_default_user;
     let options :=
       if bool_decide (default_user = "") then "_netdev"
       else "uid=" +:+ default_user +:+ ",_netdev" in
     fstab ← lift (Fstab.add_entry fstab CLOUDSTOR_URL CLOUDSTOR_MOUNT "davfs" options 0 0);
     io (Fstab.write fstab None)
   else mret tt);;
  mret true.

End setup.

(** ** Vocabulary of the specification *)

(** The thirteen pieces of a filesystem line. *)
Record fields := Fields {
  ws1 : string; device : string; ws2 : string; directory : string;
  ws3 : string; fstype : string; ws4 : string; options : string;
  ws5 : string; dump : string; ws6 : string; fsck : string; ws7 : string;
}.

(** They are concatenated in this order when a line is rendered. *)
Definition render (f : fields) : string :=
  ws1 f +:+ device f +:+ ws2 f +:+ directory f +:+ ws3 f +:+ fstype f +:+ ws4 f
    +:+ options f +:+ ws5 f +:+ dump f +:+ ws6 f +:+ fsck f +:+ ws7 f.

(** The same pieces as a match object, and as the entries of [Line.dict]. *)
Definition groups (f : fields) : list (string * string) :=
  [ ("ws1", ws1 f); ("device", device f); ("ws2", ws2 f); ("directory", directory f);
    ("ws3", ws3 f); ("fstype", fstype f); ("ws4", ws4 f); ("options", options f);
    ("ws5", ws5 f); ("dump", dump f); ("ws6", ws6 f); ("fsck", fsck f);
    ("ws7", ws7 f) ].

Definition whitespace `{PyRuntime} (s : string) : Prop := Str.forallb isspace s = true.
Definition no_whitespace `{PyRuntime} (s : string) : Prop :=
  Str.forallb (fun c => negb (isspace c)) s = true.
Definition digits `{PyRuntime} (s : string) : Prop := Str.forallb isdigit s = true.

(** The six-field grammar in the words of the specification: [ws1] and
    [ws7] may be empty, [ws2..ws6] are non-empty whitespace, [device] may
    be empty, the mount point, type and options are non-empty, and the two
    numbers are non-empty runs of decimal digits. *)
Definition six_field `{PyRuntime} (f : fields) : Prop :=
  whitespace (ws1 f) /\
  no_whitespace (device f) /\
  (ws2 f <> "" /\ whitespace (ws2 f)) /\
  (directory f <> "" /\ no_whitespace (directory f)) /\
  (ws3 f <> "" /\ whitespace (ws3 f)) /\
  (fstype f <> "" /\ no_whitespace (fstype f)) /\
  (ws4 f <> "" /\ whitespace (ws4 f)) /\
  (options f <> "" /\ no_whitespace (options f)) /\
  (ws5 f <> "" /\ whitespace (ws5 f)) /\
  (dump f <> "" /\ digits (dump f)) /\
  (ws6 f <> "" /\ whitespace (ws6 f)) /\
  (fsck f <> "" /\ digits (fsck f)) /\
  whitespace (ws7 f).

Definition six_field_grammar `{PyRuntime} (raw : string) : Prop :=
  exists f, six_field f /\ raw = render f.

Definition blank `{PyRuntime} (raw : string) : Prop := Str.strip raw = "".
Definition comment `{PyRuntime} (raw : string) : Prop :=
  Str.startswith (Str.strip raw) "#" = true.

(** The two variants of the specification's Entry, as states of [Line.dict]:
    an OpaqueLine has [None] under every field name, a FilesystemEntry has
    the text of its thirteen pieces. *)
Definition OpaqueLine (raw : string) : Line.t :=
  Line.mk (<["raw" := PyStr raw]> (Line.update ∅ (fun _ => PyNone))).

Definition FilesystemEntry (f : fields) (raw : string) : Line.t :=
  Line.mk (<["raw" := PyStr raw]>
             (list_to_map (map (fun g => (g.1, PyStr g.2)) (groups f)))).

(** A line that currently holds the pieces [f], whatever else its [dict]
    holds. *)
Definition holds (line : Line.t) (f : fields) : Prop :=
  Forall (fun g => Line.dict line !! g.1 = Some (PyStr g.2)) (groups f).

(** A line without a filesystem specification. *)
Definition opaque (line : Line.t) : Prop :=
  Line.dict line !! "device" = Some PyNone.

(** Words: maximal runs of non-whitespace characters. *)
Fixpoint words_from `{PyRuntime} (inside : bool) (s : string) : nat :=
  match s with
  | EmptyString => 0
  | String c s' =>
      if isspace c then words_from false s'
      else ((if inside then 0 else 1) + words_from true s')%nat
  end.
Definition words `{PyRuntime} (s : string) : nat := words_from false s.

(** An argument fit to become one field: non-empty, free of whitespace. *)
Definition one_word `{PyRuntime} (s : string) : Prop := s <> "" /\ no_whitespace s.

(** The number of lines that [get_entry] would accept for a mount point. *)
Definition entries_for (lines : list Line.t) (directory : string) : nat :=
  length (filter (fun line => Line.dict line !! "directory" = Some (PyStr directory)) lines).

(** Every line carries the attribute [directory], as all lines made by
    [Line(raw)] do. *)
Definition initialised (lines : list Line.t) : Prop :=
  Forall (fun line => is_Some (Line.dict line !! "directory")) lines.

(** Observations on the file system. *)
Definition file_content (w : os.world) (name : string) : option string :=
  os.data <$> (snd <$> os.lookup_inode (os.fs w) name).

Definition file_mode (w : os.world) (name : string) : option Z :=
  os.st_mode <$> (snd <$> os.lookup_inode (os.fs w) name).

(** Every name is a link to an inode that exists. *)
Definition fs_wf (w : os.world) : Prop :=
  forall name ino, os.names (os.fs w) !! name = Some ino ->
                   is_Some (os.inodes (os.fs w) !! ino).

(** What is assumed of the names [tempfile] draws: no slash, and not the
    three letters of the backup suffix (they are six or eight characters
    out of letters, digits and the underscore). *)
Definition no_slash (s : string) : Prop :=
  Str.forallb (fun c => negb (bool_decide (c = "/"%char))) s = true.

Definition rng_ok (w : os.world) : Prop :=
  forall n, no_slash (os.rng w n) /\ os.rng w n <> "bak".

(** Steps 1 to 4 of [Fstab.write]: everything before the final rename. *)
Definition write_steps_1_4 (self : Fstab.t) (fn : string) : os.IO string :=
  let dirname := os.path.dirname fn in
  let prefix := os.path.basename fn +:+ "." in
  '(fd, tempname) ← tempfile.mkstemp dirname prefix;
  os.close fd;;
  os.with_open_w tempname (fun f => Fstab.write_lines f (Fstab.lines self));;
  mode ← Fstab.get_perms fn;
  Fstab.chmod_file tempname mode;;
  Fstab.link_file fn (fn +:+ ".bak");;
  mret tempname.

(** What the proofs ask of the interpreter's [int] and of reading in text
    mode: [int] reads back what [str] prints, it accepts what [\d+]
    matches, and text without a carriage return arrives as it is. *)
Definition no_CR (s : string) : Prop :=
  Str.forallb (fun c => negb (bool_decide (c = "013"%char))) s = true.

Class PyBuiltinsLaws `{PyRuntime} `{PyBuiltins} : Prop := {
  int_str_of_Z : forall n, int_str (Str.of_Z n) = Some n;
  int_str_digits : forall s, s <> "" -> digits s -> exists n, int_str s = Some n /\ 0 <= n;
  text_mode_no_CR : forall s, no_CR s -> text_mode s = s;
}.

(** ** Notions used in the proofs *)

(** *** The matcher *)

(** [stops p rest]: a repetition of [p] cannot take a character of [rest]. *)
Definition stops (p : ascii -> bool) (rest : string) : Prop :=
  match rest with
  | EmptyString => True
  | String c _ => p c = false
  end.

(** A match object fits a pattern: one text per group, drawn from the
    group's class, and non-empty under [+]. *)
Fixpoint matches `{PyRuntime} (pat : re.pattern) (m : list (string * string)) : Prop :=
  match pat, m with
  | [], [] => True
  | g :: pat', (n, text) :: m' =>
      n = re.name g /\ Str.forallb (re.in_charset (re.cls g)) text = true /\
      re.enough (re.rep g) text = true /\ matches pat' m'
  | _, _ => False
  end.

(** The text a match object covers. *)
Fixpoint text (m : list (string * string)) : string :=
  match m with
  | [] => ""
  | (_, t) :: m' => t +:+ text m'
  end.

(** Each text of a match object is followed by a character its group
    cannot take: the greedy matcher finds this match first. *)
Fixpoint tight `{PyRuntime} (pat : re.pattern) (m : list (string * string)) : Prop :=
  match pat, m with
  | g :: pat', _ :: m' => stops (re.in_charset (re.cls g)) (text m') /\ tight pat' m'
  | _, _ => True
  end.

(** *** Lines *)

(** The pieces [f] with other options. *)
Definition with_options (f : fields) (o : string) : fields :=
  Fields (ws1 f) (device f) (ws2 f) (directory f) (ws3 f) (fstype f) (ws4 f)
         o (ws5 f) (dump f) (ws6 f) (fsck f) (ws7 f).

Definition comma_free (s : string) : Prop :=
  Str.forallb (fun c => negb (bool_decide (c = ","%char))) s = true.

(** The exception raised by [Line.__setattr__]. *)
Definition no_filesystem_error (name : string) : exn :=
  Exception ("Cannot set attribute " +:+ name +:+
             " when line does not contain filesystem specification").

(** The pieces of the line that [add_entry] formats. *)
Definition canonical (device directory fstype options : string) (dump fsck : Z) : fields :=
  Fields "" device " " directory " " fstype " " options " "
         (Str.of_Z dump) " " (Str.of_Z fsck) (String "010" "").

(** *** Tables *)

(** The test of [get_entry] and [delete_entry] on a line that has the
    attribute. *)
Definition mounted_at (directory : string) (line : Line.t) : bool :=
  bool_decide (Line.dict line !! "directory" = Some (PyStr directory)).

(** What the loop of [delete_entry] leaves: a matching line goes, and the
    line right behind it is kept without being looked at. *)
Fixpoint delete_skipping (directory : string) (lines : list Line.t) : list Line.t :=
  match lines with
  | [] => []
  | line :: rest =>
      if mounted_at directory line then
        match rest with
        | [] => []
        | next :: rest' => next :: delete_skipping directory rest'
        end
      else line :: delete_skipping directory rest
  end.

(** *** Files *)

(** The concatenation of the rendered lines. *)
Definition concat_all (l : list string) : string := foldr String.app "" l.

(** The text of a value that is text. *)
Definition str_of (v : pyobj) : string :=
  match v with PyStr s => s | _ => "" end.

(** [f'] differs from [f] at most in the name [bak] and the inode [t]. *)
Definition touches (bak : string) (t : nat) (f f' : os.filesystem) : Prop :=
  (forall name, name <> bak -> os.names f' !! name = os.names f !! name) /\
  (forall ino, ino <> t -> os.inodes f' !! ino = os.inodes f !! ino) /\
  (is_Some (os.inodes f !! t) -> is_Some (os.inodes f' !! t)).

(** The file system [f'] is [f] with the temporary file [temp] (inode [t])
    added, and differs from it in nothing else but the backup name. *)
Definition with_leftover (f f' : os.filesystem) (fn temp : string) (t : nat) : Prop :=
  os.names f !! temp = None /\ os.inodes f !! t = None /\
  os.names f' !! temp = Some t /\ is_Some (os.inodes f' !! t) /\
  (forall name, name <> temp -> name <> fn +:+ ".bak" ->
     os.names f' !! name = os.names f !! name) /\
  (forall ino, ino <> t -> os.inodes f' !! ino = os.inodes f !! ino).

(** ** Example lines, tables and worlds *)

Definition LF : string := String "010" "".

Definition sda1_mnt : string := "/dev/sda1 /mnt ext4 defaults 0 0" +:+ LF.
Definition sdb1_mnt : string := "/dev/sdb1 /mnt ext4 defaults 0 0" +:+ LF.
Definition a_comment : string := "# scratch disk" +:+ LF.

Definition py3_line (raw : string) : Line.t := @Line.__init__ py3_runtime raw.

Definition swap_line : Line.t := py3_line "# swap".

Definition root_fields : fields :=
  Fields "" "/dev/sda1" " " "/" " " "ext4" " " "defaults" " " "0" " " "1" "".

(** Two entries for [/mnt] with a comment between them, and next to each
    other. *)
Definition duplicates_apart : Fstab.t :=
  Fstab.mk "/etc/fstab" [py3_line sda1_mnt; py3_line a_comment; py3_line sdb1_mnt].

Definition duplicates_adjacent : Fstab.t :=
  Fstab.mk "/etc/fstab" [py3_line sda1_mnt; py3_line sdb1_mnt; py3_line a_comment].

Definition one_entry : Fstab.t :=
  Fstab.mk "/etc/fstab" [py3_line sda1_mnt; py3_line a_comment].

(** A world with [/etc/fstab] (mode 0644) and nothing else; [tempfile]
    draws the name [k3x9_ab2]. *)
Definition etc_fstab : os.filesystem :=
  os.FS {[ "/etc/fstab" := 5%nat ]}
        {[ 5%nat := os.Inode 33188 "proc /proc proc defaults 0 0" ]}.

Definition quiet_world : os.world :=
  os.World etc_fstab 18 [] (fun _ => "k3x9_ab2") 0.

(** The same world, where the tenth system call, [os.link], is refused. *)
Definition link_refused_world : os.world :=
  os.World etc_fstab 18 (replicate 9 None ++ [Some EPERM]) (fun _ => "k3x9_ab2") 0.

(** ** Notions used in the proofs of the further properties *)

(** The pieces [f] with the piece called [name] replaced by [v]. *)
Definition with_field (name : string) (v : string) (f : fields) : fields :=
  let pick n old := if bool_decide (name = n) then v else old in
  Fields (pick "ws1" (ws1 f)) (pick "device" (device f)) (pick "ws2" (ws2 f))
         (pick "directory" (directory f)) (pick "ws3" (ws3 f)) (pick "fstype" (fstype f))
         (pick "ws4" (ws4 f)) (pick "options" (options f)) (pick "ws5" (ws5 f))
         (pick "dump" (dump f)) (pick "ws6" (ws6 f)) (pick "fsck" (fsck f))
         (pick "ws7" (ws7 f)).

(** No two lines for the mount point stand next to each other. *)
Fixpoint separated (directory : string) (lines : list Line.t) : bool :=
  match lines with
  | [] => true
  | line :: rest =>
      match rest with
      | next :: _ => negb (mounted_at directory line && mounted_at directory next)
      | [] => true
      end && separated directory rest
  end.

(** Text without a newline, and text that is empty or ends with one: a
    whole number of lines. *)
Definition no_LF (s : string) : Prop :=
  Str.forallb (fun c => negb (bool_decide (c = "010"%char))) s = true.

Fixpoint ends_with_LF (s : string) : bool :=
  match s with
  | EmptyString => false
  | String c EmptyString => bool_decide (c = "010"%char)
  | String _ s' => ends_with_LF s'
  end.

Definition whole_lines (s : string) : Prop := s = "" \/ ends_with_LF s = true.

(** One line: text without a newline, followed by one. *)
Definition one_line (l : string) : Prop :=
  exists body, l = body +:+ String "010" "" /\ no_LF body.

(** Text that fits inside one line of a file read in text mode. *)
Definition plain (s : string) : Prop := no_LF s /\ no_CR s.

(** The line that [add_davfs2_secret] appends. *)
Definition secret_line (url username password : string) : string :=
  url +:+ " " +:+ username +:+ " " +:+ setup.DQ
    +:+ Str.replace "034" (String "092" setup.DQ) password +:+ setup.DQ
    +:+ String "010" "".

Definition secrets_file : string := "/etc/davfs2/secrets".

(** The lines of a secrets file that [add_davfs2_secret] keeps. *)
Definition other_secrets (url : string) (text : string) : list string :=
  filter (fun l => Str.startswith l url = false) (Str.lines text).

(** The options and the line that [add_fstab_entry] adds for a user. *)
Definition cloudstor_options (default_user : string) : string :=
  if bool_decide (default_user = "") then "_netdev"
  else "uid=" +:+ default_user +:+ ",_netdev".

Definition cloudstor_line (default_user : string) : string :=
  Fstab.format_entry setup.CLOUDSTOR_URL setup.CLOUDSTOR_MOUNT "davfs"
    (cloudstor_options default_user) 0 0.

(** The user that [get_default_user] finds on a host. *)
Definition default_user_of (h : setup.host) (user : string) : Prop :=
  setup.passwd h !! 1000 = Some user \/
  setup.passwd h !! 1000 = None /\ exists others, setup.home h = Some (user :: others).

(** A secrets file with two lines, and a host with the user [ubuntu]. *)
Definition secrets_fs : os.filesystem :=
  os.FS {[ secrets_file := 7%nat ]}
        {[ 7%nat := os.Inode 33152
                      ("/home/ubuntu/dav alice secret" +:+ LF
                         +:+ "https://example.org/dav bob " +:+ setup.DQ +:+ "old" +:+ setup.DQ
                         +:+ LF) ]}.

Definition secrets_host : setup.host :=
  setup.Host (os.World secrets_fs 18 [] (fun _ => "k3x9_ab2") 0) [] {[ 1000 := "ubuntu" ]} None.

(** A host with the user [ubuntu] and a mount table of one line. *)
Definition fstab_fs : os.filesystem :=
  os.FS {[ "/etc/fstab" := 5%nat ]}
        {[ 5%nat := os.Inode 33188 ("proc /proc proc defaults 0 0" +:+ LF) ]}.

Definition fstab_host : setup.host :=
  setup.Host (os.World fstab_fs 18 [] (fun _ => "k3x9_ab2") 0) [] {[ 1000 := "ubuntu" ]} None.

(** The same mount table on a host without users. *)
Definition nobody_host : setup.host :=
  setup.Host (os.World fstab_fs 18 [] (fun _ => "k3x9_ab2") 0) [] ∅ (Some []).

(** * Proofs *)

(** ** Strings *)

Lemma sapp_cons c s t : String c s +:+ t = String c (s +:+ t).
Proof. reflexivity. Qed.

Lemma sapp_nil_l s : "" +:+ s = s.
Proof. reflexivity. Qed.

Lemma sapp_nil_r s : s +:+ "" = s.
Proof. induction s as [|c s IH]; [done|]. by rewrite sapp_cons, IH. Qed.

Lemma sapp_assoc s t u : (s +:+ t) +:+ u = s +:+ t +:+ u.
Proof. induction s as [|c s IH]; [done|]. by rewrite !sapp_cons, IH. Qed.

Lemma sapp_eq_nil s t : s +:+ t = "" -> s = "" /\ t = "".
Proof. destruct s; [done|]. by rewrite sapp_cons. Qed.

Lemma sforallb_app p s t :
  Str.forallb p (s +:+ t) = Str.forallb p s && Str.forallb p t.
Proof.
  induction s as [|c s IH]; [done|].
  rewrite sapp_cons. simpl. rewrite IH. by destruct (p c).
Qed.

(** ** The matcher *)

Section matcher.
Context `{PyRuntime}.

Lemma greedy_ext {R} p (k1 k2 : string -> string -> option R) s :
  (forall g rest, k1 g rest = k2 g rest) -> re.greedy p k1 s = re.greedy p k2 s.
Proof.
  revert k1 k2. induction s as [|c s IH]; intros k1 k2 Hk; simpl; [done|].
  rewrite (IH _ (fun g rest => k2 (String c g) rest)) by (intros; apply Hk).
  by rewrite Hk.
Qed.

Lemma greedy_sound {R} p (k : string -> string -> option R) s r :
  re.greedy p k s = Some r ->
  exists g rest, s = g +:+ rest /\ Str.forallb p g = true /\ k g rest = Some r.
Proof.
  revert k. induction s as [|c s IH]; intros k Hg; simpl in Hg.
  - by exists "", "".
  - destruct (p c) eqn:Hc; [|by exists "", (String c s)].
    destruct (re.greedy p _ s) as [r'|] eqn:Hin.
    + simplify_eq. destruct (IH _ Hin) as (g & rest & -> & Hall & Hk).
      exists (String c g), rest. simpl. by rewrite Hc, Hall.
    + by exists "", (String c s).
Qed.

Lemma greedy_complete {R} p (k : string -> string -> option R) g rest :
  Str.forallb p g = true -> is_Some (k g rest) -> is_Some (re.greedy p k (g +:+ rest)).
Proof.
  revert k. induction g as [|c g IH]; intros k Hall Hk.
  - rewrite sapp_nil_l. destruct rest as [|c rest]; simpl; [done|].
    destruct (p c); [|done]. by destruct (re.greedy p _ rest).
  - simpl in Hall. apply andb_prop in Hall as [Hc Hall].
    rewrite sapp_cons. simpl. rewrite Hc.
    destruct (IH (fun g rest => k (String c g) rest) Hall Hk) as [r ->]. done.
Qed.

Lemma greedy_max {R} p (k : string -> string -> option R) g rest :
  Str.forallb p g = true -> stops p rest -> is_Some (k g rest) ->
  re.greedy p k (g +:+ rest) = k g rest.
Proof.
  revert k. induction g as [|c g IH]; intros k Hall Hstop Hk.
  - rewrite sapp_nil_l. destruct rest as [|c rest]; simpl; [done|].
    simpl in Hstop. by rewrite Hstop.
  - simpl in Hall. apply andb_prop in Hall as [Hc Hall].
    rewrite sapp_cons. simpl. rewrite Hc.
    rewrite (IH (fun g rest => k (String c g) rest)) by done.
    by destruct Hk as [r ->].
Qed.

Lemma stops_app (p q : ascii -> bool) g rest :
  g <> "" -> Str.forallb q g = true -> (forall c, q c = true -> p c = false) ->
  stops p (g +:+ rest).
Proof.
  destruct g as [|c g]; [done|]. intros _ Hall Hpq. rewrite sapp_cons. simpl in *.
  apply andb_prop in Hall as [Hc _]. by apply Hpq.
Qed.

Lemma match_sound pat s m :
  re.match_ pat s = Some m ->
  matches pat m /\ exists tail, s = text m +:+ tail /\ re.at_dollar tail = true.
Proof.
  revert s m. induction pat as [|g pat IH]; intros s m Hm; simpl in Hm.
  - destruct (re.at_dollar s) eqn:Hd; [|done]. simplify_eq. split; [done|].
    by exists s.
  - apply greedy_sound in Hm as (t & rest & -> & Hall & Hk).
    destruct (re.enough (re.rep g) t) eqn:Hen; [|done].
    destruct (re.match_ pat rest) as [m'|] eqn:Hm'; [|done]. simpl in Hk.
    simplify_eq. destruct (IH _ _ Hm') as (Hfit & tail & -> & Hd).
    split; [done|]. exists tail. simpl. by rewrite sapp_assoc.
Qed.

Lemma match_complete pat m :
  matches pat m -> is_Some (re.match_ pat (text m)).
Proof.
  revert m. induction pat as [|g pat IH]; intros [|[n t] m] Hfit; try done.
  destruct Hfit as (-> & Hall & Hen & Hfit). simpl.
  apply greedy_complete; [done|]. rewrite Hen.
  destruct (IH _ Hfit) as [m' ->]. done.
Qed.

(** With [\s*] last, the match always runs to the very end of the
    line: [$] never has to settle for the place before a final newline. *)
Lemma last_group_whole `{!PyRuntimeLaws} {R} (f : string -> R) s r :
  re.greedy isspace (fun text rest => if re.at_dollar rest then Some (f text) else None) s
    = Some r ->
  r = f s.
Proof.
  revert f. induction s as [|c s IH]; intros f Hg; simpl in Hg.
  - by simplify_eq.
  - assert (Hnl : re.at_dollar (String c s) = true -> isspace c = true /\ s = "").
    { unfold re.at_dollar. intros Hd. apply orb_prop in Hd as [Hd|Hd].
      - by apply bool_decide_eq_true in Hd.
      - apply bool_decide_eq_true in Hd. simplify_eq. split; [apply isspace_LF|done]. }
    destruct (isspace c) eqn:Hc.
    + destruct (re.greedy isspace _ s) as [r'|] eqn:Hin.
      * simplify_eq. by apply (IH (fun g => f (String c g))).
      * destruct (re.at_dollar (String c s)) eqn:Hd; [|done].
        destruct (Hnl eq_refl) as [_ ->]. simpl in Hin. done.
    + destruct (re.at_dollar (String c s)) eqn:Hd; [|done].
      by destruct (Hnl eq_refl).
Qed.

Lemma match_whole `{!PyRuntimeLaws} pre n s m :
  re.match_ (pre ++ [re.Group n re.s_ re.star]) s = Some m -> s = text m.
Proof.
  revert s m. induction pre as [|g pre IH]; intros s m Hm; simpl in Hm.
  - erewrite greedy_ext in Hm.
    + apply (last_group_whole (fun t => [(n, t)])) in Hm. subst m. simpl.
      by rewrite sapp_nil_r.
    + intros t rest. simpl. by destruct (re.at_dollar rest).
  - apply greedy_sound in Hm as (t & rest & -> & Hall & Hk).
    destruct (re.enough (re.rep g) t); [|done].
    destruct (re.match_ _ rest) as [m'|] eqn:Hm'; [|done]. simpl in Hk.
    simplify_eq. simpl. f_equal. by apply IH.
Qed.

End matcher.

(** ** Parsing a line *)

Section line_parsing.
Context `{PyRuntime}.

Lemma enough_plus t : re.enough re.plus t = true <-> t <> "".
Proof.
  unfold re.enough. rewrite negb_true_iff, bool_decide_eq_false. done.
Qed.

Lemma text_groups f : text (groups f) = render f.
Proof. unfold render. simpl. by rewrite sapp_nil_r. Qed.

Lemma matches_groups f : six_field f -> matches Line.pat (groups f).
Proof.
  intros (?&?&[]&[]&[]&[]&[]&[]&[]&[]&[]&[]&?).
  simpl. rewrite !negb_true_iff, !bool_decide_eq_false. by repeat split.
Qed.

Lemma matches_fields m :
  matches Line.pat m -> exists f, m = groups f /\ six_field f.
Proof.
  intros Hm. unfold Line.pat in Hm.
  do 13 (destruct m as [|[? ?] m]; [done|]; simpl in Hm;
         destruct Hm as (-> & ? & ? & Hm)).
  destruct m; [|done].
  eexists (Fields _ _ _ _ _ _ _ _ _ _ _ _ _). split; [reflexivity|].
  unfold six_field; simpl.
  repeat match goal with
  | H : negb (bool_decide _) = true |- _ =>
      rewrite negb_true_iff, bool_decide_eq_false in H
  end.
  by repeat split.
Qed.

Lemma match_grammar `{!PyRuntimeLaws} raw m :
  re.match_ Line.pat raw = Some m ->
  exists f, m = groups f /\ six_field f /\ raw = render f.
Proof.
  intros Hm. pose proof Hm as Hm'.
  apply match_sound in Hm as [Hfit _].
  apply (match_whole (take 12 Line.pat) "ws7") in Hm'.
  destruct (matches_fields _ Hfit) as (f & -> & Hf).
  exists f. by rewrite <- text_groups.
Qed.

Lemma grammar_match raw :
  six_field_grammar raw -> is_Some (re.match_ Line.pat raw).
Proof.
  intros (f & Hf & ->). rewrite <- text_groups.
  by apply match_complete, matches_groups.
Qed.

(** [Line(raw)] assigns [raw] on an object whose [dict] is empty: the
    assignment falls through to the property setter. *)
Lemma init_via_setattr raw :
  Line.__setattr__ (Line.mk ∅) "raw" (PyStr raw) = Ok (Line.__init__ raw).
Proof. reflexivity. Qed.

(** The state that [Line(raw)] reaches in each of its two branches. *)
Lemma init_opaque raw :
  blank raw \/ comment raw \/ re.match_ Line.pat raw = None ->
  Line.__init__ raw = OpaqueLine raw.
Proof.
  unfold blank, comment, Line.__init__, Line.set_raw, OpaqueLine.
  intros [Hb|[Hc|Hm]].
  - by rewrite Hb.
  - rewrite Hc. by rewrite andb_false_r.
  - rewrite Hm. by destruct (_ && _).
Qed.

Lemma init_entry raw f :
  ~ blank raw -> ~ comment raw -> re.match_ Line.pat raw = Some (groups f) ->
  Line.__init__ raw = FilesystemEntry f raw.
Proof.
  unfold blank, comment, Line.__init__, Line.set_raw, FilesystemEntry.
  intros Hb Hc Hm. apply not_true_is_false in Hc.
  rewrite Hc, bool_decide_eq_false_2 by done. cbn [negb andb]. rewrite Hm.
  destruct f. reflexivity.
Qed.

Lemma get_raw_opaque raw : Line.get_raw (OpaqueLine raw) = Ok (PyStr raw).
Proof. reflexivity. Qed.

Lemma has_filesystem_opaque raw : Line.has_filesystem (OpaqueLine raw) = Ok false.
Proof. reflexivity. Qed.

Lemma get_raw_entry f raw :
  Line.get_raw (FilesystemEntry f raw) = Ok (PyStr (render f)).
Proof. rewrite <- text_groups. destruct f. reflexivity. Qed.

Lemma has_filesystem_entry f raw : Line.has_filesystem (FilesystemEntry f raw) = Ok true.
Proof. destruct f. reflexivity. Qed.

End line_parsing.

(** ** The two runtimes obey the laws *)

Lemma py2_laws : @PyRuntimeLaws py2_runtime.
Proof.
  split; try reflexivity.
  - intros c Hc. by apply bool_decide_eq_true.
  - intros [[] [] [] [] [] [] [] []]; by vm_compute.
Qed.

Lemma py3_laws : @PyRuntimeLaws py3_runtime.
Proof.
  split; try reflexivity.
  - intros c Hc. by apply bool_decide_eq_true.
  - intros [[] [] [] [] [] [] [] []]; by vm_compute.
Qed.

(** ** Blank lines and comments *)

Section stripping.
Context `{PyRuntime}.

Lemma rstrip_cons_nonspace c s :
  isspace c = false -> exists s', Str.rstrip (String c s) = String c s'.
Proof.
  intros Hc. simpl. rewrite Hc. destruct (Str.rstrip s); eauto.
Qed.

(** Stripping leaves nothing exactly when every character is whitespace. *)
Lemma blank_iff raw : blank raw <-> whitespace raw.
Proof.
  unfold blank, whitespace, Str.strip.
  induction raw as [|c raw IH]; [done|]. cbn [Str.lstrip Str.forallb].
  destruct (isspace c) eqn:Hc; [done|].
  destruct (rstrip_cons_nonspace c raw Hc) as [s' ->]. done.
Qed.

(** A line that starts with a non-whitespace character keeps it. *)
Lemma strip_cons_nonspace c s :
  isspace c = false -> exists s', Str.strip (String c s) = String c s'.
Proof.
  intros Hc. unfold Str.strip. simpl. rewrite Hc.
  by apply rstrip_cons_nonspace.
Qed.

Lemma no_whitespace_not_whitespace s :
  s <> "" -> no_whitespace s -> ~ whitespace s.
Proof.
  unfold no_whitespace, whitespace.
  destruct s as [|c s]; [done|]. simpl. intros _ Hn Hw.
  apply andb_prop in Hn as [Hn _]. apply andb_prop in Hw as [Hw _].
  rewrite Hw in Hn. done.
Qed.

Lemma grammar_not_blank raw : six_field_grammar raw -> ~ blank raw.
Proof.
  intros (f & Hf & ->). rewrite blank_iff. unfold whitespace, render.
  destruct Hf as (_ & _ & _ & [Hne Hdir] & _).
  rewrite !sforallb_app. intros Hw.
  apply (no_whitespace_not_whitespace _ Hne Hdir). unfold whitespace.
  repeat (apply andb_prop in Hw as [? Hw]; try done).
Qed.

End stripping.

Section classification.
Context `{PyRuntime} `{!PyRuntimeLaws}.

Lemma init_cases raw :
  (blank raw \/ comment raw \/ ~ six_field_grammar raw) /\ Line.__init__ raw = OpaqueLine raw
  \/ (~ blank raw /\ ~ comment raw /\
      exists f, six_field f /\ raw = render f /\ Line.__init__ raw = FilesystemEntry f raw).
Proof.
  destruct (decide (Str.strip raw = "")) as [Hb|Hb].
  { left. split; [by left|]. apply init_opaque. by left. }
  destruct (Str.startswith (Str.strip raw) "#") eqn:Hc.
  { left. split; [by right; left|]. apply init_opaque. by right; left. }
  destruct (re.match_ Line.pat raw) as [m|] eqn:Hm.
  - right. destruct (match_grammar _ _ Hm) as (f & -> & Hf & Hraw).
    split; [done|]. split; [unfold comment; by rewrite Hc|].
    exists f. split; [done|]. split; [done|].
    apply init_entry; [done| |done]. unfold comment. by rewrite Hc.
  - left. split.
    + right; right. intros Hg. apply grammar_match in Hg as [m Hm']. congruence.
    + apply init_opaque. by right; right.
Qed.

End classification.

(** C1: a raw line that is blank, a comment, or outside the six-field
    grammar is stored as an OpaqueLine, and rendering the parsed line gives
    back the raw line unchanged. *)
Theorem opaque_line_roundtrip `{PyRuntime} `{!PyRuntimeLaws} (raw : string) :
  blank raw \/ comment raw \/ ~ six_field_grammar raw ->
  Line.__init__ raw = OpaqueLine raw /\
  Line.get_raw (Line.__init__ raw) = Ok (PyStr raw).
Proof.
  intros Hraw.
  assert (Line.__init__ raw = OpaqueLine raw) as ->;
    [|by rewrite get_raw_opaque].
  destruct (init_cases raw) as [[_ ?]|(Hb & Hc & f & Hf & Hr & _)]; [done|].
  destruct Hraw as [?|[?|Hg]]; [done..|]. destruct Hg. by exists f.
Qed.

Lemma opaque_line_roundtrip_witness :
  @Line.__init__ py3_runtime a_comment = OpaqueLine a_comment /\
  Line.get_raw (@Line.__init__ py3_runtime a_comment) = Ok (PyStr a_comment).
Proof.
  apply (@opaque_line_roundtrip py3_runtime py3_laws a_comment).
  right; left. reflexivity.
Defined.

(** C2: a raw line that matches the six-field grammar renders back to
    itself; unless it is a comment it is parsed as a FilesystemEntry whose
    thirteen pieces, concatenated in order, are the raw line. *)
Theorem filesystem_line_roundtrip `{PyRuntime} `{!PyRuntimeLaws} (raw : string) :
  six_field_grammar raw ->
  Line.get_raw (Line.__init__ raw) = Ok (PyStr raw) /\
  (~ comment raw ->
   exists f, Line.__init__ raw = FilesystemEntry f raw /\
             Line.has_filesystem (Line.__init__ raw) = Ok true /\
             Line.get_raw (Line.__init__ raw) = Ok (PyStr (render f)) /\
             render f = raw).
Proof.
  intros Hg.
  destruct (init_cases raw) as [[Hcase Hi]|(Hb & Hc & f & Hf & Hr & Hi)]; rewrite Hi.
  - rewrite get_raw_opaque. split; [reflexivity|]. intros Hnc.
    destruct Hcase as [?|[?|?]]; [|done..]. by destruct (grammar_not_blank raw).
  - rewrite get_raw_entry. split; [by rewrite Hr|]. intros _.
    exists f. rewrite has_filesystem_entry. by rewrite <- Hr.
Qed.

Lemma sda1_mnt_grammar : @six_field_grammar py3_runtime sda1_mnt.
Proof.
  exists (Fields "" "/dev/sda1" " " "/mnt" " " "ext4" " " "defaults" " " "0" " " "0" LF).
  split; [|reflexivity]. unfold six_field. simpl. by repeat split.
Qed.

Lemma filesystem_line_roundtrip_witness :
  Line.get_raw (@Line.__init__ py3_runtime sda1_mnt) = Ok (PyStr sda1_mnt) /\
  (~ @comment py3_runtime sda1_mnt ->
   exists f, @Line.__init__ py3_runtime sda1_mnt = FilesystemEntry f sda1_mnt /\
             Line.has_filesystem (@Line.__init__ py3_runtime sda1_mnt) = Ok true /\
             Line.get_raw (@Line.__init__ py3_runtime sda1_mnt) = Ok (PyStr (render f)) /\
             render f = sda1_mnt).
Proof.
  apply (@filesystem_line_roundtrip py3_runtime py3_laws sda1_mnt).
  exact sda1_mnt_grammar.
Defined.

(** C8: parsing never fails.  A line whose stripped text is empty or
    starts with [#] becomes an OpaqueLine whatever else it holds; any other
    line becomes a FilesystemEntry exactly when the whole line matches the
    six-field grammar, and an OpaqueLine when it does not. *)
Theorem parse_classification `{PyRuntime} `{!PyRuntimeLaws} (raw : string) :
  (blank raw \/ comment raw -> Line.__init__ raw = OpaqueLine raw) /\
  (~ blank raw -> ~ comment raw ->
     (six_field_grammar raw ->
        exists f, six_field f /\ raw = render f /\
                  Line.__init__ raw = FilesystemEntry f raw) /\
     (~ six_field_grammar raw -> Line.__init__ raw = OpaqueLine raw)) /\
  (Line.has_filesystem (Line.__init__ raw) = Ok true <->
     ~ blank raw /\ ~ comment raw /\ six_field_grammar raw).
Proof.
  destruct (init_cases raw) as [[Hc Hi]|(Hb & Hc & f & Hf & Hr & Hi)]; rewrite Hi.
  - split; [done|]. split.
    { intros Hnb Hnc. by destruct Hc as [?|[?|?]]. }
    rewrite has_filesystem_opaque.
    split; [done|]. intros (? & ? & ?). by destruct Hc as [?|[?|?]].
  - split; [by intros [?|?]|]. split.
    + intros _ _. split; [by exists f|]. intros Hg. destruct Hg. by exists f.
    + rewrite has_filesystem_entry. split; [|done]. intros _.
      split; [done|]. split; [done|]. by exists f.
Qed.

Lemma parse_classification_witness :
  (@blank py3_runtime sdb1_mnt \/ @comment py3_runtime sdb1_mnt ->
   @Line.__init__ py3_runtime sdb1_mnt = OpaqueLine sdb1_mnt) /\
  (~ @blank py3_runtime sdb1_mnt -> ~ @comment py3_runtime sdb1_mnt ->
     (@six_field_grammar py3_runtime sdb1_mnt ->
        exists f, @six_field py3_runtime f /\ sdb1_mnt = render f /\
                  @Line.__init__ py3_runtime sdb1_mnt = FilesystemEntry f sdb1_mnt) /\
     (~ @six_field_grammar py3_runtime sdb1_mnt ->
        @Line.__init__ py3_runtime sdb1_mnt = OpaqueLine sdb1_mnt)) /\
  (Line.has_filesystem (@Line.__init__ py3_runtime sdb1_mnt) = Ok true <->
     ~ @blank py3_runtime sdb1_mnt /\ ~ @comment py3_runtime sdb1_mnt /\
     @six_field_grammar py3_runtime sdb1_mnt).
Proof. exact (@parse_classification py3_runtime py3_laws sdb1_mnt). Defined.

(** ** Field access *)

Section setters.
Context `{PyRuntime}.

Lemma holds_get_raw line f : holds line f -> Line.get_raw line = Ok (PyStr (render f)).
Proof.
  rewrite <- text_groups. destruct f. unfold holds, groups. simpl.
  rewrite !Forall_cons. simpl. intros (H1&H2&H3&H4&H5&H6&H7&H8&H9&H10&H11&H12&H13&_).
  unfold Line.get_raw, Line.has_filesystem, Line.__getattr__. rewrite H2. simpl.
  unfold Line.getitem.
  rewrite H1, H2, H3, H4, H5, H6, H7, H8, H9, H10, H11, H12, H13. reflexivity.
Qed.

Lemma holds_entry f raw : holds (FilesystemEntry f raw) f.
Proof. destruct f. unfold holds. simpl. by repeat constructor. Qed.

Lemma split_cons_join x l :
  comma_free x -> Str.split "," (Str.join "," (x :: l)) =
                  x :: match l with [] => [] | _ => Str.split "," (Str.join "," l) end.
Proof.
  unfold comma_free. induction x as [|c x IH]; intros Hx.
  - destruct l; [done|]. unfold Str.join. simpl. rewrite sapp_nil_l, sapp_cons. done.
  - simpl in Hx. apply andb_prop in Hx as [Hc Hx].
    apply negb_true_iff in Hc.
    specialize (IH Hx). unfold Str.join in *.
    destruct l as [|y l].
    + simpl in *. rewrite Hc, IH. done.
    + change (String.concat "," (String c x :: y :: l))
        with (String c (String.concat "," (x :: y :: l))).
      cbn [Str.split]. rewrite Hc, IH. done.
Qed.

(** Splitting what was joined gives the list back, when there is at
    least one option and no option holds a comma. *)
Lemma split_join l :
  l <> [] -> Forall comma_free l -> Str.split "," (Str.join "," l) = l.
Proof.
  induction l as [|x l IH]; [done|]. intros _ Hall.
  apply Forall_cons in Hall as [Hx Hall].
  rewrite split_cons_join by done. destruct l; [done|]. by rewrite IH.
Qed.

End setters.

Section opaque_setters.
Context `{PyRuntime}.

(** On a line without a filesystem specification the attributes kept in
    [dict] and not listed in [forbidden] refuse assignment. *)
Lemma setattr_opaque_refused raw name value :
  name ∈ ["device"; "directory"; "fstype"] ->
  Line.__setattr__ (OpaqueLine raw) name value = Raise (no_filesystem_error name).
Proof.
  intros Hn. repeat (apply elem_of_cons in Hn as [->|Hn]; [reflexivity|]).
  by apply elem_of_nil in Hn.
Qed.

(** [dump], [fsck] and [options] are listed in [forbidden], so the check
    is skipped and the property setters store the value. *)
Lemma setattr_opaque_stored raw value :
  Line.__setattr__ (OpaqueLine raw) "dump" value
    = Ok (Line.set_dump (OpaqueLine raw) value) /\
  Line.__setattr__ (OpaqueLine raw) "fsck" value
    = Ok (Line.set_fsck (OpaqueLine raw) value) /\
  Line.__setattr__ (OpaqueLine raw) "options" value
    = Line.set_options (OpaqueLine raw) value.
Proof. done. Qed.

(** The stored value does not show when the line is rendered. *)
Lemma get_raw_opaque_after_set raw value :
  Line.get_raw (Line.set_dump (OpaqueLine raw) value) = Ok (PyStr raw) /\
  Line.get_raw (Line.set_fsck (OpaqueLine raw) value) = Ok (PyStr raw).
Proof. done. Qed.

End opaque_setters.

(** C9: on a FilesystemEntry, assigning the list [["a", "b"]] to
    [options] makes [get_options] return [["a", "b"]] and puts [a,b]
    between [ws4] and [ws5] of the rendered line; in general the assigned
    list is stored joined with commas, rendered in the options position,
    and read back by splitting at the commas. *)
Theorem options_mutation_consistency `{PyRuntime} (line : Line.t) (f : fields) :
  holds line f ->
  (exists line',
     Line.__setattr__ line "options" (PyList ["a"; "b"]) = Ok line' /\
     Line.get_options line' = Ok ["a"; "b"] /\
     Line.get_raw line' =
       Ok (PyStr (ws1 f +:+ device f +:+ ws2 f +:+ directory f +:+ ws3 f +:+ fstype f
                    +:+ ws4 f +:+ "a,b" +:+ ws5 f +:+ dump f +:+ ws6 f +:+ fsck f
                    +:+ ws7 f))) /\
  (forall l, exists line',
     Line.__setattr__ line "options" (PyList l) = Ok line' /\
     holds line' (with_options f (Str.join "," l)) /\
     Line.get_raw line' = Ok (PyStr (render (with_options f (Str.join "," l)))) /\
     Line.get_options line' = Ok (Str.split "," (Str.join "," l)) /\
     (l <> [] -> Forall comma_free l -> Line.get_options line' = Ok l)).
Proof.
  intros Hf.
  assert (Hgen : forall l, exists line',
     Line.__setattr__ line "options" (PyList l) = Ok line' /\
     holds line' (with_options f (Str.join "," l)) /\
     Line.get_raw line' = Ok (PyStr (render (with_options f (Str.join "," l)))) /\
     Line.get_options line' = Ok (Str.split "," (Str.join "," l)) /\
     (l <> [] -> Forall comma_free l -> Line.get_options line' = Ok l)).
  { intros l. eexists. split; [reflexivity|].
    assert (Hh : holds (Line.mk (<["options" := PyStr (Str.join "," l)]> (Line.dict line)))
                   (with_options f (Str.join "," l))).
    { destruct f. unfold holds, with_options, groups in *. simpl in *.
      rewrite !Forall_cons in Hf. rewrite !Forall_cons. simpl in *.
      destruct Hf as (?&?&?&?&?&?&?&?&?&?&?&?&?&_).
      rewrite lookup_insert_eq. rewrite !lookup_insert_ne by done. by repeat split. }
    split; [exact Hh|]. split; [by apply holds_get_raw|].
    assert (Hget : Line.get_options
                     (Line.mk (<["options" := PyStr (Str.join "," l)]> (Line.dict line)))
                   = Ok (Str.split "," (Str.join "," l))).
    { unfold Line.get_options, Line.getitem. simpl. by rewrite lookup_insert_eq. }
    split; [exact Hget|]. intros Hne Hall. rewrite Hget. by rewrite split_join. }
  split; [|exact Hgen].
  destruct (Hgen ["a"; "b"]) as (line' & Hset & _ & Hraw & Hget & _).
  exists line'. split; [done|]. split; [done|]. exact Hraw.
Qed.

Lemma options_mutation_consistency_witness :
  exists line',
    @Line.__setattr__ py3_runtime (FilesystemEntry root_fields (render root_fields))
      "options" (PyList ["a"; "b"]) = Ok line' /\
    Line.get_options line' = Ok ["a"; "b"] /\
    Line.get_raw line' = Ok (PyStr "/dev/sda1 / ext4 a,b 0 1").
Proof.
  destruct (@options_mutation_consistency py3_runtime
              (FilesystemEntry root_fields (render root_fields)) root_fields
              (holds_entry root_fields (render root_fields)))
    as [(line' & Hset & Hget & Hraw) _].
  exists line'. split; [exact Hset|]. split; [exact Hget|]. exact Hraw.
Defined.

(** C3 at the input where the code departs from it: on the comment line
    [# swap] the assignments to [dump], [fsck] and [options] raise nothing
    and store their value, only [device], [directory] and [fstype] are
    refused; the stored value leaves the rendered line as it was. *)
Theorem opaque_line_accepts_dump_fsck_options :
  opaque swap_line /\
  @Line.__setattr__ py3_runtime swap_line "device" (PyStr "/dev/sdb1")
    = Raise (no_filesystem_error "device") /\
  (exists line', @Line.__setattr__ py3_runtime swap_line "dump" (PyInt 1) = Ok line' /\
                 Line.dict line' !! "dump" = Some (PyStr "1") /\
                 Line.get_raw line' = Ok (PyStr "# swap")) /\
  (exists line', @Line.__setattr__ py3_runtime swap_line "fsck" (PyInt 2) = Ok line' /\
                 Line.dict line' !! "fsck" = Some (PyStr "2") /\
                 Line.get_raw line' = Ok (PyStr "# swap")) /\
  (exists line', @Line.__setattr__ py3_runtime swap_line "options"
                   (PyList ["ro"; "noauto"]) = Ok line' /\
                 Line.dict line' !! "options" = Some (PyStr "ro,noauto") /\
                 Line.get_options line' = Ok ["ro"; "noauto"] /\
                 Line.get_raw line' = Ok (PyStr "# swap")).
Proof.
  split; [reflexivity|]. split; [reflexivity|].
  split; [|split]; eexists; repeat split; reflexivity.
Qed.

(** ** The table: lookup and deletion *)

Section lookup_and_delete.

Lemma is_entry_initialised line directory :
  is_Some (Line.dict line !! "directory") ->
  Fstab.is_entry line directory = Ok (mounted_at directory line).
Proof.
  intros [d Hd]. unfold Fstab.is_entry, Line.__getattr__, mounted_at. rewrite Hd.
  simpl. unfold mret, result_ret. f_equal. apply bool_decide_ext.
  split; congruence.
Qed.

Lemma entries_for_cons line lines directory :
  entries_for (line :: lines) directory =
  ((if mounted_at directory line then 1 else 0) + entries_for lines directory)%nat.
Proof.
  unfold entries_for, mounted_at. rewrite filter_cons.
  destruct (decide _) as [Hd|Hd].
  - by rewrite bool_decide_eq_true_2.
  - by rewrite bool_decide_eq_false_2.
Qed.

Lemma entries_for_app l1 l2 directory :
  entries_for (l1 ++ l2) directory =
  (entries_for l1 directory + entries_for l2 directory)%nat.
Proof. unfold entries_for. by rewrite filter_app, length_app. Qed.

Lemma get_entry_loop_spec lines directory :
  initialised lines ->
  exists found, Fstab.get_entry_loop lines directory = Ok found /\
    (found = None <-> entries_for lines directory = 0%nat) /\
    (forall line, found = Some line -> mounted_at directory line = true /\ line ∈ lines).
Proof.
  induction 1 as [|line lines Hl Hls IH].
  - exists None. done.
  - cbn [Fstab.get_entry_loop]. rewrite is_entry_initialised by done.
    rewrite entries_for_cons. simpl.
    destruct (mounted_at directory line) eqn:Hm.
    + exists (Some line). split; [done|]. split; [done|].
      intros ? [= <-]. split; [done|]. by left.
    + destruct IH as (found & -> & Hnone & Hsome). exists found.
      split; [done|]. split; [done|].
      intros l Hl'. destruct (Hsome l Hl'). split; [done|]. by right.
Qed.

(** The loop of [delete_entry], started anywhere with enough steps left,
    keeps what it has passed and leaves [delete_skipping] of the rest. *)
Lemma delete_entry_loop_spec steps i lines directory :
  initialised lines -> (length lines - i <= steps)%nat ->
  Fstab.delete_entry_loop steps i lines directory =
  Ok (take i lines ++ delete_skipping directory (drop i lines)).
Proof.
  revert i lines. induction steps as [|steps IH]; intros i lines Hinit Hsteps.
  - simpl. rewrite drop_ge, take_ge by lia. by rewrite app_nil_r.
  - cbn [Fstab.delete_entry_loop].
    destruct (lines !! i) as [line|] eqn:Hi.
    + assert (is_Some (Line.dict line !! "directory")) as Hline.
      { unfold initialised in Hinit. rewrite Forall_forall in Hinit.
        apply Hinit. by eapply list_elem_of_lookup_2. }
      rewrite is_entry_initialised by done. simpl.
      pose proof (lookup_lt_Some _ _ _ Hi) as Hlt.
      rewrite (drop_S _ _ _ Hi). cbn [delete_skipping].
      destruct (mounted_at directory line).
      * rewrite IH.
        -- f_equal. rewrite delete_take_drop, take_app, drop_app.
           rewrite length_take_le by lia.
           rewrite (take_ge (take i lines)), (drop_ge (take i lines))
             by (rewrite length_take_le by lia; lia).
           replace (S i - i)%nat with 1%nat by lia.
           rewrite <- app_assoc. f_equal. by destruct (drop (S i) lines).
        -- unfold initialised. by apply Forall_delete.
        -- rewrite length_delete by done. lia.
      * rewrite IH by (done || lia). f_equal.
        rewrite (take_S_r _ _ _ Hi). by rewrite <- app_assoc.
    + apply lookup_ge_None in Hi. simpl.
      rewrite drop_ge, take_ge by lia. by rewrite app_nil_r.
Qed.

End lookup_and_delete.

Section deletion.
Context `{PyRuntime} `{!PyRuntimeLaws}.

Lemma delete_entry_spec self directory :
  initialised (Fstab.lines self) ->
  Fstab.delete_entry self directory =
  Ok (Fstab.mk (Fstab.fstab_file self) (delete_skipping directory (Fstab.lines self))).
Proof.
  intros Hinit. unfold Fstab.delete_entry.
  rewrite delete_entry_loop_spec by (done || lia). done.
Qed.

(** The bound on the iterations of [delete_entry]'s loop is never what
    stops it: any larger bound gives the same table. *)
Lemma delete_entry_loop_more_steps (steps : nat) (self : Fstab.t) (directory : string) :
  initialised (Fstab.lines self) ->
  (length (Fstab.lines self) <= steps)%nat ->
  Fstab.delete_entry_loop steps 0 (Fstab.lines self) directory =
  Fstab.delete_entry_loop (length (Fstab.lines self)) 0 (Fstab.lines self) directory.
Proof.
  intros Hinit Hsteps. by rewrite !delete_entry_loop_spec by (done || lia).
Qed.

Lemma delete_skipping_none directory lines :
  entries_for lines directory = 0%nat -> delete_skipping directory lines = lines.
Proof.
  induction lines as [|line lines IH]; [done|]. rewrite entries_for_cons. simpl.
  destruct (mounted_at directory line); [done|]. intros Hn. by rewrite IH.
Qed.

Lemma filter_none directory lines :
  entries_for lines directory = 0%nat ->
  filter (fun line => mounted_at directory line = false) lines = lines.
Proof.
  induction lines as [|line lines IH]; [done|]. rewrite entries_for_cons, filter_cons.
  destruct (mounted_at directory line); [done|]. intros Hn.
  rewrite decide_True by done. by rewrite IH.
Qed.

(** With at most one matching line the loop removes exactly that one. *)
Lemma delete_skipping_single directory lines :
  (entries_for lines directory <= 1)%nat ->
  delete_skipping directory lines =
  filter (fun line => mounted_at directory line = false) lines.
Proof.
  induction lines as [|line lines IH]; [done|]. rewrite entries_for_cons, filter_cons.
  cbn [delete_skipping]. destruct (mounted_at directory line) eqn:Hm; intros Hn.
  - rewrite decide_False by done.
    rewrite filter_none by lia.
    assert (Hrest : delete_skipping directory lines = lines)
      by (apply delete_skipping_none; lia).
    destruct lines as [|next rest]; [done|].
    rewrite entries_for_cons in Hn. cbn [delete_skipping] in Hrest.
    destruct (mounted_at directory next); [lia|]. exact Hrest.
  - rewrite decide_True by done. rewrite IH by lia. done.
Qed.

Lemma entries_for_filter directory lines :
  entries_for (filter (fun line => mounted_at directory line = false) lines) directory
  = 0%nat.
Proof.
  induction lines as [|line lines IH]; [done|]. rewrite filter_cons.
  destruct (mounted_at directory line) eqn:Hm.
  - by rewrite decide_False.
  - rewrite decide_True by done. rewrite entries_for_cons, Hm. done.
Qed.

Lemma match_tight pat m :
  matches pat m -> tight pat m -> re.match_ pat (text m) = Some m.
Proof.
  revert m. induction pat as [|g pat IH]; intros [|[n t] m] Hfit Htight; try done.
  destruct Hfit as (-> & Hall & Hen & Hfit). destruct Htight as [Hstop Htight].
  cbn [re.match_ text].
  rewrite greedy_max; rewrite ?Hen, ?IH; done.
Qed.

Lemma digit_not_space c : isspace c = true -> isdigit c = false.
Proof.
  intros Hs. destruct (isdigit c) eqn:Hd; [|done].
  apply isdigit_nonspace in Hd. congruence.
Qed.

(** A six-field line with a device is parsed into exactly its pieces. *)
Lemma match_exact f :
  six_field f -> device f <> "" -> re.match_ Line.pat (render f) = Some (groups f).
Proof.
  intros Hf Hdev. rewrite <- text_groups.
  apply match_tight; [by apply matches_groups|].
  destruct Hf as (?&?&[]&[]&[]&[]&[]&[]&[]&[]&[]&[]&Hws7).
  unfold whitespace, no_whitespace, digits in *.
  destruct f as [w1 dv w2 dr w3 ft w4 op w5 dm w6 fk w7]; simpl in *.
  repeat split;
    try (eapply stops_app; [done|eassumption|]; simpl; intros c Hc;
         first [ by rewrite Hc
               | by apply negb_true_iff in Hc
               | by apply negb_false_iff
               | by apply digit_not_space
               | by apply isdigit_nonspace ]).
  destruct w7 as [|c w7]; [done|]. simpl in *.
  apply andb_prop in Hws7 as [Hc _]. by apply digit_not_space.
Qed.

End deletion.

(** ** The formatted line of [add_entry] *)

Section decimal.
Context `{PyRuntime} `{!PyRuntimeLaws}.

Lemma forallb_impl (p q : ascii -> bool) s :
  (forall c, p c = true -> q c = true) ->
  Str.forallb p s = true -> Str.forallb q s = true.
Proof.
  intros Hpq. induction s as [|c s IH]; [done|]. simpl. intros Hs.
  apply andb_prop in Hs as [Hc Hs]. by rewrite (Hpq _ Hc), IH.
Qed.

Lemma string_of_uint_digits d :
  Str.forallb isdigit (NilEmpty.string_of_uint d) = true.
Proof.
  induction d; simpl; [done|..]; rewrite IHd, andb_true_r;
    by apply isdigit_ascii.
Qed.

(** The decimal text of a non-negative integer: digits, at least one. *)
Lemma of_Z_digits n : 0 <= n -> Str.of_Z n <> "" /\ digits (Str.of_Z n).
Proof.
  intros Hn. unfold Str.of_Z, digits.
  assert (Hu : forall d, NilZero.string_of_uint d <> "" /\
                         Str.forallb isdigit (NilZero.string_of_uint d) = true).
  { intros d. unfold NilZero.string_of_uint. destruct d; simpl;
      (split; [done|]); rewrite ?string_of_uint_digits, ?andb_true_r;
      by apply isdigit_ascii. }
  destruct n as [|p|p]; [apply Hu|apply Hu|lia].
Qed.

Lemma digits_no_whitespace s : digits s -> no_whitespace s.
Proof.
  apply forallb_impl. intros c Hc. by rewrite (isdigit_nonspace _ Hc).
Qed.

End decimal.

Section formatted_line.
Context `{PyRuntime} `{!PyRuntimeLaws}.

Lemma whitespace_SP : whitespace " ".
Proof. unfold whitespace. simpl. by rewrite isspace_SP. Qed.

Lemma whitespace_LF : whitespace (String "010" "").
Proof. unfold whitespace. simpl. by rewrite isspace_LF. Qed.

Lemma canonical_six_field device directory fstype options dump fsck :
  one_word device -> one_word directory -> one_word fstype -> one_word options ->
  0 <= dump -> 0 <= fsck ->
  six_field (canonical device directory fstype options dump fsck).
Proof.
  intros [] [] [] [] Hd Hf.
  destruct (of_Z_digits dump Hd), (of_Z_digits fsck Hf).
  pose proof whitespace_SP. pose proof whitespace_LF.
  unfold six_field, canonical; simpl. by repeat split.
Qed.

Lemma render_canonical device directory fstype options dump fsck :
  render (canonical device directory fstype options dump fsck)
  = Fstab.format_entry device directory fstype options dump fsck.
Proof. reflexivity. Qed.

Lemma startswith_hash c s :
  Str.startswith (String c s) "#" = bool_decide (c = "#"%char).
Proof.
  unfold Str.startswith. cbn [String.prefix].
  destruct (ascii_dec "#" c) as [<-|Hn].
  - rewrite bool_decide_eq_true_2 by done. by destruct s.
  - rewrite bool_decide_eq_false_2; [done|congruence].
Qed.

Lemma one_word_not_comment device rest :
  one_word device -> Str.startswith device "#" = false ->
  ~ blank (device +:+ rest) /\ ~ comment (device +:+ rest).
Proof.
  intros [Hne Hnw] Hhash. destruct device as [|c device]; [done|].
  unfold no_whitespace in Hnw. simpl in Hnw.
  apply andb_prop in Hnw as [Hc _]. apply negb_true_iff in Hc.
  rewrite sapp_cons. unfold blank, comment.
  destruct (strip_cons_nonspace c (device +:+ rest) Hc) as [s' ->].
  split; [done|]. rewrite startswith_hash in *. congruence.
Qed.

(** The line that [add_entry] builds from well-formed arguments. *)
Lemma init_canonical device directory fstype options dump fsck :
  one_word device -> Str.startswith device "#" = false ->
  one_word directory -> one_word fstype -> one_word options ->
  0 <= dump -> 0 <= fsck ->
  Line.__init__ (Fstab.format_entry device directory fstype options dump fsck)
  = FilesystemEntry (canonical device directory fstype options dump fsck)
      (Fstab.format_entry device directory fstype options dump fsck).
Proof.
  intros Hdev Hhash Hdir Hfst Hopt Hd Hf.
  destruct (one_word_not_comment device
              (" " +:+ directory +:+ " " +:+ fstype +:+ " " +:+ options +:+ " "
                 +:+ Str.of_Z dump +:+ " " +:+ Str.of_Z fsck +:+ String "010" "")
              Hdev Hhash) as [Hb Hc].
  apply init_entry; [exact Hb|exact Hc|].
  rewrite <- render_canonical. apply match_exact.
  - by apply canonical_six_field.
  - by destruct Hdev.
Qed.

(** ** Counting words *)

Lemma words_from_le s : (words_from true s <= words_from false s)%nat.
Proof. destruct s as [|c s]; simpl; [done|]. destruct (isspace c); lia. Qed.

Lemma words_whitespace b s t :
  whitespace s -> (words_from b (s +:+ t) <= words_from false t)%nat.
Proof.
  unfold whitespace. revert b. induction s as [|c s IH]; intros b Hs.
  - rewrite sapp_nil_l. destruct b; [apply words_from_le|done].
  - simpl in Hs. apply andb_prop in Hs as [Hc Hs].
    rewrite sapp_cons. simpl. rewrite Hc. by apply IH.
Qed.

Lemma words_no_whitespace_inside s t :
  no_whitespace s -> words_from true (s +:+ t) = words_from true t.
Proof.
  unfold no_whitespace. induction s as [|c s IH]; intros Hs; [done|].
  simpl in Hs. apply andb_prop in Hs as [Hc Hs]. apply negb_true_iff in Hc.
  rewrite sapp_cons. simpl. rewrite Hc. by apply IH.
Qed.

Lemma words_no_whitespace b s t :
  no_whitespace s -> (words_from b (s +:+ t) <= 1 + words_from true t)%nat.
Proof.
  intros Hs. destruct s as [|c s].
  - rewrite sapp_nil_l. destruct b; [lia|]. pose proof (words_from_le t).
    destruct t as [|c t]; simpl; [lia|]. destruct (isspace c); simpl in *; lia.
  - unfold no_whitespace in Hs. simpl in Hs. apply andb_prop in Hs as [Hc Hs].
    apply negb_true_iff in Hc. rewrite sapp_cons. simpl. rewrite Hc.
    rewrite words_no_whitespace_inside by done. destruct b; lia.
Qed.

(** A line of the six-field grammar has at most six words. *)
Lemma grammar_words raw : six_field_grammar raw -> (words raw <= 6)%nat.
Proof.
  intros (f & Hf & ->).
  destruct Hf as (H1&H2&[_ H3]&[_ H4]&[_ H5]&[_ H6]&[_ H7]&[_ H8]&[_ H9]
                  &[_ H10]&[_ H11]&[_ H12]&H13).
  apply digits_no_whitespace in H10, H12.
  unfold words, render.
  destruct f as [w1 dv w2 dr w3 ft w4 op w5 dm w6 fk w7]; simpl in *.
  rewrite <- (sapp_nil_r w7).
  etrans; [apply (words_whitespace _ _ _ H1)|].
  etrans; [apply (words_no_whitespace _ _ _ H2)|]. apply le_n_S.
  etrans; [apply (words_whitespace _ _ _ H3)|].
  etrans; [apply (words_no_whitespace _ _ _ H4)|]. apply le_n_S.
  etrans; [apply (words_whitespace _ _ _ H5)|].
  etrans; [apply (words_no_whitespace _ _ _ H6)|]. apply le_n_S.
  etrans; [apply (words_whitespace _ _ _ H7)|].
  etrans; [apply (words_no_whitespace _ _ _ H8)|]. apply le_n_S.
  etrans; [apply (words_whitespace _ _ _ H9)|].
  etrans; [apply (words_no_whitespace _ _ _ H10)|]. apply le_n_S.
  etrans; [apply (words_whitespace _ _ _ H11)|].
  etrans; [apply (words_no_whitespace _ _ _ H12)|]. apply le_n_S.
  etrans; [apply (words_whitespace _ _ _ H13)|]. done.
Qed.

Lemma words_separated b s c t :
  isspace c = true ->
  words_from b (s +:+ String c t) = (words_from b s + words_from false t)%nat.
Proof.
  intros Hc. revert b. induction s as [|a s IH]; intros b.
  - rewrite sapp_nil_l. simpl. by rewrite Hc.
  - rewrite sapp_cons. simpl. destruct (isspace a); rewrite IH; lia.
Qed.

Lemma words_digits s : s <> "" -> digits s -> (1 <= words s)%nat.
Proof.
  intros Hne Hs. apply digits_no_whitespace in Hs. unfold no_whitespace in Hs.
  destruct s as [|c s]; [done|]. simpl in Hs. apply andb_prop in Hs as [Hc _].
  apply negb_true_iff in Hc. unfold words. simpl. rewrite Hc. lia.
Qed.

Lemma words_format device directory fstype options dump fsck :
  0 <= dump -> 0 <= fsck ->
  (words device + words directory + words fstype + words options + 2
   <= words (Fstab.format_entry device directory fstype options dump fsck))%nat.
Proof.
  intros Hd Hf. unfold words, Fstab.format_entry.
  change " " with (String " " "") at 1 2 3 4 5.
  rewrite !sapp_cons, !sapp_nil_l.
  rewrite !words_separated by (apply isspace_SP || apply isspace_LF).
  destruct (of_Z_digits dump Hd) as [Hd1 Hd2], (of_Z_digits fsck Hf) as [Hf1 Hf2].
  pose proof (words_digits _ Hd1 Hd2). pose proof (words_digits _ Hf1 Hf2).
  unfold words in *. simpl. lia.
Qed.

(** Seven words or more: the formatted line is kept as an OpaqueLine. *)
Lemma init_too_many_words device directory fstype options dump fsck :
  0 <= dump -> 0 <= fsck ->
  (4 < words device + words directory + words fstype + words options)%nat ->
  Line.__init__ (Fstab.format_entry device directory fstype options dump fsck)
  = OpaqueLine (Fstab.format_entry device directory fstype options dump fsck).
Proof.
  intros Hd Hf Hw.
  destruct (init_cases (Fstab.format_entry device directory fstype options dump fsck))
    as [[_ ?]|(_ & _ & f & Hsix & Hr & _)]; [done|].
  assert (Hg : six_field_grammar
                 (Fstab.format_entry device directory fstype options dump fsck))
    by (by exists f).
  apply grammar_words in Hg.
  pose proof (words_format device directory fstype options dump fsck Hd Hf). lia.
Qed.

End formatted_line.

(** ** The table: insertion *)

Section insertion.
Context `{PyRuntime} `{!PyRuntimeLaws}.

Lemma initialised_delete_skipping directory lines :
  initialised lines -> initialised (delete_skipping directory lines).
Proof.
  unfold initialised.
  assert (Hn : forall n lines, (length lines <= n)%nat ->
            Forall (fun line => is_Some (Line.dict line !! "directory")) lines ->
            Forall (fun line => is_Some (Line.dict line !! "directory"))
                   (delete_skipping directory lines)).
  { induction n as [|n IH]; intros [|line rest] Hlen Hl; simpl in *; try done; [lia|].
    apply Forall_cons in Hl as [Hline Hl].
    destruct (mounted_at directory line).
    - destruct rest as [|next rest]; [done|]. simpl in Hlen.
      apply Forall_cons in Hl as [Hnext Hl]. apply Forall_cons. split; [done|].
      apply IH; [lia|done].
    - apply Forall_cons. split; [done|]. apply IH; [lia|done]. }
  by apply (Hn (length lines)).
Qed.

Lemma initialised_init raw : is_Some (Line.dict (Line.__init__ raw) !! "directory").
Proof.
  destruct (init_cases raw) as [[_ ->]|(_ & _ & f & _ & _ & ->)]; [done|].
  by destruct f.
Qed.

(** [add_entry] on a table whose lines all carry [directory]: the loop of
    [delete_entry] runs (or would change nothing), and the re-parsed
    line is appended. *)
Lemma add_entry_spec self device directory fstype options dump fsck :
  initialised (Fstab.lines self) ->
  Fstab.add_entry self device directory fstype options dump fsck =
  Ok (Fstab.mk (Fstab.fstab_file self)
        (delete_skipping directory (Fstab.lines self) ++
         [Line.__init__ (Fstab.format_entry device directory fstype options dump fsck)])).
Proof.
  intros Hinit. unfold Fstab.add_entry, Fstab.get_entry.
  destruct (get_entry_loop_spec (Fstab.lines self) directory Hinit)
    as (found & -> & Hnone & _). simpl.
  destruct found as [line|].
  - rewrite bool_decide_eq_false_2 by done.
    rewrite delete_entry_spec by done. done.
  - rewrite bool_decide_eq_true_2 by done. simpl.
    rewrite delete_skipping_none by (by apply Hnone). by destruct self.
Qed.

Lemma mounted_at_canonical device directory fstype options dump fsck raw d :
  mounted_at d (FilesystemEntry (canonical device directory fstype options dump fsck) raw)
  = bool_decide (directory = d).
Proof.
  unfold mounted_at. apply bool_decide_ext.
  change (Some (PyStr directory) = Some (PyStr d) <-> directory = d).
  split; congruence.
Qed.

Lemma mounted_at_opaque raw d : mounted_at d (OpaqueLine raw) = false.
Proof. reflexivity. Qed.

Lemma add_entry_once self device directory fstype options dump fsck :
  initialised (Fstab.lines self) ->
  (entries_for (Fstab.lines self) directory <= 1)%nat ->
  one_word device -> Str.startswith device "#" = false ->
  one_word directory -> one_word fstype -> one_word options ->
  0 <= dump -> 0 <= fsck ->
  exists self',
    Fstab.add_entry self device directory fstype options dump fsck = Ok self' /\
    Fstab.lines self' =
      filter (fun line => mounted_at directory line = false) (Fstab.lines self) ++
      [FilesystemEntry (canonical device directory fstype options dump fsck)
         (Fstab.format_entry device directory fstype options dump fsck)] /\
    entries_for (Fstab.lines self') directory = 1%nat /\
    initialised (Fstab.lines self').
Proof.
  intros Hinit Hone Hdev Hhash Hdir Hfst Hopt Hd Hf.
  eexists. split; [by apply add_entry_spec|]. simpl.
  rewrite init_canonical by done. rewrite delete_skipping_single by done.
  split; [done|]. split.
  - rewrite entries_for_app, entries_for_filter, entries_for_cons.
    rewrite mounted_at_canonical, bool_decide_eq_true_2 by done. done.
  - apply Forall_app. split.
    + unfold initialised in Hinit. rewrite Forall_forall in *.
      intros line Hl. apply Hinit. by apply list_elem_of_filter in Hl as [_ ?].
    + apply Forall_singleton. by destruct (canonical _ _ _ _ _ _).
Qed.

End insertion.

(** Supplementary facts on [delete_entry]: what it shares with the
    specification. *)
Lemma delete_entry_absent (self : Fstab.t) (directory : string) :
  initialised (Fstab.lines self) ->
  entries_for (Fstab.lines self) directory = 0%nat ->
  Fstab.delete_entry self directory = Ok self.
Proof.
  intros Hinit Hnone. rewrite delete_entry_spec by done.
  rewrite delete_skipping_none by done. by destruct self.
Qed.

Lemma delete_entry_keeps_others (self : Fstab.t) (directory : string) (line : Line.t) :
  initialised (Fstab.lines self) ->
  line ∈ Fstab.lines self -> mounted_at directory line = false ->
  exists self', Fstab.delete_entry self directory = Ok self' /\ line ∈ Fstab.lines self'.
Proof.
  intros Hinit Hin Hm. eexists. split; [by apply delete_entry_spec|]. simpl.
  clear Hinit. revert Hin.
  assert (Hn : forall n lines, (length lines <= n)%nat ->
            line ∈ lines -> line ∈ delete_skipping directory lines).
  { induction n as [|n IH]; intros [|l rest] Hlen Hin; simpl in *;
      try (by apply elem_of_nil in Hin); [lia|].
    destruct (mounted_at directory l) eqn:Hl.
    - apply elem_of_cons in Hin as [->|Hin]; [congruence|].
      destruct rest as [|next rest]; [done|]. simpl in Hlen.
      apply elem_of_cons in Hin as [->|Hin]; [by left|].
      right. apply IH; [lia|done].
    - apply elem_of_cons in Hin as [->|Hin]; [by left|].
      right. apply IH; [lia|done]. }
  apply (Hn (length (Fstab.lines self))). done.
Qed.

(** C4 at the input where the code departs from it: the loop of
    [delete_entry] does not stop at the first match.  With a comment line
    between two entries for [/mnt] both entries are removed; the later one
    survives only when it directly follows the removed one. *)
Theorem delete_entry_removes_later_duplicate :
  Fstab.delete_entry duplicates_apart "/mnt"
    = Ok (Fstab.mk "/etc/fstab" [py3_line a_comment]) /\
  Fstab.delete_entry duplicates_adjacent "/mnt"
    = Ok (Fstab.mk "/etc/fstab" [py3_line sdb1_mnt; py3_line a_comment]).
Proof. split; reflexivity. Qed.

(** C5 fails as stated.  A table that already holds two adjacent entries
    for [/mnt] holds two entries for [/mnt] after [add_entry] as well; and
    two calls with options that hold a space leave two OpaqueLines and no
    FilesystemEntry for [/mnt] at all. *)
Lemma add_entry_not_exactly_one :
  (exists self',
     @Fstab.add_entry py3_runtime duplicates_adjacent
       "cloudstor" "/mnt" "davfs" "_netdev" 0 0 = Ok self' /\
     Fstab.lines self' =
       [py3_line sdb1_mnt; py3_line a_comment;
        py3_line ("cloudstor /mnt davfs _netdev 0 0" +:+ LF)] /\
     entries_for (Fstab.lines self') "/mnt" = 2%nat) /\
  (exists self' self'',
     @Fstab.add_entry py3_runtime (Fstab.__init__ "/etc/fstab")
       "cloudstor" "/mnt" "davfs" "rw, _netdev" 0 0 = Ok self' /\
     @Fstab.add_entry py3_runtime self'
       "cloudstor" "/mnt" "davfs" "rw, _netdev" 0 0 = Ok self'' /\
     Fstab.lines self'' =
       [OpaqueLine ("cloudstor /mnt davfs rw, _netdev 0 0" +:+ LF);
        OpaqueLine ("cloudstor /mnt davfs rw, _netdev 0 0" +:+ LF)] /\
     entries_for (Fstab.lines self'') "/mnt" = 0%nat).
Proof.
  split.
  - eexists. split; [reflexivity|]. split; reflexivity.
  - eexists _, _. split; [reflexivity|]. split; [reflexivity|]. split; reflexivity.
Qed.

(** C5, amended: on a table with at most one entry for the mount point,
    and with arguments that are single words (the device not starting
    with [#]) and non-negative numbers, [add_entry] removes the entry
    that is there and appends the new FilesystemEntry at the end, leaving
    exactly one entry for the mount point; a second call for the same
    mount point again leaves exactly one, with the second call's values. *)
Theorem add_entry_replaces `{PyRuntime} `{!PyRuntimeLaws} (self : Fstab.t)
    (directory device fstype options device2 fstype2 options2 : string)
    (dump fsck dump2 fsck2 : Z) :
  initialised (Fstab.lines self) ->
  (entries_for (Fstab.lines self) directory <= 1)%nat ->
  one_word directory ->
  one_word device -> Str.startswith device "#" = false ->
  one_word fstype -> one_word options -> 0 <= dump -> 0 <= fsck ->
  one_word device2 -> Str.startswith device2 "#" = false ->
  one_word fstype2 -> one_word options2 -> 0 <= dump2 -> 0 <= fsck2 ->
  exists self' self'',
    Fstab.add_entry self device directory fstype options dump fsck = Ok self' /\
    Fstab.lines self' =
      filter (fun line => mounted_at directory line = false) (Fstab.lines self) ++
      [FilesystemEntry (canonical device directory fstype options dump fsck)
         (Fstab.format_entry device directory fstype options dump fsck)] /\
    entries_for (Fstab.lines self') directory = 1%nat /\
    Fstab.add_entry self' device2 directory fstype2 options2 dump2 fsck2 = Ok self'' /\
    Fstab.lines self'' =
      filter (fun line => mounted_at directory line = false) (Fstab.lines self) ++
      [FilesystemEntry (canonical device2 directory fstype2 options2 dump2 fsck2)
         (Fstab.format_entry device2 directory fstype2 options2 dump2 fsck2)] /\
    entries_for (Fstab.lines self'') directory = 1%nat.
Proof.
  intros Hinit Hone Hdir Hdev Hhash Hfst Hopt Hd Hf Hdev2 Hhash2 Hfst2 Hopt2 Hd2 Hf2.
  destruct (add_entry_once self device directory fstype options dump fsck)
    as (self' & Hadd & Hlines & Hcount & Hinit'); try done.
  destruct (add_entry_once self' device2 directory fstype2 options2 dump2 fsck2)
    as (self'' & Hadd2 & Hlines2 & Hcount2 & _); try done; [lia|].
  exists self', self''. repeat (split; [done|]). split; [|done].
  rewrite Hlines2, Hlines. f_equal.
  rewrite filter_app, filter_cons, filter_nil.
  rewrite mounted_at_canonical, bool_decide_eq_true_2 by done.
  rewrite decide_False by done. rewrite app_nil_r.
  apply filter_none, entries_for_filter.
Qed.

Lemma add_entry_replaces_witness :
  exists self' self'',
    @Fstab.add_entry py3_runtime one_entry "cloudstor" "/mnt" "davfs" "_netdev" 0 0
      = Ok self' /\
    Fstab.lines self' =
      filter (fun line => mounted_at "/mnt" line = false) (Fstab.lines one_entry) ++
      [FilesystemEntry (canonical "cloudstor" "/mnt" "davfs" "_netdev" 0 0)
         (Fstab.format_entry "cloudstor" "/mnt" "davfs" "_netdev" 0 0)] /\
    entries_for (Fstab.lines self') "/mnt" = 1%nat /\
    @Fstab.add_entry py3_runtime self' "aarnet" "/mnt" "davfs2" "uid=ubuntu,_netdev" 0 2
      = Ok self'' /\
    Fstab.lines self'' =
      filter (fun line => mounted_at "/mnt" line = false) (Fstab.lines one_entry) ++
      [FilesystemEntry (canonical "aarnet" "/mnt" "davfs2" "uid=ubuntu,_netdev" 0 2)
         (Fstab.format_entry "aarnet" "/mnt" "davfs2" "uid=ubuntu,_netdev" 0 2)] /\
    entries_for (Fstab.lines self'') "/mnt" = 1%nat.
Proof.
  apply (@add_entry_replaces py3_runtime py3_laws one_entry
           "/mnt" "cloudstor" "davfs" "_netdev" "aarnet" "davfs2" "uid=ubuntu,_netdev"
           0 0 0 2);
    first [ by repeat constructor
          | by vm_compute
          | by split ].
Defined.

(** C10 fails as stated, in each of its parts: a device that begins with
    [#] makes the formatted line a comment although every argument is a
    non-empty word; whitespace at the end of the options is absorbed by
    the separator, so the line is still a FilesystemEntry; and after an
    OpaqueLine was appended [get_entry] still finds the second of two
    adjacent entries that the table held. *)
Lemma add_entry_reparse_surprises :
  (exists self',
     @Fstab.add_entry py3_runtime (Fstab.__init__ "/etc/fstab")
       "#cloudstor" "/mnt" "davfs" "_netdev" 0 0 = Ok self' /\
     Fstab.lines self' = [OpaqueLine ("#cloudstor /mnt davfs _netdev 0 0" +:+ LF)]) /\
  (exists self',
     @Fstab.add_entry py3_runtime (Fstab.__init__ "/etc/fstab")
       "cloudstor" "/mnt" "davfs" "_netdev " 0 0 = Ok self' /\
     Fstab.lines self' =
       [FilesystemEntry
          (Fields "" "cloudstor" " " "/mnt" " " "davfs" " " "_netdev" "  " "0" " " "0" LF)
          ("cloudstor /mnt davfs _netdev  0 0" +:+ LF)] /\
     (exists found, Fstab.get_entry self' "/mnt" = Ok (Some found))) /\
  (exists self',
     @Fstab.add_entry py3_runtime duplicates_adjacent
       "cloudstor" "/mnt" "davfs" "rw, _netdev" 0 0 = Ok self' /\
     Fstab.lines self' =
       [py3_line sdb1_mnt; py3_line a_comment;
        OpaqueLine ("cloudstor /mnt davfs rw, _netdev 0 0" +:+ LF)] /\
     Fstab.get_entry self' "/mnt" = Ok (Some (py3_line sdb1_mnt))).
Proof.
  split; [|split].
  - eexists. split; reflexivity.
  - eexists. split; [reflexivity|]. split; [reflexivity|]. eexists. reflexivity.
  - eexists. split; [reflexivity|]. split; reflexivity.
Qed.

(** C10, amended: [add_entry] appends the line obtained by formatting its
    arguments with single spaces and a newline and parsing that text.
    When device, mount point, type and options are single words, the
    device does not begin with [#] and the numbers are non-negative, the
    appended line is a FilesystemEntry with those values.  When each of
    the four holds a word and one of them holds two or more, the appended
    line is an OpaqueLine, and if the table had at most one entry for the
    mount point, [get_entry] afterwards finds none. *)
Theorem add_entry_reparses `{PyRuntime} `{!PyRuntimeLaws} (self : Fstab.t)
    (device directory fstype options : string) (dump fsck : Z) :
  initialised (Fstab.lines self) -> 0 <= dump -> 0 <= fsck ->
  exists self' kept,
    Fstab.add_entry self device directory fstype options dump fsck = Ok self' /\
    Fstab.lines self' =
      kept ++ [Line.__init__ (Fstab.format_entry device directory fstype options dump fsck)] /\
    (one_word device -> Str.startswith device "#" = false ->
     one_word directory -> one_word fstype -> one_word options ->
       Line.__init__ (Fstab.format_entry device directory fstype options dump fsck)
       = FilesystemEntry (canonical device directory fstype options dump fsck)
           (Fstab.format_entry device directory fstype options dump fsck)) /\
    ((1 <= words device)%nat -> (1 <= words directory)%nat ->
     (1 <= words fstype)%nat -> (1 <= words options)%nat ->
     (2 <= words device \/ 2 <= words directory \/
      2 <= words fstype \/ 2 <= words options)%nat ->
       Line.__init__ (Fstab.format_entry device directory fstype options dump fsck)
       = OpaqueLine (Fstab.format_entry device directory fstype options dump fsck) /\
       ((entries_for (Fstab.lines self) directory <= 1)%nat ->
        Fstab.get_entry self' directory = Ok None)).
Proof.
  intros Hinit Hd Hf. eexists _, (delete_skipping directory (Fstab.lines self)).
  split; [by apply add_entry_spec|]. split; [done|]. split.
  - intros. by apply init_canonical.
  - intros Hw1 Hw2 Hw3 Hw4 Hw.
    assert (Hop : Line.__init__ (Fstab.format_entry device directory fstype options dump fsck)
                  = OpaqueLine (Fstab.format_entry device directory fstype options dump fsck))
      by (apply init_too_many_words; [done..|lia]).
    split; [exact Hop|]. intros Hone. unfold Fstab.get_entry. simpl. rewrite Hop.
    rewrite delete_skipping_single by done.
    destruct (get_entry_loop_spec
                (filter (fun line => mounted_at directory line = false) (Fstab.lines self)
                 ++ [OpaqueLine (Fstab.format_entry device directory fstype options dump fsck)])
                directory) as (found & -> & Hnone & _).
    + apply Forall_app. split; [|by apply Forall_singleton].
      unfold initialised in Hinit. rewrite Forall_forall in *.
      intros line Hl. apply Hinit. by apply list_elem_of_filter in Hl as [_ ?].
    + f_equal. apply Hnone. rewrite entries_for_app, entries_for_filter. done.
Qed.

Lemma add_entry_reparses_witness :
  exists self' kept,
    @Fstab.add_entry py3_runtime one_entry "cloudstor" "/mnt" "davfs" "rw, _netdev" 0 0
      = Ok self' /\
    Fstab.lines self' =
      kept ++ [py3_line (Fstab.format_entry "cloudstor" "/mnt" "davfs" "rw, _netdev" 0 0)] /\
    py3_line (Fstab.format_entry "cloudstor" "/mnt" "davfs" "rw, _netdev" 0 0)
      = OpaqueLine (Fstab.format_entry "cloudstor" "/mnt" "davfs" "rw, _netdev" 0 0) /\
    Fstab.get_entry self' "/mnt" = Ok None.
Proof.
  destruct (@add_entry_reparses py3_runtime py3_laws one_entry
              "cloudstor" "/mnt" "davfs" "rw, _netdev" 0 0)
    as (self' & kept & Hadd & Hlines & _ & Hopaque);
    [by repeat constructor|done|done|].
  exists self', kept. split; [exact Hadd|]. split; [exact Hlines|].
  destruct Hopaque as [Hop Hget];
    [vm_compute; lia..|right; right; right; vm_compute; lia|].
  split; [exact Hop|]. apply Hget. vm_compute. lia.
Defined.

(** ** Paths *)

Section paths.

Lemma rsplit_no_slash s : no_slash s -> os.path.rsplit s = ("", s).
Proof.
  unfold no_slash. induction s as [|c s IH]; [done|]. simpl. intros Hs.
  apply andb_prop in Hs as [Hc Hs]. apply negb_true_iff in Hc.
  rewrite (IH Hs), Hc. done.
Qed.

Lemma no_slash_basename p : no_slash (os.path.basename p).
Proof.
  unfold os.path.basename, no_slash. induction p as [|c p IH]; [done|].
  simpl. destruct (os.path.rsplit p) as [[|h head] tail]; simpl in *.
  - destruct (bool_decide (c = "/"%char)) eqn:Hc; simpl; [done|].
    by rewrite Hc, IH.
  - done.
Qed.

Lemma no_slash_app s t : no_slash s -> no_slash t -> no_slash (s +:+ t).
Proof. unfold no_slash. rewrite sforallb_app. by intros -> ->. Qed.

Lemma rsplit_dir_app a b :
  os.path.endswith_slash a = true -> no_slash b ->
  os.path.rsplit (a +:+ b) = (a, b).
Proof.
  intros Ha Hb. induction a as [|c a IH]; [done|].
  rewrite sapp_cons. cbn [os.path.rsplit].
  destruct a as [|c' a].
  - apply bool_decide_eq_true in Ha as ->. rewrite sapp_nil_l.
    by rewrite (rsplit_no_slash _ Hb).
  - rewrite IH by done. done.
Qed.

Lemma endswith_slash_app a : os.path.endswith_slash (a +:+ "/") = true.
Proof.
  induction a as [|c a IH]; [done|]. rewrite sapp_cons.
  cbn [os.path.endswith_slash]. destruct (a +:+ "/") eqn:Ha; [|done].
  by destruct a.
Qed.

Lemma no_slash_startswith b : no_slash b -> Str.startswith b "/" = false.
Proof.
  unfold no_slash, Str.startswith. destruct b as [|c b]; [done|].
  cbn [Str.forallb String.prefix].
  intros Hb. apply andb_prop in Hb as [Hc _]. apply negb_true_iff in Hc.
  apply bool_decide_eq_false in Hc.
  destruct (ascii_dec "/" c); [congruence|done].
Qed.

Lemma basename_join a b : no_slash b -> os.path.basename (os.path.join a b) = b.
Proof.
  intros Hb. unfold os.path.join, os.path.basename.
  rewrite no_slash_startswith by done.
  destruct (bool_decide (a = "")) eqn:Ha.
  - apply bool_decide_eq_true in Ha as ->. simpl.
    rewrite sapp_nil_l. by rewrite rsplit_no_slash.
  - simpl. destruct (os.path.endswith_slash a) eqn:He.
    + by rewrite rsplit_dir_app.
    + rewrite <- sapp_assoc. rewrite rsplit_dir_app; [done| |done].
      apply endswith_slash_app.
Qed.

Lemma rsplit_app p q :
  no_slash q ->
  os.path.rsplit (p +:+ q) = ((os.path.rsplit p).1, (os.path.rsplit p).2 +:+ q).
Proof.
  intros Hq. induction p as [|c p IH].
  - rewrite sapp_nil_l. by rewrite rsplit_no_slash.
  - rewrite sapp_cons. cbn [os.path.rsplit]. rewrite IH.
    destruct (os.path.rsplit p) as [[|h head] tail]; simpl; [|done].
    by destruct (bool_decide _).
Qed.

Lemma sapp_id_inv s x : s +:+ x = s -> x = "".
Proof.
  induction s as [|c s IH]; [done|]. rewrite sapp_cons. intros [= Hs]. by apply IH.
Qed.

(** The temporary name differs from the file and from its backup. *)
Lemma tempname_fresh fn r :
  no_slash r -> r <> "bak" ->
  let temp := os.path.join (os.path.dirname fn) ((os.path.basename fn +:+ ".") +:+ r) in
  temp <> fn /\ temp <> fn +:+ ".bak" /\ fn +:+ ".bak" <> fn.
Proof.
  intros Hr Hbak temp.
  assert (Hb : os.path.basename temp = os.path.basename fn +:+ "." +:+ r).
  { unfold temp. rewrite basename_join; [by rewrite sapp_assoc|].
    apply no_slash_app; [|done]. apply no_slash_app; [|done].
    apply no_slash_basename. }
  split; [|split].
  - intros Heq. rewrite Heq in Hb. symmetry in Hb. by apply sapp_id_inv in Hb.
  - intros Heq. rewrite Heq in Hb. unfold os.path.basename in Hb.
    rewrite rsplit_app in Hb by done. simpl in Hb.
    apply (inj (String.app _)) in Hb.
    change ("." +:+ r) with (String "." r) in Hb. by simplify_eq.
  - intros Heq. by apply sapp_id_inv in Heq.
Qed.

End paths.

(** ** Permission bits *)

Lemma S_IMODE_chmod old mode :
  os.S_IMODE (Z.lor (Z.land old (Z.lnot 4095)) (os.S_IMODE mode)) = os.S_IMODE mode.
Proof.
  unfold os.S_IMODE. apply Z.bits_inj'. intros n Hn.
  rewrite !Z.land_spec, Z.lor_spec, !Z.land_spec, Z.lnot_spec by done.
  destruct (Z.testbit 4095 n); [|by rewrite !andb_false_r].
  simpl. by rewrite !andb_false_r, !andb_true_r.
Qed.

(** ** The IO monad and the system calls *)

Section io.

Lemma bind_inv {A B} (m : os.IO A) (k : A -> os.IO B) w r w' :
  (m ≫= k) w = (r, w') ->
  (exists a w1, m w = (Ok a, w1) /\ k a w1 = (r, w')) \/
  (exists e, m w = (Raise e, w') /\ r = Raise e).
Proof.
  unfold mbind, IO_bind, os.bind. destruct (m w) as [[a|e] w1]; intros Hk.
  - left. by exists a, w1.
  - right. exists e. by simplify_eq.
Qed.

Lemma syscall_inv {A} (call : os.world -> errno + A * os.filesystem) w r w' :
  os.syscall call w = (r, w') ->
  os.rng w' = os.rng w /\ os.drawn w' = os.drawn w /\
  ((exists e, r = Raise (OSError e)) /\ os.fs w' = os.fs w \/
   exists a w0, r = Ok a /\ os.fs w0 = os.fs w /\ os.umask w0 = os.umask w /\
                call w0 = inr (a, os.fs w')).
Proof.
  unfold os.syscall. intros Hs.
  destruct (os.faults w) as [|[e|] faults].
  - destruct (call _) as [e|[a fs']] eqn:Hc; simplify_eq; simpl.
    + split; [done|]. split; [done|]. left; split; [by eexists|done].
    + split; [done|]. split; [done|]. right. eexists a, _. split; [done|]. refine (conj _ (conj _ Hc)); done.
  - simplify_eq. simpl. split; [done|]. split; [done|]. left; split; [by eexists|done].
  - destruct (call _) as [e|[a fs']] eqn:Hc; simplify_eq; simpl.
    + split; [done|]. split; [done|]. left; split; [by eexists|done].
    + split; [done|]. split; [done|]. right. eexists a, _. split; [done|]. refine (conj _ (conj _ Hc)); done.
Qed.

Lemma touches_refl bak t f : touches bak t f f.
Proof. by repeat split. Qed.

Lemma touches_trans bak t f1 f2 f3 :
  touches bak t f1 f2 -> touches bak t f2 f3 -> touches bak t f1 f3.
Proof.
  intros (Hn1 & Hi1 & Ht1) (Hn2 & Hi2 & Ht2). split; [|split].
  - intros name Hne. by rewrite Hn2, Hn1.
  - intros ino Hne. by rewrite Hi2, Hi1.
  - auto.
Qed.

Lemma touches_eq bak t f f' : f' = f -> touches bak t f f'.
Proof. intros ->. apply touches_refl. Qed.

Lemma touches_inode bak t f i :
  touches bak t f (os.FS (os.names f) (<[t := i]> (os.inodes f))).
Proof.
  split; [done|]. split; simpl.
  - intros ino Hne. by rewrite lookup_insert_ne.
  - intros _. rewrite lookup_insert_eq. eauto.
Qed.

Lemma touches_name bak t f names' :
  (forall name, name <> bak -> names' !! name = os.names f !! name) ->
  touches bak t f (os.FS names' (os.inodes f)).
Proof. intros Hn. by repeat split. Qed.

Lemma stat_inv name w r w' :
  os.stat name w = (r, w') ->
  os.fs w' = os.fs w /\
  forall m, r = Ok m ->
    exists ino i, os.lookup_inode (os.fs w) name = Some (ino, i) /\ os.st_mode i = m.
Proof.
  intros Hs. apply syscall_inv in Hs as (_ & _ & [[[e ->] Hfs]|(m & w0 & -> & Hw0 & _ & Hc)]).
  - done.
  - rewrite Hw0 in Hc. destruct (os.lookup_inode _ _) as [[ino i]|]; [|done].
    simplify_eq. split; [done|]. intros ? [= <-]. by eexists _, _.
Qed.

Lemma exists_inv name w b w' :
  os.path.exists_ name w = (b, w') -> os.fs w' = os.fs w.
Proof.
  unfold os.path.exists_. intros He.
  destruct (os.stat name w) as [[m|e] w1] eqn:Hs;
    pose proof (stat_inv _ _ _ _ Hs) as [Hfs _]; by simplify_eq.
Qed.

Lemma close_inv fd w r w' : os.close fd w = (r, w') -> os.fs w' = os.fs w.
Proof.
  intros Hs. apply syscall_inv in Hs as (_ & _ & [[_ ?]|(? & w0 & _ & Hw0 & _ & Hc)]);
    [done|]. simpl in Hc. injection Hc as _ Hfs. congruence.
Qed.

Lemma chmod_inv name mode w r w' :
  os.chmod name mode w = (r, w') ->
  (exists e, r = Raise e) /\ os.fs w' = os.fs w \/
  exists ino i, os.lookup_inode (os.fs w) name = Some (ino, i) /\
    os.fs w' = os.FS (os.names (os.fs w))
                 (<[ino := os.Inode (Z.lor (Z.land (os.st_mode i) (Z.lnot 4095))
                                        (os.S_IMODE mode)) (os.data i)]>
                    (os.inodes (os.fs w))).
Proof.
  intros Hs. apply syscall_inv in Hs as (_ & _ & [[[e ->] Hfs]|(m & w0 & -> & Hw0 & _ & Hc)]).
  - left; split; [by eexists|done].
  - rewrite Hw0 in Hc. destruct (os.lookup_inode _ _) as [[ino i]|]; [|done].
    simpl in Hc. injection Hc as _ Hfs. right. by repeat eexists.
Qed.

Lemma remove_inv name w r w' :
  os.remove name w = (r, w') ->
  os.fs w' = os.fs w \/
  os.fs w' = os.FS (delete name (os.names (os.fs w))) (os.inodes (os.fs w)).
Proof.
  intros Hs. apply syscall_inv in Hs as (_ & _ & [[_ ?]|(m & w0 & -> & Hw0 & _ & Hc)]).
  - by left.
  - rewrite Hw0 in Hc. destruct (os.names _ !! _); [|done]. simplify_eq. by right.
Qed.

Lemma link_inv oldname newname w r w' :
  os.link oldname newname w = (r, w') ->
  (exists e, r = Raise e) /\ os.fs w' = os.fs w \/
  exists ino, os.names (os.fs w) !! oldname = Some ino /\
    os.names (os.fs w) !! newname = None /\
    os.fs w' = os.FS (<[newname := ino]> (os.names (os.fs w))) (os.inodes (os.fs w)).
Proof.
  intros Hs. apply syscall_inv in Hs as (_ & _ & [[[e ->] Hfs]|(m & w0 & -> & Hw0 & _ & Hc)]).
  - left; split; [by eexists|done].
  - rewrite Hw0 in Hc. destruct (os.names _ !! oldname) as [ino|] eqn:Ho; [|done].
    destruct (os.names _ !! newname) eqn:Hn; [done|]. simpl in Hc. injection Hc as _ Hfs. right. by repeat eexists.
Qed.

Lemma rename_inv oldname newname w r w' :
  os.rename oldname newname w = (r, w') ->
  (exists e, r = Raise e) /\ os.fs w' = os.fs w \/
  exists ino, r = Ok tt /\ os.names (os.fs w) !! oldname = Some ino /\
    (os.names (os.fs w) !! newname = Some ino /\ os.fs w' = os.fs w \/
     os.names (os.fs w) !! newname <> Some ino /\
     os.fs w' = os.FS (<[newname := ino]> (delete oldname (os.names (os.fs w))))
                  (os.inodes (os.fs w))).
Proof.
  intros Hs. apply syscall_inv in Hs as (_ & _ & [[[e ->] Hfs]|([] & w0 & -> & Hw0 & _ & Hc)]).
  - left; split; [by eexists|done].
  - rewrite Hw0 in Hc. destruct (os.names _ !! oldname) as [ino|] eqn:Ho; [|done].
    right. exists ino. split; [done|]. split; [done|].
    destruct (bool_decide _) eqn:Hb; simplify_eq.
    + left. by apply bool_decide_eq_true in Hb.
    + right. by apply bool_decide_eq_false in Hb.
Qed.

Lemma open_excl_inv file w r w' :
  os.open_excl file w = (r, w') ->
  os.rng w' = os.rng w /\ os.drawn w' = os.drawn w /\
  ((exists e, r = Raise (OSError e)) /\ os.fs w' = os.fs w \/
   r = Ok (fresh (dom (os.inodes (os.fs w)))) /\
   os.names (os.fs w) !! file = None /\
   os.fs w' = os.FS (<[file := fresh (dom (os.inodes (os.fs w)))]> (os.names (os.fs w)))
                (<[fresh (dom (os.inodes (os.fs w))) := os.Inode (Z.lor os.S_IFREG 384) ""]>
                   (os.inodes (os.fs w)))).
Proof.
  intros Hs. apply syscall_inv in Hs as (? & ? & [[[e ->] Hfs]|(m & w0 & -> & Hw0 & _ & Hc)]).
  - split; [done|]. split; [done|]. left; split; [by eexists|done].
  - split; [done|]. split; [done|]. rewrite Hw0 in Hc.
    destruct (os.names _ !! file) eqn:Hn; [done|]. simpl in Hc.
    injection Hc as <- <-. by right.
Qed.

Lemma open_w_inv name w r w' ino i :
  os.open_w name w = (r, w') ->
  os.lookup_inode (os.fs w) name = Some (ino, i) ->
  (exists e, r = Raise e) /\ os.fs w' = os.fs w \/
  r = Ok ino /\
  os.fs w' = os.FS (os.names (os.fs w))
               (<[ino := os.Inode (os.st_mode i) ""]> (os.inodes (os.fs w))).
Proof.
  intros Hs Hl. apply syscall_inv in Hs as (_ & _ & [[[e ->] Hfs]|(m & w0 & -> & Hw0 & _ & Hc)]).
  - left; split; [by eexists|done].
  - rewrite Hw0, Hl in Hc. simplify_eq. by right.
Qed.

Lemma file_write_inv f text w r w' :
  os.file_write f text w = (r, w') ->
  (exists e, r = Raise e) /\ os.fs w' = os.fs w \/
  exists i, os.inodes (os.fs w) !! f = Some i /\
    os.fs w' = os.FS (os.names (os.fs w))
                 (<[f := os.Inode (os.st_mode i) (os.data i +:+ text)]>
                    (os.inodes (os.fs w))).
Proof.
  intros Hs. apply syscall_inv in Hs as (_ & _ & [[[e ->] Hfs]|(m & w0 & -> & Hw0 & _ & Hc)]).
  - left; split; [by eexists|done].
  - rewrite Hw0 in Hc. destruct (os.inodes _ !! f) as [i|] eqn:Hi; [|done].
    simpl in Hc. injection Hc as _ Hfs. right. by repeat eexists.
Qed.

End io.

(** ** The steps of [Fstab.write] *)

Section write.

(** The loop that writes the lines touches one inode only, and on
    success has appended every rendered line. *)
Lemma write_lines_spec lines f w r w' m c :
  Fstab.write_lines f lines w = (r, w') ->
  os.inodes (os.fs w) !! f = Some (os.Inode m c) ->
  os.names (os.fs w') = os.names (os.fs w) /\
  exists c', os.inodes (os.fs w') = <[f := os.Inode m c']> (os.inodes (os.fs w)) /\
    (r = Ok tt ->
     exists raws, mapM Line.get_raw lines = Ok (PyStr <$> raws) /\
                  c' = c +:+ concat_all raws).
Proof.
  revert w c. induction lines as [|line lines IH]; intros w c Hw Hf.
  - simpl in Hw. injection Hw as <- <-. split; [done|]. exists c.
    split; [by rewrite insert_id|]. intros _. exists []. by rewrite sapp_nil_r.
  - cbn [Fstab.write_lines] in Hw.
    apply bind_inv in Hw as [(raw & w1 & Hraw & Hw)|(e & Hraw & ->)].
    2:{ unfold os.lift in Hraw. injection Hraw as _ <-. split; [done|]. exists c.
        split; [by rewrite insert_id|]. done. }
    unfold os.lift in Hraw. injection Hraw as Hraw <-.
    apply bind_inv in Hw as [([] & w2 & Hwr & Hw)|(e & Hwr & ->)].
    2:{ assert (Hfail : os.fs w' = os.fs w \/
                  os.fs w' = os.FS (os.names (os.fs w))
                               (<[f := os.Inode m (c +:+ str_of raw)]>
                                  (os.inodes (os.fs w)))).
        { destruct raw as [|text| |]; try (injection Hwr as _ <-; by left).
          apply file_write_inv in Hwr as [[_ ->]|(i & Hi & ->)]; [by left|].
          rewrite Hf in Hi. injection Hi as <-. by right. }
        destruct Hfail as [-> | ->].
        - split; [done|]. exists c. split; [by rewrite insert_id|]. done.
        - simpl. split; [done|]. by eexists. }
    destruct raw as [|text| |]; try done.
    apply file_write_inv in Hwr as [[[e ?] _]|(i & Hi & Hfs)]; [done|].
    rewrite Hf in Hi. injection Hi as <-. simpl in Hfs.
    destruct (IH w2 (c +:+ text) Hw) as (Hnames & c' & Hinodes & Hok).
    { rewrite Hfs. simpl. by rewrite lookup_insert_eq. }
    rewrite Hfs in Hnames, Hinodes. simpl in *.
    split; [done|]. exists c'. split; [by rewrite Hinodes, insert_insert_eq|].
    intros Hr. destruct (Hok Hr) as (raws & Hraws & ->).
    exists (text :: raws). simpl. rewrite Hraw, Hraws. simpl.
    split; [done|]. by rewrite sapp_assoc.
Qed.

(** [with open(tempname, "w") as f: ...] on an existing file. *)
Lemma with_open_spec lines name w r w' t i :
  os.with_open_w name (fun f => Fstab.write_lines f lines) w = (r, w') ->
  os.lookup_inode (os.fs w) name = Some (t, i) ->
  os.names (os.fs w') = os.names (os.fs w) /\
  exists c', os.inodes (os.fs w') = <[t := os.Inode (os.st_mode i) c']> (os.inodes (os.fs w)) /\
    (r = Ok tt ->
     exists raws, mapM Line.get_raw lines = Ok (PyStr <$> raws) /\ c' = concat_all raws).
Proof.
  intros Hw Hl. unfold os.with_open_w in Hw.
  assert (Hi : os.inodes (os.fs w) !! t = Some i).
  { unfold os.lookup_inode in Hl. destruct (os.names _ !! name); [|done]. simpl in Hl.
    destruct (os.inodes _ !! n) eqn:Hn; [|done]. simpl in Hl. by simplify_eq. }
  change (os.bind (os.open_w name)
            (fun f => os.finally (Fstab.write_lines f lines) (os.close f)) w = (r, w'))
    in Hw.
  unfold os.bind in Hw. destruct (os.open_w name w) as [[f|e] w1] eqn:Hopen.
  2:{ injection Hw as <- <-.
      apply (open_w_inv _ _ _ _ _ _ Hopen) in Hl as [[_ ->]|[? _]]; [|done].
      split; [done|]. exists (os.data i). split.
      - rewrite insert_id; [done|]. by destruct i.
      - done. }
  apply (open_w_inv _ _ _ _ _ _ Hopen) in Hl as [[[e ?] _]|[[= ->] Hfs1]]; [done|].
  unfold os.finally in Hw.
  destruct (Fstab.write_lines t lines w1) as [r2 w2] eqn:Hlines.
  destruct (write_lines_spec _ _ _ _ _ (os.st_mode i) "" Hlines)
    as (Hnames & c' & Hinodes & Hok).
  { rewrite Hfs1. simpl. by rewrite lookup_insert_eq. }
  destruct (os.close t w2) as [rc w3] eqn:Hclose. apply close_inv in Hclose.
  assert (os.fs w' = os.fs w2 /\ (r = Ok tt -> r2 = Ok tt)) as [Hfs' Hr].
  { destruct rc as [[]|e]; injection Hw as <- <-; split; done. }
  rewrite Hfs', Hnames, Hinodes, Hfs1. simpl. split; [done|].
  exists c'. split; [by rewrite insert_insert_eq|].
  intros Hrok. destruct (Hok (Hr Hrok)) as (raws & ? & ->). by exists raws.
Qed.

(** [link_file(fn, bak)] changes the name [bak] at most; on success
    [bak] names the inode of [fn]. *)
Lemma link_file_spec fn bak w r w' t :
  Fstab.link_file fn bak w = (r, w') ->
  touches bak t (os.fs w) (os.fs w') /\ os.inodes (os.fs w') = os.inodes (os.fs w) /\
  (r = Ok tt -> bak <> fn ->
   exists ino, os.names (os.fs w) !! fn = Some ino /\ os.names (os.fs w') !! bak = Some ino).
Proof.
  unfold Fstab.link_file. intros Hw.
  apply bind_inv in Hw as [(there & w1 & Hex & Hw)|(e & Hex & ->)].
  2:{ apply exists_inv in Hex. rewrite Hex. split; [apply touches_refl|]. done. }
  apply exists_inv in Hex.
  apply bind_inv in Hw as [([] & w2 & Hrm & Hw)|(e & Hrm & ->)].
  - assert (Hrm' : os.inodes (os.fs w2) = os.inodes (os.fs w) /\
              (forall name, name <> bak ->
                 os.names (os.fs w2) !! name = os.names (os.fs w) !! name)).
    { destruct there.
      - apply remove_inv in Hrm as [->| ->]; rewrite Hex; simpl; [done|].
        split; [done|]. intros name Hne. by rewrite lookup_delete_ne.
      - injection Hrm as <-. by rewrite Hex. }
    destruct Hrm' as [Hi2 Hn2].
    apply link_inv in Hw as [[[e ->] ->]|(ino & Hold & Hnew & ->)]; simpl.
    + split; [|split; [done|]].
      * split; [done|]. split; [by rewrite Hi2|]. by rewrite Hi2.
      * done.
    + split; [|split; [done|]].
      * split; [|split]; simpl; rewrite ?Hi2; try done.
        intros name Hne. rewrite lookup_insert_ne by done. by apply Hn2.
      * intros _ Hne. exists ino. rewrite <- Hn2 by done. split; [done|].
        by rewrite lookup_insert_eq.
  - destruct there.
    + apply remove_inv in Hrm as [->| ->]; rewrite Hex; simpl.
      * split; [apply touches_refl|]. done.
      * split; [|done]. apply touches_name. intros name Hne.
        by rewrite lookup_delete_ne.
    + done.
Qed.

(** The loop of [mkstemp] creates one empty file under a name that was
    free, or fails and leaves the file system as it was. *)
Lemma mkstemp_spec seq dir pre w r w' :
  tempfile.mkstemp_inner seq dir pre w = (r, w') ->
  (exists e, r = Raise e) /\ os.fs w' = os.fs w \/
  exists n, let file := os.path.join dir (pre +:+ os.rng w n) in
            let fd := fresh (dom (os.inodes (os.fs w))) in
    r = Ok (fd, file) /\ os.names (os.fs w) !! file = None /\
    os.fs w' = os.FS (<[file := fd]> (os.names (os.fs w)))
                 (<[fd := os.Inode (Z.lor os.S_IFREG 384) ""]> (os.inodes (os.fs w))).
Proof.
  revert w. induction seq as [|seq IH]; intros w Hw; simpl in Hw.
  - injection Hw as <- <-. left. split; [by eexists|done].
  - destruct (os.open_excl _ _) as [[fd|e] w2] eqn:Hopen.
    + apply open_excl_inv in Hopen as (_ & _ & [[[e ?] _]|([= ->] & Hnone & Hfs)]);
        [done|]. simpl in *. injection Hw as <- <-. right. by exists (os.drawn w).
    + apply open_excl_inv in Hopen as (Hrng & _ & [[_ Hfs]|[? _]]); [|done].
      simpl in *.
      assert (Hrest : (exists e', r = Raise e') /\ os.fs w' = os.fs w \/
                      tempfile.mkstemp_inner seq dir pre w2 = (r, w')).
      { destruct e as [| | | |[]]; try (injection Hw as <- <-; left; split; [by eexists|done]).
        by right. }
      destruct Hrest as [?|Hrest]; [by left|].
      apply IH in Hrest as [[? ->]|(n & Hr & Hnone & ->)].
      * left. by rewrite Hfs.
      * right. exists n. rewrite Hrng, Hfs in *. done.
Qed.

End write.

Section steps.

Lemma leftover_touches f f1 f' fn temp t :
  temp <> fn +:+ ".bak" ->
  with_leftover f f1 fn temp t -> touches (fn +:+ ".bak") t f1 f' ->
  with_leftover f f' fn temp t.
Proof.
  intros Hne (H1 & H2 & H3 & H4 & H5 & H6) (Hn & Hi & Ht).
  repeat split; try done.
  - by rewrite Hn.
  - by apply Ht.
  - intros name ? ?. rewrite Hn by done. by apply H5.
  - intros ino ?. rewrite Hi by done. by apply H6.
Qed.

Lemma steps_1_4_spec self fn w r w' :
  fs_wf w -> rng_ok w ->
  write_steps_1_4 self fn w = (r, w') ->
  (exists e w1, tempfile.mkstemp (os.path.dirname fn) (os.path.basename fn +:+ ".") w
                = (Raise e, w1)) /\
  (exists e, r = Raise e) /\ os.fs w' = os.fs w \/
  exists temp t w1,
    tempfile.mkstemp (os.path.dirname fn) (os.path.basename fn +:+ ".") w
      = (Ok (t, temp), w1) /\
    temp <> fn /\ temp <> fn +:+ ".bak" /\
    with_leftover (os.fs w) (os.fs w') fn temp t /\
    (forall temp', r = Ok temp' ->
       temp' = temp /\
       exists raws ino i m,
         mapM Line.get_raw (Fstab.lines self) = Ok (PyStr <$> raws) /\
         os.lookup_inode (os.fs w) fn = Some (ino, i) /\
         os.inodes (os.fs w') !! t = Some (os.Inode m (concat_all raws)) /\
         os.S_IMODE m = os.S_IMODE (os.st_mode i) /\
         os.names (os.fs w') !! (fn +:+ ".bak") = Some ino).
Proof.
  intros Hwf Hrng Hw. unfold write_steps_1_4 in Hw.
  apply bind_inv in Hw as [([fd temp] & w1 & Hmk & Hw)|(e & Hmk & ->)].
  2:{ pose proof (mkstemp_spec _ _ _ _ _ _ Hmk) as [[_ ?]|(n & ? & _)]; [|done].
      left. split; [by eexists _, _|]. split; [by eexists|done]. }
  pose proof (mkstemp_spec _ _ _ _ _ _ Hmk)
    as [[[e ?] _]|(n & [= -> ->] & Hnone & Hfs1)]; [done|].
  set (temp := os.path.join (os.path.dirname fn)
                 ((os.path.basename fn +:+ ".") +:+ os.rng w n)) in *.
  set (t := fresh (dom (os.inodes (os.fs w)))) in *.
  set (bak := fn +:+ ".bak") in *.
  destruct (Hrng n) as [Hslash Hbak].
  destruct (tempname_fresh fn _ Hslash Hbak) as (Htf & Htb & Hbf).
  fold temp bak in Htf, Htb, Hbf.
  assert (Htnone : os.inodes (os.fs w) !! t = None).
  { apply not_elem_of_dom. apply is_fresh. }
  assert (Hleft1 : with_leftover (os.fs w) (os.fs w1) fn temp t).
  { rewrite Hfs1. repeat split; simpl; try done.
    - by rewrite lookup_insert_eq.
    - by rewrite lookup_insert_eq.
    - intros name ? ?. by rewrite lookup_insert_ne.
    - intros ino ?. by rewrite lookup_insert_ne. }
  right. exists temp, t, w1. split; [done|]. split; [done|]. split; [done|].
  assert (Hexit : forall e f', touches bak t (os.fs w1) f' ->
            with_leftover (os.fs w) f' fn temp t /\
            (forall temp', @Raise string e = Ok temp' ->
               temp' = temp /\
               exists raws ino i m,
                 mapM Line.get_raw (Fstab.lines self) = Ok (PyStr <$> raws) /\
                 os.lookup_inode (os.fs w) fn = Some (ino, i) /\
                 os.inodes f' !! t = Some (os.Inode m (concat_all raws)) /\
                 os.S_IMODE m = os.S_IMODE (os.st_mode i) /\
                 os.names f' !! bak = Some ino)).
  { intros e f' Ht. split; [|done]. by eapply leftover_touches. }
  (* os.close(fd) *)
  apply bind_inv in Hw as [([] & w2 & Hcl & Hw)|(e & Hcl & ->)].
  2:{ apply close_inv in Hcl. apply Hexit. by apply touches_eq. }
  apply close_inv in Hcl.
  (* with open(tempname, "w") as f: ... *)
  assert (Hl2 : os.lookup_inode (os.fs w2) temp
                = Some (t, os.Inode (Z.lor os.S_IFREG 384) "")).
  { rewrite Hcl, Hfs1. unfold os.lookup_inode. simpl.
    rewrite lookup_insert_eq. simpl. by rewrite lookup_insert_eq. }
  assert (Hopen : forall r3 w3,
            os.with_open_w temp (fun f => Fstab.write_lines f (Fstab.lines self)) w2
              = (r3, w3) ->
            os.names (os.fs w3) = os.names (os.fs w1) /\
            exists c', os.inodes (os.fs w3)
                       = <[t := os.Inode (Z.lor os.S_IFREG 384) c']> (os.inodes (os.fs w)) /\
              (r3 = Ok tt -> exists raws,
                 mapM Line.get_raw (Fstab.lines self) = Ok (PyStr <$> raws) /\ c' = concat_all raws)).
  { intros r3 w3 Hwo.
    destruct (with_open_spec _ _ _ _ _ _ _ Hwo Hl2) as (Hn3 & c' & Hi3 & Hok).
    rewrite Hcl in Hn3, Hi3. split; [done|]. exists c'. split; [|done].
    rewrite Hi3, Hfs1. simpl. by rewrite insert_insert_eq. }
  assert (Htouch3 : forall r3 w3,
            os.with_open_w temp (fun f => Fstab.write_lines f (Fstab.lines self)) w2
              = (r3, w3) -> touches bak t (os.fs w1) (os.fs w3)).
  { intros r3 w3 Hwo. destruct (Hopen _ _ Hwo) as (Hn3 & c' & Hi3 & _).
    split; [by rewrite Hn3|]. rewrite Hi3, Hfs1. simpl. split.
    - intros ino ?. by rewrite !lookup_insert_ne.
    - intros _. rewrite lookup_insert_eq. by eexists. }
  apply bind_inv in Hw as [([] & w3 & Hwo & Hw)|(e & Hwo & ->)].
  2:{ apply Hexit. by eapply Htouch3. }
  pose proof (Htouch3 _ _ Hwo) as Ht3.
  destruct (Hopen _ _ Hwo) as (Hn3 & c' & Hi3 & Hok).
  destruct (Hok eq_refl) as (raws & Hraws & ->). clear Hok Hopen Htouch3.
  (* self.get_perms(fn) *)
  apply bind_inv in Hw as [(mode & w4 & Hst & Hw)|(e & Hst & ->)].
  2:{ unfold Fstab.get_perms in Hst. apply stat_inv in Hst as [Hfs4 _].
      apply Hexit. by rewrite Hfs4. }
  unfold Fstab.get_perms in Hst.
  pose proof (stat_inv _ _ _ _ Hst) as [Hfs4 Hmode].
  destruct (Hmode mode eq_refl) as (ino & i & Hfn3 & Hmi). clear Hmode.
  assert (Hfn : os.names (os.fs w) !! fn = Some ino /\
                os.inodes (os.fs w) !! ino = Some i /\ ino <> t).
  { unfold os.lookup_inode in Hfn3. rewrite Hn3, Hfs1 in Hfn3. simpl in Hfn3.
    rewrite lookup_insert_ne in Hfn3 by done.
    destruct (os.names (os.fs w) !! fn) as [ino'|] eqn:Hino; [|done]. simpl in Hfn3.
    destruct (Hwf _ _ Hino) as [i0 Hi0].
    assert (ino' <> t) by (intros ->; congruence).
    rewrite Hi3, lookup_insert_ne in Hfn3 by done. rewrite Hi0 in Hfn3.
    simpl in Hfn3. by simplify_eq. }
  destruct Hfn as (Hfn & Hino & Hinot).
  (* self.chmod_file(tempname, mode) *)
  set (m' := Z.lor (Z.land (Z.lor os.S_IFREG 384) (Z.lnot 4095)) (os.S_IMODE mode)).
  assert (Hchmod : forall r5 w5, Fstab.chmod_file temp mode w4 = (r5, w5) ->
            touches bak t (os.fs w1) (os.fs w5) /\
            (r5 = Ok tt ->
             os.names (os.fs w5) = os.names (os.fs w1) /\
             os.inodes (os.fs w5)
             = <[t := os.Inode m' (concat_all raws)]> (os.inodes (os.fs w)))).
  { intros r5 w5 Hch. unfold Fstab.chmod_file in Hch.
    apply chmod_inv in Hch as [[[e ->] ->]|(ino' & i' & Hl4 & ->)]; rewrite Hfs4.
    - done.
    - unfold os.lookup_inode in Hl4. rewrite Hfs4, Hn3, Hfs1 in Hl4. simpl in Hl4.
      rewrite lookup_insert_eq in Hl4. simpl in Hl4.
      rewrite Hi3, lookup_insert_eq in Hl4. simpl in Hl4. injection Hl4 as <- <-.
      simpl. split.
      + eapply touches_trans; [exact Ht3|]. apply touches_inode.
      + intros _. split; [done|]. by rewrite Hi3, insert_insert_eq. }
  apply bind_inv in Hw as [([] & w5 & Hch & Hw)|(e & Hch & ->)].
  2:{ apply Hexit. by eapply Hchmod. }
  destruct (Hchmod _ _ Hch) as [Ht5 Hok5].
  destruct (Hok5 eq_refl) as [Hn5 Hi5]. clear Hok5 Hchmod.
  (* self.link_file(fn, fn + ".bak") *)
  apply bind_inv in Hw as [([] & w6 & Hln & Hw)|(e & Hln & ->)].
  2:{ apply (link_file_spec _ _ _ _ _ t) in Hln as (Ht6 & _ & _).
      apply Hexit. by eapply touches_trans. }
  apply (link_file_spec _ _ _ _ _ t) in Hln as (Ht6 & Hi6 & Hok6).
  destruct (Hok6 eq_refl Hbf) as (ino2 & Hfn5 & Hbak6).
  rewrite Hn5, Hfs1 in Hfn5. simpl in Hfn5.
  rewrite lookup_insert_ne in Hfn5 by done.
  assert (ino2 = ino) as -> by congruence.
  injection Hw as <- <-.
  split; [eapply leftover_touches; [done..|by eapply touches_trans]|].
  intros ? [= <-]. split; [done|].
  exists raws, ino, i, m'. split; [done|]. split.
  { unfold os.lookup_inode. rewrite Hfn. simpl. by rewrite Hino. }
  split; [by rewrite Hi6, Hi5, lookup_insert_eq|].
  split; [|done]. unfold m'. by rewrite S_IMODE_chmod, Hmi.
Qed.

End steps.

Section write_unfolded.

(** [write] is steps 1 to 4 followed by the rename. *)
Lemma write_split self fn w :
  Fstab.write self fn w =
  (tempname ← write_steps_1_4 self (Fstab.fn_or_default self fn);
   Fstab.rename_file tempname (Fstab.fn_or_default self fn)) w.
Proof.
  unfold Fstab.write, write_steps_1_4, mbind, IO_bind, os.bind, mret, IO_ret, os.ret.
  destruct (tempfile.mkstemp _ _ w) as [[[fd temp]|e] w1]; [|done].
  destruct (os.close fd w1) as [[[]|e] w2]; [|done].
  destruct (os.with_open_w _ _ w2) as [[[]|e] w3]; [|done].
  destruct (Fstab.get_perms _ w3) as [[mode|e] w4]; [|done].
  destruct (Fstab.chmod_file _ _ w4) as [[[]|e] w5]; [|done].
  destruct (Fstab.link_file _ _ w5) as [[[]|e] w6]; [|done].
  done.
Qed.

End write_unfolded.

(** C6: after a successful [write] the file holds the renderings of all
    lines in order, the backup is a hard link to the inode the file had
    before and holds its content, and the permission bits of the file are
    those it had before. *)
Theorem write_success (self : Fstab.t) (fn : option string) (path : string)
    (w w' : os.world) :
  fs_wf w -> rng_ok w ->
  path = Fstab.fn_or_default self fn ->
  Fstab.write self fn w = (Ok tt, w') ->
  exists raws old_content old_mode new_mode,
    mapM Line.get_raw (Fstab.lines self) = Ok (PyStr <$> raws) /\
    file_content w path = Some old_content /\
    file_mode w path = Some old_mode /\
    file_content w' path = Some (concat_all raws) /\
    file_content w' (path +:+ ".bak") = Some old_content /\
    os.names (os.fs w') !! (path +:+ ".bak") = os.names (os.fs w) !! path /\
    file_mode w' path = Some new_mode /\
    os.S_IMODE new_mode = os.S_IMODE old_mode.
Proof.
  intros Hwf Hrng Hpath Hw. rewrite write_split, <- Hpath in Hw. clear Hpath.
  apply bind_inv in Hw as [(temp' & w1 & Hsteps & Hren)|(e & _ & ?)]; [|done].
  destruct (steps_1_4_spec _ _ _ _ _ Hwf Hrng Hsteps)
    as [(_ & [e ?] & _)|(temp & t & _ & _ & Htf & Htb & Hleft & Hok)]; [done|].
  destruct (Hok _ eq_refl) as (-> & raws & ino & i & m & Hraws & Hfn & Ht & Hmode & Hbak).
  destruct Hleft as (Hnone & Htnone & Htemp & _ & Hnames & Hinodes).
  assert (Hfn' : os.names (os.fs w) !! path = Some ino /\
                 os.inodes (os.fs w) !! ino = Some i).
  { unfold os.lookup_inode in Hfn. destruct (os.names _ !! path) as [ino'|]; [|done].
    simpl in Hfn. destruct (os.inodes _ !! ino') eqn:Hi'; [|done]. simpl in Hfn.
    by simplify_eq. }
  destruct Hfn' as [Hpath Hino].
  assert (ino <> t) by (intros ->; congruence).
  assert (path +:+ ".bak" <> path) by (intros Heq; by apply sapp_id_inv in Heq).
  unfold Fstab.rename_file in Hren.
  apply rename_inv in Hren as [[[e ?] _]|(t' & _ & Htemp' & Hcase)]; [done|].
  rewrite Htemp in Htemp'. injection Htemp' as <-.
  destruct Hcase as [[Hsame _]|[_ Hfs']].
  { rewrite Hnames, Hpath in Hsame by done. congruence. }
  exists raws, (os.data i), (os.st_mode i), m.
  unfold file_content, file_mode, os.lookup_inode. rewrite Hfs'. simpl.
  rewrite Hpath. simpl. rewrite Hino. simpl.
  rewrite lookup_insert_eq. simpl. rewrite Ht. simpl.
  rewrite lookup_insert_ne, lookup_delete_ne, Hbak by done. simpl.
  rewrite Hinodes, Hino by done. simpl. done.
Qed.

Lemma etc_fstab_wf faults : fs_wf (os.World etc_fstab 18 faults (fun _ => "k3x9_ab2") 0).
Proof.
  intros name ino. simpl. intros Hn.
  apply lookup_singleton_Some in Hn as [_ <-]. by rewrite lookup_singleton_eq.
Qed.

Lemma etc_fstab_rng faults : rng_ok (os.World etc_fstab 18 faults (fun _ => "k3x9_ab2") 0).
Proof. intros n. simpl. split; [reflexivity|discriminate]. Qed.

Lemma write_success_witness :
  exists raws old_content old_mode new_mode,
    mapM Line.get_raw (Fstab.lines one_entry) = Ok (PyStr <$> raws) /\
    file_content quiet_world "/etc/fstab" = Some old_content /\
    file_mode quiet_world "/etc/fstab" = Some old_mode /\
    file_content (Fstab.write one_entry None quiet_world).2 "/etc/fstab"
      = Some (concat_all raws) /\
    file_content (Fstab.write one_entry None quiet_world).2 "/etc/fstab.bak"
      = Some old_content /\
    os.names (os.fs (Fstab.write one_entry None quiet_world).2) !! "/etc/fstab.bak"
      = os.names (os.fs quiet_world) !! "/etc/fstab" /\
    file_mode (Fstab.write one_entry None quiet_world).2 "/etc/fstab" = Some new_mode /\
    os.S_IMODE new_mode = os.S_IMODE old_mode.
Proof.
  apply (write_success one_entry None "/etc/fstab" quiet_world
           (Fstab.write one_entry None quiet_world).2
           (etc_fstab_wf []) (etc_fstab_rng []) eq_refl).
  vm_compute. reflexivity.
Defined.

(** C7 fails as stated: when the backup link is refused, [write] raises
    the error and the file is as before, but the temporary file written in
    steps 1 and 2 is still there. *)
Lemma write_failure_leaves_tempfile :
  (Fstab.write one_entry None link_refused_world).1 = Raise (OSError EPERM) /\
  file_content (Fstab.write one_entry None link_refused_world).2 "/etc/fstab"
    = Some "proc /proc proc defaults 0 0" /\
  file_content (Fstab.write one_entry None link_refused_world).2 "/etc/fstab.k3x9_ab2"
    = Some (sda1_mnt +:+ a_comment).
Proof. vm_compute. by repeat split. Qed.

(** C7, amended: when one of steps 1 to 4 fails, [write] raises that
    error and does nothing more: the world is left as the failing step
    left it.  The name, content and mode of the file are unchanged.  No
    cleanup happens: a temporary file that step 1 created is still there. *)
Theorem write_failure_steps_1_4 (self : Fstab.t) (fn : option string) (path : string)
    (w w' : os.world) (e : exn) :
  fs_wf w -> rng_ok w ->
  path = Fstab.fn_or_default self fn ->
  write_steps_1_4 self path w = (Raise e, w') ->
  Fstab.write self fn w = (Raise e, w') /\
  os.names (os.fs w') !! path = os.names (os.fs w) !! path /\
  file_content w' path = file_content w path /\
  file_mode w' path = file_mode w path /\
  (forall fd tempname w1,
     tempfile.mkstemp (os.path.dirname path) (os.path.basename path +:+ ".") w
       = (Ok (fd, tempname), w1) ->
     os.names (os.fs w) !! tempname = None /\
     os.names (os.fs w') !! tempname = Some fd /\
     is_Some (file_content w' tempname)).
Proof.
  intros Hwf Hrng Hpath Hsteps. split.
  { rewrite write_split, <- Hpath. unfold mbind, IO_bind, os.bind. by rewrite Hsteps. }
  clear Hpath.
  destruct (steps_1_4_spec _ _ _ _ _ Hwf Hrng Hsteps)
    as [([e' [w1' Hmk]] & _ & Hfs)|(temp & t & w1 & Hmk & Htf & Htb & Hleft & _)].
  { unfold file_content, file_mode. rewrite Hfs. do 3 (split; [done|]).
    intros fd tempname w1 Hmk'. congruence. }
  destruct Hleft as (Hnone & Htnone & Htemp & [it Hit] & Hnames & Hinodes).
  assert (Hbf : path <> path +:+ ".bak").
  { intros Heq. symmetry in Heq. by apply sapp_id_inv in Heq. }
  assert (Hname : os.names (os.fs w') !! path = os.names (os.fs w) !! path)
    by (by apply Hnames).
  assert (Hlook : os.lookup_inode (os.fs w') path = os.lookup_inode (os.fs w) path).
  { unfold os.lookup_inode. rewrite Hname.
    destruct (os.names (os.fs w) !! path) as [ino|] eqn:Hino; [|done]. simpl.
    destruct (Hwf _ _ Hino) as [i Hi].
    rewrite Hinodes; [done|]. intros ->. congruence. }
  split; [done|]. unfold file_content, file_mode. rewrite Hlook.
  split; [done|]. split; [done|].
  intros fd tempname w1' Hmk'. rewrite Hmk in Hmk'. simplify_eq.
  split; [done|]. split; [done|].
  unfold os.lookup_inode. rewrite Htemp. simpl. rewrite Hit. simpl. by eexists.
Qed.

Lemma write_failure_steps_1_4_witness :
  Fstab.write one_entry None link_refused_world
    = (Raise (OSError EPERM), (write_steps_1_4 one_entry "/etc/fstab" link_refused_world).2) /\
  file_content (write_steps_1_4 one_entry "/etc/fstab" link_refused_world).2 "/etc/fstab"
    = file_content link_refused_world "/etc/fstab" /\
  is_Some (file_content (write_steps_1_4 one_entry "/etc/fstab" link_refused_world).2
             "/etc/fstab.k3x9_ab2").
Proof.
  destruct (write_failure_steps_1_4 one_entry None "/etc/fstab" link_refused_world
              (write_steps_1_4 one_entry "/etc/fstab" link_refused_world).2
              (OSError EPERM) (etc_fstab_wf _) (etc_fstab_rng _) eq_refl)
    as (Hraise & _ & Hcontent & _ & Htemp).
  { vm_compute. reflexivity. }
  split; [exact Hraise|]. split; [exact Hcontent|].
  apply (Htemp 6%nat "/etc/fstab.k3x9_ab2"
           (tempfile.mkstemp "/etc" "fstab." link_refused_world).2).
  vm_compute. reflexivity.
Defined.

(** * Further properties of the code *)

(** ** The interpreters' [int] and text mode *)

Section int_text.


Lemma lstrip_by_head p c s : p c = false -> lstrip_by p (String c s) = String c s.
Proof. intros Hc. simpl. by rewrite Hc. Qed.

Lemma rstrip_by_none p s :
  Str.forallb (fun c => negb (p c)) s = true -> rstrip_by p s = s.
Proof.
  induction s as [|c s IH]; [done|]. simpl. intros Hs.
  apply andb_prop in Hs as [Hc Hs]. apply negb_true_iff in Hc.
  rewrite (IH Hs), Hc. by destruct s.
Qed.

Lemma ungroup_digits grouped s :
  s <> "" -> Str.forallb decimal s = true -> ungroup grouped false s = Some s.
Proof.
  assert (Hgen : forall b, Str.forallb decimal s = true -> s <> "" \/ b = true ->
                           ungroup grouped b s = Some s).
  { induction s as [|c s IH]; intros b Hs Hne.
    - destruct Hne as [?| ->]; done.
    - simpl in *. apply andb_prop in Hs as [Hc Hs]. rewrite Hc.
      rewrite (IH true) by auto. done. }
  intros Hne Hs. apply Hgen; auto.
Qed.

Lemma uint_of_string_digits s :
  Str.forallb decimal s = true -> is_Some (NilEmpty.uint_of_string s).
Proof.
  induction s as [|c s IH]; [by eexists|]. simpl. intros Hs.
  apply andb_prop in Hs as [Hc Hs]. destruct (IH Hs) as [u ->].
  apply bool_decide_eq_true in Hc.
  destruct c as [[] [] [] [] [] [] [] []]; try done; by eexists.
Qed.

Lemma of_uint_nonneg u : 0 <= Z.of_uint u.
Proof. unfold Z.of_uint. apply N2Z.is_nonneg. Qed.

Lemma digit_string_of_uint d : Str.forallb decimal (NilZero.string_of_uint d) = true.
Proof.
  pose proof (@string_of_uint_digits py3_runtime py3_laws) as Hd.
  destruct d; try apply Hd; done.
Qed.

Lemma string_of_uint_nonempty d : NilZero.string_of_uint d <> "".
Proof. destruct d; done. Qed.

Lemma number_of_Z_pos p :
  number false (NilZero.string_of_uint (Pos.to_uint p)) = Some (Z.pos p).
Proof.
  unfold number.
  assert (Hne : Pos.to_uint p <> Nil).
  { intros Hnil. pose proof (DecimalZ.of_to (Z.pos p)) as Hz. simpl in Hz.
    rewrite Hnil in Hz. done. }
  assert (Hs : NilZero.string_of_uint (Pos.to_uint p)
               = NilEmpty.string_of_uint (Pos.to_uint p))
    by (by destruct (Pos.to_uint p)).
  rewrite Hs, NilEmpty.usu. simpl. f_equal. exact (DecimalZ.of_to (Z.pos p)).
Qed.

Lemma number_neg p :
  number true (NilZero.string_of_uint (Pos.to_uint p)) = Some (Z.neg p).
Proof.
  pose proof (number_of_Z_pos p) as Hp. unfold number in *.
  destruct (NilEmpty.uint_of_string _) as [u|]; [|done]. simpl in *.
  injection Hp as ->. done.
Qed.

(** The common part of the two readings of a number's text. *)
Lemma read_digits (p : ascii -> bool) s :
  (forall c, decimal c = true -> p c = false) ->
  s <> "" -> Str.forallb decimal s = true ->
  signed (rstrip_by p (lstrip_by p s)) = (false, s).
Proof.
  intros Hp Hne Hs. destruct s as [|c s]; [done|].
  pose proof Hs as Hs'. simpl in Hs'. apply andb_prop in Hs' as [Hc _].
  rewrite lstrip_by_head by auto.
  rewrite rstrip_by_none.
  - apply bool_decide_eq_true in Hc.
    destruct c as [[] [] [] [] [] [] [] []]; done.
  - revert Hs. generalize (String c s). intros t. induction t as [|a t IH]; [done|].
    simpl. intros Ht. apply andb_prop in Ht as [Ha Ht]. by rewrite (Hp _ Ha), IH.
Qed.

Lemma read_negative (p : ascii -> bool) s :
  (forall c, decimal c = true -> p c = false) -> p "-"%char = false ->
  Str.forallb decimal s = true ->
  signed (rstrip_by p (lstrip_by p (String "-" s))) = (true, s).
Proof.
  intros Hp Hm Hs. rewrite lstrip_by_head by done.
  rewrite rstrip_by_none; [done|]. simpl. rewrite Hm. simpl.
  revert Hs. induction s as [|a t IH]; [done|].
  simpl. intros Ht. apply andb_prop in Ht as [Ha Ht]. by rewrite (Hp _ Ha), IH.
Qed.

Lemma py3_int_space_digit c : decimal c = true -> py3.int_space c = false.
Proof.
  intros Hc. apply bool_decide_eq_true in Hc.
  destruct c as [[] [] [] [] [] [] [] []]; done.
Qed.

Lemma is_space_digit c : decimal c = true -> Ascii.is_space c = false.
Proof.
  intros Hc. apply bool_decide_eq_true in Hc.
  destruct c as [[] [] [] [] [] [] [] []]; done.
Qed.

Lemma py3_int_str_of_Z n : py3.int_str (Str.of_Z n) = Some n.
Proof.
  unfold py3.int_str, Str.of_Z. destruct n as [|p|p]; [done|..];
    cbn [Z.to_int NilZero.string_of_int].
  - rewrite (read_digits _ _ py3_int_space_digit (string_of_uint_nonempty _)
               (digit_string_of_uint _)).
    rewrite ungroup_digits
      by (apply string_of_uint_nonempty || apply digit_string_of_uint).
    simpl. apply number_of_Z_pos.
  - rewrite (read_negative _ _ py3_int_space_digit eq_refl (digit_string_of_uint _)).
    rewrite ungroup_digits
      by (apply string_of_uint_nonempty || apply digit_string_of_uint).
    simpl. apply number_neg.
Qed.

Lemma py3_int_str_digits s :
  s <> "" -> Str.forallb decimal s = true -> exists n, py3.int_str s = Some n /\ 0 <= n.
Proof.
  intros Hne Hs. unfold py3.int_str.
  rewrite (read_digits _ _ py3_int_space_digit Hne Hs).
  rewrite ungroup_digits by done. simpl. unfold number.
  destruct (uint_of_string_digits _ Hs) as [u ->]. simpl.
  eexists. split; [done|]. apply of_uint_nonneg.
Qed.

Lemma lstrip_by_digits p s :
  (forall c, decimal c = true -> p c = false) ->
  Str.forallb decimal s = true -> lstrip_by p s = s.
Proof.
  intros Hp Hs. destruct s as [|c s]; [done|]. simpl in Hs.
  apply andb_prop in Hs as [Hc _]. by rewrite lstrip_by_head by auto.
Qed.

Lemma py2_int_str_of_Z n : py2.int_str (Str.of_Z n) = Some n.
Proof.
  unfold py2.int_str, Str.of_Z. destruct n as [|p|p]; [done|..];
    cbn [Z.to_int NilZero.string_of_int].
  - rewrite (read_digits _ _ is_space_digit (string_of_uint_nonempty _)
               (digit_string_of_uint _)).
    rewrite (lstrip_by_digits _ _ is_space_digit (digit_string_of_uint _)).
    rewrite ungroup_digits
      by (apply string_of_uint_nonempty || apply digit_string_of_uint).
    simpl. apply number_of_Z_pos.
  - rewrite (read_negative _ _ is_space_digit eq_refl (digit_string_of_uint _)).
    rewrite (lstrip_by_digits _ _ is_space_digit (digit_string_of_uint _)).
    rewrite ungroup_digits
      by (apply string_of_uint_nonempty || apply digit_string_of_uint).
    simpl. apply number_neg.
Qed.

Lemma py2_int_str_digits s :
  s <> "" -> Str.forallb decimal s = true -> exists n, py2.int_str s = Some n /\ 0 <= n.
Proof.
  intros Hne Hs. unfold py2.int_str.
  rewrite (read_digits _ _ is_space_digit Hne Hs).
  rewrite (lstrip_by_digits _ _ is_space_digit Hs).
  rewrite ungroup_digits by done. simpl. unfold number.
  destruct (uint_of_string_digits _ Hs) as [u ->]. simpl.
  eexists. split; [done|]. apply of_uint_nonneg.
Qed.

Lemma universal_newlines_no_CR s : no_CR s -> py3.universal_newlines s = s.
Proof.
  unfold no_CR. induction s as [|c s IH]; [done|]. simpl. intros Hs.
  apply andb_prop in Hs as [Hc Hs]. apply negb_true_iff, bool_decide_eq_false in Hc.
  rewrite (IH Hs). destruct c as [[] [] [] [] [] [] [] []]; done.
Qed.

End int_text.

Lemma py3_builtins_laws : @PyBuiltinsLaws py3_runtime py3_builtins.
Proof.
  split.
  - apply py3_int_str_of_Z.
  - apply py3_int_str_digits.
  - apply universal_newlines_no_CR.
Qed.

Lemma py2_builtins_laws : @PyBuiltinsLaws py2_runtime py2_builtins.
Proof.
  split.
  - apply py2_int_str_of_Z.
  - apply py2_int_str_digits.
  - done.
Qed.

(** ** Reading and assigning the attributes of a line *)

Section attributes.
Context `{PyRuntime}.

Lemma holds_lookup line f name v :
  holds line f -> (name, v) ∈ groups f -> Line.dict line !! name = Some (PyStr v).
Proof.
  unfold holds. rewrite Forall_forall. intros Hf Hin. exact (Hf _ Hin).
Qed.

Lemma holds_with_field line f name v :
  holds line f -> name ∈ Line.attrs ->
  holds (Line.mk (<[name := PyStr v]> (Line.dict line))) (with_field name v f).
Proof.
  intros Hf Hn. destruct f as [w1 dv w2 dr w3 ft w4 op w5 dm w6 fk w7].
  unfold holds, groups in *. simpl in Hf. rewrite !Forall_cons in Hf.
  destruct Hf as (H1&H2&H3&H4&H5&H6&H7&H8&H9&H10&H11&H12&H13&_). simpl in *.
  unfold Line.attrs in Hn.
  repeat (apply elem_of_cons in Hn as [->|Hn];
          [repeat constructor; simpl;
           rewrite ?lookup_insert_eq, ?lookup_insert_ne by done; done|]).
  by apply elem_of_nil in Hn.
Qed.

Lemma get_options_holds line f :
  holds line f -> Line.get_options line = Ok (Str.split "," (options f)).
Proof.
  intros Hf. unfold Line.get_options, Line.getitem.
  rewrite (holds_lookup line f "options" (options f) Hf); [done|].
  destruct f. unfold groups. simpl. set_solver.
Qed.

Lemma split_nonempty sep s : Str.split sep s <> [].
Proof.
  destruct s as [|c s]; [done|]. simpl. destruct (bool_decide _); [done|].
  by destruct (Str.split sep s).
Qed.

(** Joining what was split gives the text back. *)
Lemma join_split s : Str.join "," (Str.split "," s) = s.
Proof.
  unfold Str.join. induction s as [|c s IH]; [done|]. cbn [Str.split].
  destruct (bool_decide (c = ","%char)) eqn:Hc.
  - apply bool_decide_eq_true in Hc as ->.
    pose proof (split_nonempty "," s) as Hne.
    destruct (Str.split "," s) as [|x l]; [done|].
    change (String.concat "," ("" :: x :: l)) with ("," +:+ String.concat "," (x :: l)).
    by rewrite IH.
  - pose proof (split_nonempty "," s) as Hne.
    destruct (Str.split "," s) as [|x l]; [done|].
    destruct l as [|y l].
    + simpl in *. by rewrite IH.
    + change (String.concat "," (String c x :: y :: l))
        with (String c (String.concat "," (x :: y :: l))).
      by rewrite IH.
Qed.

End attributes.

Section line_reads.
Context `{PyRuntime} `{!PyRuntimeLaws}.

Lemma init_opaque_iff raw :
  Line.has_filesystem (Line.__init__ raw) = Ok false <-> Line.__init__ raw = OpaqueLine raw.
Proof.
  destruct (init_cases raw) as [[_ Hi]|(_ & _ & f & _ & _ & Hi)]; rewrite Hi.
  - by rewrite has_filesystem_opaque.
  - rewrite has_filesystem_entry. split; [done|]. destruct f. intros Heq.
    apply (f_equal (fun l => Line.dict l !! "device")) in Heq. done.
Qed.

Lemma init_entry_iff raw :
  Line.has_filesystem (Line.__init__ raw) = Ok true <->
  exists f, six_field f /\ raw = render f /\ Line.__init__ raw = FilesystemEntry f raw.
Proof.
  destruct (init_cases raw) as [[_ Hi]|(_ & _ & f & Hf & Hr & Hi)]; rewrite Hi.
  - rewrite has_filesystem_opaque. split; [done|]. intros (f & _ & _ & Heq).
    destruct f. apply (f_equal (fun l => Line.dict l !! "device")) in Heq. done.
  - rewrite has_filesystem_entry. split; [|done]. intros _. by exists f.
Qed.

End line_reads.

(** X1: a line renders back to the text it was made from, whatever the
    text is: [Line(raw).raw] and [repr(Line(raw))] both give [raw]. *)
Theorem line_renders_its_text `{PyRuntime} `{!PyRuntimeLaws} (raw : string) :
  Line.get_raw (Line.__init__ raw) = Ok (PyStr raw) /\
  Line.raw (Line.__init__ raw) = Returns (PyStr raw) /\
  Line.__repr__ (Line.__init__ raw) = Returns (PyStr raw).
Proof.
  assert (Hraw : Line.get_raw (Line.__init__ raw) = Ok (PyStr raw)).
  { destruct (init_cases raw) as [[_ ->]|(_ & _ & f & _ & Hr & ->)].
    - apply get_raw_opaque.
    - by rewrite get_raw_entry, Hr. }
  split; [exact Hraw|].
  unfold Line.__repr__, Line.raw, Line.property. by rewrite Hraw.
Qed.

Lemma line_renders_its_text_witness :
  Line.get_raw (py3_line sdb1_mnt) = Ok (PyStr sdb1_mnt) /\
  Line.raw (py3_line sdb1_mnt) = Returns (PyStr sdb1_mnt) /\
  Line.__repr__ (py3_line sdb1_mnt) = Returns (PyStr sdb1_mnt).
Proof. exact (@line_renders_its_text py3_runtime py3_laws sdb1_mnt). Defined.

(** X2: on a line without a filesystem specification the thirteen
    attributes kept in [dict] read as [None], and so does [options], whose
    getter fails on [None] and leaves the answer to [__getattr__]; reading
    [dump] or [fsck] raises [TypeError], because [int(None)] does. *)
Theorem attributes_without_filesystem `{PyRuntime} `{!PyRuntimeLaws} `{PyBuiltins}
    (raw : string) :
  Line.has_filesystem (Line.__init__ raw) = Ok false ->
  Forall (fun name => Line.__getattr__ (Line.__init__ raw) name = Ok PyNone) Line.attrs /\
  Line.get_options (Line.__init__ raw) = Raise (AttributeError "split") /\
  Line.options (Line.__init__ raw) = Returns PyNone /\
  Line.get_dump (Line.__init__ raw) = Raises (Exn TypeError) /\
  Line.dump (Line.__init__ raw) = Raises (Exn TypeError) /\
  Line.get_fsck (Line.__init__ raw) = Raises (Exn TypeError) /\
  Line.fsck (Line.__init__ raw) = Raises (Exn TypeError).
Proof.
  intros Hfs. apply init_opaque_iff in Hfs as ->.
  split; [by repeat constructor|]. by repeat split.
Qed.

Lemma attributes_without_filesystem_witness :
  Forall (fun name => Line.__getattr__ (py3_line a_comment) name = Ok PyNone) Line.attrs /\
  Line.get_options (py3_line a_comment) = Raise (AttributeError "split") /\
  Line.options (py3_line a_comment) = Returns PyNone /\
  @Line.get_dump py3_builtins (py3_line a_comment) = Raises (Exn TypeError) /\
  @Line.dump py3_builtins (py3_line a_comment) = Raises (Exn TypeError) /\
  @Line.get_fsck py3_builtins (py3_line a_comment) = Raises (Exn TypeError) /\
  @Line.fsck py3_builtins (py3_line a_comment) = Raises (Exn TypeError).
Proof.
  apply (@attributes_without_filesystem py3_runtime py3_laws py3_builtins a_comment).
  reflexivity.
Defined.

(** X3: on a line with a filesystem specification every getter succeeds:
    the text attributes are the pieces of the line, [dump] and [fsck] are
    the numbers their digits spell, and [options] is the options piece
    split at the commas, a list that is never empty and that joins back
    to the piece. *)
Theorem attributes_of_entry `{PyRuntime} `{!PyRuntimeLaws} `{PyBuiltins} `{!PyBuiltinsLaws}
    (raw : string) :
  Line.has_filesystem (Line.__init__ raw) = Ok true ->
  exists f d k,
    six_field f /\ raw = render f /\ holds (Line.__init__ raw) f /\
    int_str (dump f) = Some d /\ 0 <= d /\ int_str (fsck f) = Some k /\ 0 <= k /\
    Line.get_dump (Line.__init__ raw) = Returns d /\
    Line.dump (Line.__init__ raw) = Returns (PyInt d) /\
    Line.get_fsck (Line.__init__ raw) = Returns k /\
    Line.fsck (Line.__init__ raw) = Returns (PyInt k) /\
    Line.get_options (Line.__init__ raw) = Ok (Str.split "," (options f)) /\
    Line.options (Line.__init__ raw) = Returns (PyList (Str.split "," (options f))) /\
    Str.split "," (options f) <> [] /\
    Str.join "," (Str.split "," (options f)) = options f.
Proof.
  intros Hfs. apply init_entry_iff in Hfs as (f & Hf & Hr & ->).
  pose proof Hf as (_&_&_&_&_&_&_&_&_&[Hd1 Hd2]&_&[Hk1 Hk2]&_).
  destruct (int_str_digits _ Hd1 Hd2) as (d & Hd & Hd0).
  destruct (int_str_digits _ Hk1 Hk2) as (k & Hk & Hk0).
  exists f, d, k. pose proof (holds_entry f raw) as Hh.
  assert (Hgd : Line.get_dump (FilesystemEntry f raw) = Returns d).
  { unfold Line.get_dump, Line.getitem.
    rewrite (holds_lookup _ f "dump" (dump f) Hh) by (destruct f; set_solver).
    simpl. by rewrite Hd. }
  assert (Hgk : Line.get_fsck (FilesystemEntry f raw) = Returns k).
  { unfold Line.get_fsck, Line.getitem.
    rewrite (holds_lookup _ f "fsck" (fsck f) Hh) by (destruct f; set_solver).
    simpl. by rewrite Hk. }
  pose proof (get_options_holds _ f Hh) as Hgo.
  do 7 (split; [done|]). split; [done|].
  split; [unfold Line.dump, Line.property; by rewrite Hgd|]. split; [done|].
  split; [unfold Line.fsck, Line.property; by rewrite Hgk|]. split; [done|].
  split; [unfold Line.options, Line.property; by rewrite Hgo|].
  split; [apply split_nonempty|apply join_split].
Qed.

Lemma attributes_of_entry_witness :
  exists f d k,
    @six_field py3_runtime f /\ sda1_mnt = render f /\ holds (py3_line sda1_mnt) f /\
    py3.int_str (dump f) = Some d /\ 0 <= d /\ py3.int_str (fsck f) = Some k /\ 0 <= k /\
    @Line.get_dump py3_builtins (py3_line sda1_mnt) = Returns d /\
    @Line.dump py3_builtins (py3_line sda1_mnt) = Returns (PyInt d) /\
    @Line.get_fsck py3_builtins (py3_line sda1_mnt) = Returns k /\
    @Line.fsck py3_builtins (py3_line sda1_mnt) = Returns (PyInt k) /\
    Line.get_options (py3_line sda1_mnt) = Ok (Str.split "," (options f)) /\
    Line.options (py3_line sda1_mnt) = Returns (PyList (Str.split "," (options f))) /\
    Str.split "," (options f) <> [] /\
    Str.join "," (Str.split "," (options f)) = options f.
Proof.
  apply (@attributes_of_entry py3_runtime py3_laws py3_builtins py3_builtins_laws sda1_mnt).
  reflexivity.
Defined.

(** X4: a number assigned to [dump] or [fsck] is read back as that
    number, on any line; on a line that holds the pieces [f] the rendered
    text carries the number's decimal text in that position and is
    otherwise unchanged. *)
Theorem dump_fsck_assignment `{PyRuntime} `{!PyRuntimeLaws} `{PyBuiltins} `{!PyBuiltinsLaws}
    (line : Line.t) (n : Z) :
  (exists line',
     Line.__setattr__ line "dump" (PyInt n) = Ok line' /\
     Line.get_dump line' = Returns n /\ Line.dump line' = Returns (PyInt n) /\
     forall f, holds line f ->
       holds line' (with_field "dump" (Str.of_Z n) f) /\
       Line.get_raw line' = Ok (PyStr (render (with_field "dump" (Str.of_Z n) f)))) /\
  (exists line',
     Line.__setattr__ line "fsck" (PyInt n) = Ok line' /\
     Line.get_fsck line' = Returns n /\ Line.fsck line' = Returns (PyInt n) /\
     forall f, holds line f ->
       holds line' (with_field "fsck" (Str.of_Z n) f) /\
       Line.get_raw line' = Ok (PyStr (render (with_field "fsck" (Str.of_Z n) f)))).
Proof.
  split.
  - eexists. split; [reflexivity|].
    assert (Hg : Line.get_dump (Line.set_dump line (PyInt n)) = Returns n).
    { unfold Line.get_dump, Line.getitem, Line.set_dump. simpl.
      rewrite lookup_insert_eq. simpl. by rewrite int_str_of_Z. }
    split; [exact Hg|]. split; [unfold Line.dump, Line.property; by rewrite Hg|].
    intros f Hf.
    assert (Hh : holds (Line.set_dump line (PyInt n)) (with_field "dump" (Str.of_Z n) f))
      by (apply holds_with_field; [done|unfold Line.attrs; set_solver]).
    split; [exact Hh|]. by apply holds_get_raw.
  - eexists. split; [reflexivity|].
    assert (Hg : Line.get_fsck (Line.set_fsck line (PyInt n)) = Returns n).
    { unfold Line.get_fsck, Line.getitem, Line.set_fsck. simpl.
      rewrite lookup_insert_eq. simpl. by rewrite int_str_of_Z. }
    split; [exact Hg|]. split; [unfold Line.fsck, Line.property; by rewrite Hg|].
    intros f Hf.
    assert (Hh : holds (Line.set_fsck line (PyInt n)) (with_field "fsck" (Str.of_Z n) f))
      by (apply holds_with_field; [done|unfold Line.attrs; set_solver]).
    split; [exact Hh|]. by apply holds_get_raw.
Qed.

Lemma dump_fsck_assignment_witness :
  exists line',
    @Line.__setattr__ py3_runtime (py3_line sda1_mnt) "fsck" (PyInt 2) = Ok line' /\
    @Line.get_fsck py3_builtins line' = Returns 2 /\
    @Line.fsck py3_builtins line' = Returns (PyInt 2).
Proof.
  destruct (@dump_fsck_assignment py3_runtime py3_laws py3_builtins py3_builtins_laws
              (py3_line sda1_mnt) 2) as [_ (line' & Hset & Hget & Hattr & _)].
  exists line'. split; [exact Hset|]. split; [exact Hget|exact Hattr].
Defined.

(** X5: on a line that holds the pieces [f], assigning text to [device],
    [directory], [fstype] or one of the whitespace attributes stores it
    as given: the attribute reads back as the text, the other pieces stay,
    and the line renders with the text in that position. *)
Theorem field_assignment `{PyRuntime} (line : Line.t) (f : fields) (name v : string) :
  holds line f ->
  name ∈ Line.attrs -> name ∉ Line.forbidden ->
  exists line',
    Line.__setattr__ line name (PyStr v) = Ok line' /\
    Line.__getattr__ line' name = Ok (PyStr v) /\
    holds line' (with_field name v f) /\
    Line.get_raw line' = Ok (PyStr (render (with_field name v f))).
Proof.
  intros Hf Hn Hforb.
  assert (Hin : exists old, Line.dict line !! name = Some (PyStr old)).
  { destruct f as [w1 dv w2 dr w3 ft w4 op w5 dm w6 fk w7].
    unfold holds, groups in Hf. simpl in Hf. rewrite !Forall_cons in Hf.
    destruct Hf as (H1&H2&H3&H4&H5&H6&H7&H8&H9&H10&H11&H12&H13&_). simpl in *.
    unfold Line.attrs in Hn.
    repeat (apply elem_of_cons in Hn as [->|Hn]; [by eexists|]).
    by apply elem_of_nil in Hn. }
  destruct Hin as [old Hold].
  exists (Line.mk (<[name := PyStr v]> (Line.dict line))).
  split.
  - unfold Line.__setattr__.
    rewrite bool_decide_eq_true_2 by done.
    rewrite bool_decide_eq_true_2 by (apply elem_of_dom; by eexists).
    rewrite bool_decide_eq_false_2 by (rewrite Hold; done). done.
  - split; [unfold Line.__getattr__; simpl; by rewrite lookup_insert_eq|].
    assert (Hh : holds (Line.mk (<[name := PyStr v]> (Line.dict line)))
                   (with_field name v f)) by (by apply holds_with_field).
    split; [exact Hh|]. by apply holds_get_raw.
Qed.

Lemma field_assignment_witness :
  exists line',
    @Line.__setattr__ py3_runtime (FilesystemEntry root_fields (render root_fields))
      "directory" (PyStr "/mnt/root") = Ok line' /\
    Line.__getattr__ line' "directory" = Ok (PyStr "/mnt/root") /\
    Line.get_raw line' = Ok (PyStr "/dev/sda1 /mnt/root ext4 defaults 0 1").
Proof.
  destruct (@field_assignment py3_runtime
              (FilesystemEntry root_fields (render root_fields)) root_fields
              "directory" "/mnt/root" (holds_entry root_fields (render root_fields)))
    as (line' & Hset & Hget & _ & Hraw).
  - compute_done.
  - compute_done.
  - exists line'. split; [exact Hset|]. split; [exact Hget|exact Hraw].
Defined.

(** X6: assigning [raw] to a line that was already made does not parse
    the text: the assignment only replaces [dict["raw"]].  A line with a
    filesystem specification goes on rendering from its pieces, so the
    assigned text does not show; a line without one renders the assigned
    text and still has no filesystem specification, whatever the text. *)
Theorem raw_assignment_is_not_parsed `{PyRuntime} `{!PyRuntimeLaws} (raw0 raw1 : string) :
  exists line',
    Line.__setattr__ (Line.__init__ raw0) "raw" (PyStr raw1) = Ok line' /\
    Line.dict line' = <["raw" := PyStr raw1]> (Line.dict (Line.__init__ raw0)) /\
    Line.has_filesystem line' = Line.has_filesystem (Line.__init__ raw0) /\
    (Line.has_filesystem (Line.__init__ raw0) = Ok true ->
       Line.get_raw line' = Ok (PyStr raw0)) /\
    (Line.has_filesystem (Line.__init__ raw0) = Ok false ->
       Line.get_raw line' = Ok (PyStr raw1)).
Proof.
  exists (Line.mk (<["raw" := PyStr raw1]> (Line.dict (Line.__init__ raw0)))).
  destruct (init_cases raw0) as [[_ Hi]|(_ & _ & f & _ & Hr & Hi)]; rewrite Hi.
  - split; [reflexivity|]. split; [reflexivity|]. split; [reflexivity|].
    split; [done|]. intros _. reflexivity.
  - assert (Hh : holds (Line.mk (<["raw" := PyStr raw1]>
                                   (Line.dict (FilesystemEntry f raw0)))) f).
    { pose proof (holds_entry f raw0) as Hf. unfold holds in *.
      rewrite Forall_forall in *. intros g Hg. simpl.
      rewrite lookup_insert_ne; [by apply Hf|].
      destruct f. unfold groups in Hg. simpl in Hg.
      repeat (apply elem_of_cons in Hg as [->|Hg]; [done|]). by apply elem_of_nil in Hg. }
    split; [by destruct f|]. split; [reflexivity|].
    split; [by destruct f|].
    split; [|by rewrite has_filesystem_entry].
    intros _. by rewrite (holds_get_raw _ _ Hh), Hr.
Qed.

Lemma raw_assignment_is_not_parsed_witness :
  exists line',
    @Line.__setattr__ py3_runtime (py3_line a_comment) "raw" (PyStr sda1_mnt) = Ok line' /\
    Line.get_raw line' = Ok (PyStr sda1_mnt) /\
    Line.has_filesystem line' = Ok false.
Proof.
  destruct (@raw_assignment_is_not_parsed py3_runtime py3_laws a_comment sda1_mnt)
    as (line' & Hset & _ & Hfs & _ & Hraw).
  exists line'. split; [exact Hset|]. split; [by apply Hraw|exact Hfs].
Defined.

(** X7: on a line that holds the pieces [f], assigning to [options] the
    list that [get_options] returns changes nothing. *)
Theorem options_reassignment `{PyRuntime} (line : Line.t) (f : fields) :
  holds line f ->
  exists l,
    Line.get_options line = Ok l /\ l <> [] /\ Str.join "," l = options f /\
    Line.__setattr__ line "options" (PyList l) = Ok line.
Proof.
  intros Hf. exists (Str.split "," (options f)).
  split; [by apply get_options_holds|]. split; [apply split_nonempty|].
  split; [apply join_split|].
  change (Ok (Line.mk (<["options" := PyStr (Str.join "," (Str.split "," (options f)))]>
                         (Line.dict line))) = Ok line).
  rewrite join_split. rewrite insert_id; [by destruct line|].
  apply (holds_lookup line f "options" (options f) Hf). destruct f.
  unfold groups. simpl. by repeat constructor.
Qed.

Lemma options_reassignment_witness :
  exists l,
    Line.get_options (FilesystemEntry root_fields (render root_fields)) = Ok l /\
    l <> [] /\ Str.join "," l = "defaults" /\
    @Line.__setattr__ py3_runtime (FilesystemEntry root_fields (render root_fields))
      "options" (PyList l) = Ok (FilesystemEntry root_fields (render root_fields)).
Proof.
  exact (@options_reassignment py3_runtime
           (FilesystemEntry root_fields (render root_fields)) root_fields
           (holds_entry root_fields (render root_fields))).
Defined.

(** X8: text assigned to [options] is taken character by character:
    [",".join] iterates it, so the characters are stored with commas
    between them, and [get_options] returns the characters (when the text
    holds no comma itself). *)
Theorem options_assigned_text `{PyRuntime} (line : Line.t) (f : fields) (s : string) :
  holds line f -> s <> "" -> comma_free s ->
  exists line',
    Line.__setattr__ line "options" (PyStr s) = Ok line' /\
    holds line' (with_field "options" (Str.join "," (Str.chars s)) f) /\
    Line.get_options line' = Ok (Str.chars s) /\
    Line.get_raw line'
      = Ok (PyStr (render (with_field "options" (Str.join "," (Str.chars s)) f))).
Proof.
  intros Hf Hne Hs. eexists. split; [reflexivity|].
  assert (Hh : holds (Line.mk (<["options" := PyStr (Str.join "," (Str.chars s))]>
                                 (Line.dict line)))
                 (with_field "options" (Str.join "," (Str.chars s)) f))
    by (apply holds_with_field; [done|compute_done]).
  split; [exact Hh|]. split; [|by apply holds_get_raw].
  rewrite (get_options_holds _ _ Hh). f_equal. simpl.
  destruct f; simpl. apply split_join.
  - by destruct s.
  - clear Hne Hh Hf. unfold comma_free in *. induction s as [|c s IH]; [constructor|].
    simpl in *. apply andb_prop in Hs as [Hc Hs]. constructor; [|by apply IH].
    simpl. by rewrite Hc.
Qed.

Lemma options_assigned_text_witness :
  exists line',
    @Line.__setattr__ py3_runtime (FilesystemEntry root_fields (render root_fields))
      "options" (PyStr "ro") = Ok line' /\
    Line.get_options line' = Ok ["r"; "o"] /\
    Line.get_raw line' = Ok (PyStr "/dev/sda1 / ext4 r,o 0 1").
Proof.
  destruct (@options_assigned_text py3_runtime
              (FilesystemEntry root_fields (render root_fields)) root_fields "ro"
              (holds_entry root_fields (render root_fields)))
    as (line' & Hset & _ & Hget & Hraw); [done|reflexivity|].
  exists line'. split; [exact Hset|]. split; [exact Hget|exact Hraw].
Defined.

(** ** The table: what lookup and deletion keep *)

Section table.


Lemma get_entry_loop_first lines directory :
  initialised lines ->
  Fstab.get_entry_loop lines directory = Ok None /\ entries_for lines directory = 0%nat \/
  exists before line after,
    lines = before ++ line :: after /\ entries_for before directory = 0%nat /\
    mounted_at directory line = true /\
    Fstab.get_entry_loop lines directory = Ok (Some line).
Proof.
  induction 1 as [|line lines Hl Hls IH]; [by left|].
  cbn [Fstab.get_entry_loop]. rewrite is_entry_initialised by done.
  rewrite entries_for_cons. simpl. destruct (mounted_at directory line) eqn:Hm.
  - right. by exists [], line, lines.
  - destruct IH as [[-> ->]|(before & l & after & -> & Hb & Hlm & ->)]; [by left|].
    right. exists (line :: before), l, after. rewrite entries_for_cons, Hm. done.
Qed.

Lemma delete_skipping_sublist directory lines :
  delete_skipping directory lines `sublist_of` lines /\
  filter (fun line => mounted_at directory line = false) lines
    `sublist_of` delete_skipping directory lines.
Proof.
  assert (Hn : forall n lines, (length lines <= n)%nat ->
            delete_skipping directory lines `sublist_of` lines /\
            filter (fun line => mounted_at directory line = false) lines
              `sublist_of` delete_skipping directory lines).
  { induction n as [|n IH]; intros [|line rest] Hlen; simpl in *;
      try (split; constructor); try lia.
    rewrite filter_cons. destruct (mounted_at directory line) eqn:Hm.
    - rewrite decide_False by done. destruct rest as [|next rest].
      + split; [by constructor|]. rewrite filter_nil. constructor.
      + simpl in Hlen. destruct (IH rest) as [H1 H2]; [lia|]. split.
        * apply sublist_cons. by apply sublist_skip.
        * rewrite filter_cons. destruct (decide _).
          -- by apply sublist_skip.
          -- by apply sublist_cons.
    - rewrite decide_True by done. destruct (IH rest) as [H1 H2]; [lia|].
      split; by apply sublist_skip. }
  by apply (Hn (length lines)).
Qed.

Lemma entries_for_sublist directory l1 l2 :
  l1 `sublist_of` l2 -> (entries_for l1 directory <= entries_for l2 directory)%nat.
Proof.
  induction 1 as [|x l1 l2 _ IH|x l1 l2 _ IH]; [done|..];
    rewrite ?entries_for_cons; lia.
Qed.

Lemma delete_skipping_fewer directory lines :
  (0 < entries_for lines directory)%nat ->
  (entries_for (delete_skipping directory lines) directory
   < entries_for lines directory)%nat.
Proof.
  induction lines as [|line rest IH]; [unfold entries_for; simpl; lia|].
  rewrite entries_for_cons. cbn [delete_skipping].
  destruct (mounted_at directory line) eqn:Hm.
  - intros _. destruct rest as [|next rest]; [unfold entries_for; simpl; lia|].
    pose proof (entries_for_sublist directory _ _
                  (proj1 (delete_skipping_sublist directory rest))).
    rewrite !entries_for_cons. lia.
  - intros Hpos. rewrite entries_for_cons, Hm. simpl in *. by apply IH.
Qed.

Lemma delete_skipping_separated directory lines :
  separated directory lines = true ->
  delete_skipping directory lines
  = filter (fun line => mounted_at directory line = false) lines.
Proof.
  assert (Hn : forall n lines, (length lines <= n)%nat ->
            separated directory lines = true ->
            delete_skipping directory lines
            = filter (fun line => mounted_at directory line = false) lines).
  { induction n as [|n IH]; intros [|line rest] Hlen Hsep; simpl in *; try done; [lia|].
    rewrite filter_cons. apply andb_prop in Hsep as [Hfirst Hsep].
    destruct (mounted_at directory line) eqn:Hm.
    - rewrite decide_False by done. destruct rest as [|next rest]; [done|].
      simpl in *. apply negb_true_iff in Hfirst.
      apply andb_prop in Hsep as [_ Hsep].
      rewrite filter_cons, Hfirst, decide_True by done.
      f_equal. apply IH; [lia|done].
    - rewrite decide_True by done. f_equal. apply IH; [lia|done]. }
  by apply (Hn (length lines)).
Qed.

End table.

(** X9: [get_entry] returns the first line of the table whose [directory]
    is the one asked for, and [None] exactly when there is no such line. *)
Theorem get_entry_first_match (self : Fstab.t) (directory : string) :
  initialised (Fstab.lines self) ->
  Fstab.get_entry self directory = Ok None /\
    entries_for (Fstab.lines self) directory = 0%nat \/
  exists before line after,
    Fstab.get_entry self directory = Ok (Some line) /\
    Fstab.lines self = before ++ line :: after /\
    entries_for before directory = 0%nat /\
    Line.__getattr__ line "directory" = Ok (PyStr directory).
Proof.
  intros Hinit. unfold Fstab.get_entry.
  destruct (get_entry_loop_first _ directory Hinit)
    as [?|(before & line & after & Heq & Hb & Hm & Hget)]; [by left|].
  right. exists before, line, after. do 3 (split; [done|]).
  unfold mounted_at in Hm. apply bool_decide_eq_true in Hm.
  unfold Line.__getattr__. by rewrite Hm.
Qed.

Lemma get_entry_first_match_witness :
  Fstab.get_entry duplicates_apart "/mnt" = Ok None /\
    entries_for (Fstab.lines duplicates_apart) "/mnt" = 0%nat \/
  exists before line after,
    Fstab.get_entry duplicates_apart "/mnt" = Ok (Some line) /\
    Fstab.lines duplicates_apart = before ++ line :: after /\
    entries_for before "/mnt" = 0%nat /\
    Line.__getattr__ line "directory" = Ok (PyStr "/mnt").
Proof.
  apply (get_entry_first_match duplicates_apart "/mnt").
  by repeat constructor.
Defined.

(** X10: [delete_entry] only ever removes lines for the mount point: the
    lines it leaves are a subsequence of the table, in the same order, that
    holds every line for another mount point and every line without one.
    A table with no line for the mount point is left as it is, and from a
    table that holds some at least one is removed. *)
Theorem delete_entry_removes_only_matches (self : Fstab.t) (directory : string) :
  initialised (Fstab.lines self) ->
  exists self',
    Fstab.delete_entry self directory = Ok self' /\
    Fstab.fstab_file self' = Fstab.fstab_file self /\
    Fstab.lines self' `sublist_of` Fstab.lines self /\
    filter (fun line => mounted_at directory line = false) (Fstab.lines self)
      `sublist_of` Fstab.lines self' /\
    (entries_for (Fstab.lines self) directory = 0%nat -> self' = self) /\
    ((0 < entries_for (Fstab.lines self) directory)%nat ->
     (entries_for (Fstab.lines self') directory
      < entries_for (Fstab.lines self) directory)%nat).
Proof.
  intros Hinit. eexists. split; [by apply delete_entry_spec|]. simpl.
  split; [done|].
  destruct (delete_skipping_sublist directory (Fstab.lines self)) as [H1 H2].
  split; [done|]. split; [done|]. split.
  - intros Hnone. rewrite delete_skipping_none by done. by destruct self.
  - apply delete_skipping_fewer.
Qed.

Lemma delete_entry_removes_only_matches_witness :
  exists self',
    Fstab.delete_entry duplicates_adjacent "/mnt" = Ok self' /\
    Fstab.lines self' `sublist_of` Fstab.lines duplicates_adjacent /\
    filter (fun line => mounted_at "/mnt" line = false) (Fstab.lines duplicates_adjacent)
      `sublist_of` Fstab.lines self' /\
    (entries_for (Fstab.lines self') "/mnt"
     < entries_for (Fstab.lines duplicates_adjacent) "/mnt")%nat.
Proof.
  destruct (delete_entry_removes_only_matches duplicates_adjacent "/mnt")
    as (self' & Hdel & _ & Hsub & Hkept & _ & Hfewer).
  - by repeat constructor.
  - exists self'. split; [exact Hdel|]. split; [exact Hsub|]. split; [exact Hkept|].
    apply Hfewer. vm_compute. lia.
Defined.

(** X11: when no two lines for the mount point stand next to each other,
    [delete_entry] removes every line for it and nothing else, and
    [get_entry] finds none afterwards. *)
Theorem delete_entry_removes_all_separated (self : Fstab.t) (directory : string) :
  initialised (Fstab.lines self) ->
  separated directory (Fstab.lines self) = true ->
  exists self',
    Fstab.delete_entry self directory = Ok self' /\
    Fstab.lines self'
      = filter (fun line => mounted_at directory line = false) (Fstab.lines self) /\
    entries_for (Fstab.lines self') directory = 0%nat /\
    Fstab.get_entry self' directory = Ok None.
Proof.
  intros Hinit Hsep. eexists. split; [by apply delete_entry_spec|]. simpl.
  rewrite delete_skipping_separated by done. split; [done|].
  split; [apply entries_for_filter|]. unfold Fstab.get_entry. simpl.
  destruct (get_entry_loop_spec
              (filter (fun line => mounted_at directory line = false) (Fstab.lines self))
              directory) as (found & -> & Hnone & _).
  - unfold initialised in *. rewrite Forall_forall in *.
    intros line Hl. apply Hinit. by apply list_elem_of_filter in Hl as [_ ?].
  - f_equal. apply Hnone, entries_for_filter.
Qed.

Lemma delete_entry_removes_all_separated_witness :
  exists self',
    Fstab.delete_entry duplicates_apart "/mnt" = Ok self' /\
    Fstab.lines self'
      = filter (fun line => mounted_at "/mnt" line = false) (Fstab.lines duplicates_apart) /\
    entries_for (Fstab.lines self') "/mnt" = 0%nat /\
    Fstab.get_entry self' "/mnt" = Ok None.
Proof.
  apply (delete_entry_removes_all_separated duplicates_apart "/mnt").
  - by repeat constructor.
  - reflexivity.
Defined.



(** ** Reading the table from its file *)

Section reading.
Context `{PyRuntime} `{PyBuiltins}.

Lemma lookup_inode_Some f name ino i :
  os.lookup_inode f name = Some (ino, i) <->
  os.names f !! name = Some ino /\ os.inodes f !! ino = Some i.
Proof.
  unfold os.lookup_inode. destruct (os.names f !! name) as [ino'|]; simpl.
  - destruct (os.inodes f !! ino') as [i'|] eqn:Hi; simpl.
    + split; [by intros [= <- <-]|]. intros [[= <-] Hi']. congruence.
    + split; [done|]. intros [[= <-] Hi']. congruence.
  - split; [done|]. by intros [? _].
Qed.

Lemma open_r_inv name w r w' :
  os.open_r name w = (r, w') ->
  os.fs w' = os.fs w /\ os.rng w' = os.rng w /\ os.drawn w' = os.drawn w /\
  ((exists e, r = Raise (OSError e)) \/
   exists ino i, r = Ok ino /\ os.lookup_inode (os.fs w) name = Some (ino, i)).
Proof.
  intros Hs.
  apply syscall_inv in Hs as (? & ? & [[[e ->] Hfs]|(m & w0 & -> & Hw0 & _ & Hc)]).
  - do 3 (split; [done|]). left. by eexists.
  - rewrite Hw0 in Hc. destruct (os.lookup_inode _ _) as [[ino i]|] eqn:Hl; [|done].
    simpl in Hc. injection Hc as <- Hfs. do 3 (split; [done|]). right. by eexists _, _.
Qed.

Lemma file_read_inv f w r w' :
  os.file_read f w = (r, w') ->
  os.fs w' = os.fs w /\ os.rng w' = os.rng w /\ os.drawn w' = os.drawn w /\
  forall bytes, r = Ok bytes ->
    exists i, os.inodes (os.fs w) !! f = Some i /\ bytes = os.data i.
Proof.
  intros Hs.
  apply syscall_inv in Hs as (? & ? & [[[e ->] Hfs]|(m & w0 & -> & Hw0 & _ & Hc)]).
  - done.
  - rewrite Hw0 in Hc. destruct (os.inodes _ !! f) as [i|] eqn:Hi; [|done].
    simpl in Hc. injection Hc as <- Hfs. do 3 (split; [done|]).
    intros ? [= <-]. by exists i.
Qed.

Lemma readlines_inv f w r w' :
  os.readlines f w = (r, w') ->
  os.fs w' = os.fs w /\ os.rng w' = os.rng w /\ os.drawn w' = os.drawn w /\
  forall file_lines, r = Ok file_lines ->
    exists i, os.inodes (os.fs w) !! f = Some i /\
              file_lines = Str.lines (text_mode (os.data i)).
Proof.
  unfold os.readlines, os.bind, os.ret. intros Hr.
  destruct (os.file_read f w) as [[bytes|e] w1] eqn:Hread;
    apply file_read_inv in Hread as (? & ? & ? & Hok); injection Hr as <- <-.
  - do 3 (split; [done|]). intros ? [= <-].
    destruct (Hok _ eq_refl) as (i & ? & ->). by exists i.
  - done.
Qed.

Lemma close_keeps fd w r w' :
  os.close fd w = (r, w') ->
  os.fs w' = os.fs w /\ os.rng w' = os.rng w /\ os.drawn w' = os.drawn w.
Proof.
  intros Hs. pose proof (close_inv _ _ _ _ Hs).
  apply syscall_inv in Hs as (? & ? & _). done.
Qed.

Lemma foldl_snoc_map {A B} (g : A -> B) (xs : list A) (acc : list B) :
  foldl (fun ys x => ys ++ [g x]) acc xs = acc ++ map g xs.
Proof.
  revert acc. induction xs as [|x xs IH]; intros acc; simpl.
  - by rewrite app_nil_r.
  - by rewrite IH, <- app_assoc.
Qed.

(** What [read] does, whatever its status. *)
Lemma read_spec self fn w r self' w' :
  Fstab.read self fn w = (r, self', w') ->
  os.fs w' = os.fs w /\ os.rng w' = os.rng w /\ os.drawn w' = os.drawn w /\
  Fstab.fstab_file self' = Fstab.fstab_file self /\
  (r = Ok tt ->
   exists content,
     file_content w (Fstab.fn_or_default self fn) = Some content /\
     Fstab.lines self' = map Line.__init__ (Str.lines (text_mode content))) /\
  (file_content w (Fstab.fn_or_default self fn) = None ->
   (exists e, r = Raise (OSError e)) /\ self' = self).
Proof.
  unfold Fstab.read. set (path := Fstab.fn_or_default self fn). intros Hr.
  destruct (os.open_r path w) as [[f|e] w1] eqn:Hopen;
    apply open_r_inv in Hopen as (Hfs1 & Hrng1 & Hdr1 & Hopen).
  2:{ injection Hr as <- <- <-. do 4 (split; [done|]). split; [done|].
      intros _. destruct Hopen as [[e' [= ->]]|(? & ? & ? & _)]; [|done].
      split; [by eexists|done]. }
  destruct Hopen as [[? ?]|(ino & i & [= ->] & Hl)]; [done|].
  assert (Hc : file_content w path = Some (os.data i)).
  { unfold file_content. by rewrite Hl. }
  apply lookup_inode_Some in Hl as [Hname Hino].
  destruct (os.readlines ino w1) as [rl w2] eqn:Hrl.
  apply readlines_inv in Hrl as (Hfs2 & Hrng2 & Hdr2 & Hok).
  destruct (os.close ino w2) as [rc w3] eqn:Hcl.
  apply close_keeps in Hcl as (Hfs3 & Hrng3 & Hdr3).
  assert (Hw : os.fs w3 = os.fs w /\ os.rng w3 = os.rng w /\ os.drawn w3 = os.drawn w)
    by (split; [|split]; congruence).
  destruct rl as [file_lines|e].
  - destruct (Hok _ eq_refl) as (i' & Hi' & ->). rewrite Hfs1, Hino in Hi'.
    injection Hi' as <-.
    destruct rc as [[]|e]; injection Hr as <- <- <-;
      (split; [apply Hw|]; split; [apply Hw|]; split; [apply Hw|]; split; [done|]).
    + split; [|by rewrite Hc]. intros _. exists (os.data i). split; [done|].
      simpl. by rewrite foldl_snoc_map.
    + split; [done|]. by rewrite Hc.
  - destruct rc as [[]|e']; injection Hr as <- <- <-;
      (split; [apply Hw|]; split; [apply Hw|]; split; [apply Hw|]; split; [done|]);
      (split; [done|]); by rewrite Hc.
Qed.

End reading.

Section rendering.
Context `{PyRuntime} `{!PyRuntimeLaws}.

Lemma get_raw_init raw : Line.get_raw (Line.__init__ raw) = Ok (PyStr raw).
Proof.
  destruct (init_cases raw) as [[_ ->]|(_ & _ & f & _ & Hr & ->)].
  - apply get_raw_opaque.
  - by rewrite get_raw_entry, Hr.
Qed.

Lemma mapM_get_raw_init raws :
  mapM Line.get_raw (map Line.__init__ raws) = Ok (PyStr <$> raws).
Proof.
  induction raws as [|raw raws IH]; [done|].
  cbn [map mapM]. rewrite get_raw_init. simpl. rewrite IH. done.
Qed.

Lemma initialised_map_init raws : initialised (map Line.__init__ raws).
Proof.
  unfold initialised. apply Forall_forall. intros line Hl.
  apply list_elem_of_fmap in Hl as (raw & -> & _). apply initialised_init.
Qed.

End rendering.

Lemma PyStr_fmap_inj (l1 l2 : list string) : PyStr <$> l1 = PyStr <$> l2 -> l1 = l2.
Proof.
  revert l2. induction l1 as [|x l1 IH]; intros [|y l2] Heq; try done.
  injection Heq as -> Heq. f_equal. by apply IH.
Qed.

Lemma concat_all_lines s : concat_all (Str.lines s) = s.
Proof.
  induction s as [|c s IH]; [done|]. simpl.
  destruct (bool_decide (c = "010"%char)).
  - simpl. by rewrite IH.
  - destruct (Str.lines s) as [|l ls].
    + simpl in *. by rewrite <- IH.
    + simpl in *. by rewrite <- IH.
Qed.

(** ** [write] as a whole *)

Section write_whole.

(** The file system after a successful [write], name by name and inode
    by inode. *)
Lemma write_ok_fs self fn path w w' :
  fs_wf w -> rng_ok w -> path = Fstab.fn_or_default self fn ->
  Fstab.write self fn w = (Ok tt, w') ->
  exists temp t raws ino i m,
    mapM Line.get_raw (Fstab.lines self) = Ok (PyStr <$> raws) /\
    os.names (os.fs w) !! path = Some ino /\ os.inodes (os.fs w) !! ino = Some i /\
    os.names (os.fs w) !! temp = None /\ os.inodes (os.fs w) !! t = None /\
    temp <> path /\ temp <> path +:+ ".bak" /\ path +:+ ".bak" <> path /\
    os.S_IMODE m = os.S_IMODE (os.st_mode i) /\
    os.names (os.fs w') !! path = Some t /\
    os.names (os.fs w') !! (path +:+ ".bak") = Some ino /\
    os.names (os.fs w') !! temp = None /\
    (forall name, name <> path -> name <> path +:+ ".bak" -> name <> temp ->
       os.names (os.fs w') !! name = os.names (os.fs w) !! name) /\
    os.inodes (os.fs w') !! t = Some (os.Inode m (concat_all raws)) /\
    (forall k, k <> t -> os.inodes (os.fs w') !! k = os.inodes (os.fs w) !! k).
Proof.
  intros Hwf Hrng Hpath Hw. rewrite write_split, <- Hpath in Hw. clear Hpath.
  apply bind_inv in Hw as [(temp' & w1 & Hsteps & Hren)|(e & _ & ?)]; [|done].
  destruct (steps_1_4_spec _ _ _ _ _ Hwf Hrng Hsteps)
    as [(_ & [e ?] & _)|(temp & t & _ & _ & Htf & Htb & Hleft & Hok)]; [done|].
  destruct (Hok _ eq_refl) as (-> & raws & ino & i & m & Hraws & Hfn & Ht & Hmode & Hbak).
  destruct Hleft as (Hnone & Htnone & Htemp & _ & Hnames & Hinodes).
  apply lookup_inode_Some in Hfn as [Hname Hino].
  assert (Hbp : path +:+ ".bak" <> path) by (intros Heq; by apply sapp_id_inv in Heq).
  unfold Fstab.rename_file in Hren.
  apply rename_inv in Hren as [[[e ?] _]|(t' & _ & Htemp' & Hcase)]; [done|].
  rewrite Htemp in Htemp'. injection Htemp' as <-.
  destruct Hcase as [[Hsame _]|[_ Hfs']].
  { rewrite Hnames, Hname in Hsame by done. congruence. }
  exists temp, t, raws, ino, i, m. rewrite Hfs'. simpl.
  do 9 (split; [done|]).
  split; [by rewrite lookup_insert_eq|].
  split; [by rewrite lookup_insert_ne, lookup_delete_ne|].
  split; [by rewrite lookup_insert_ne, lookup_delete_eq|].
  split; [|done].
  intros name ? ? ?. rewrite lookup_insert_ne, lookup_delete_ne by done. by apply Hnames.
Qed.

(** A [write] that raises leaves the file under its name as it was. *)
Lemma write_raise_fs self fn path w e w' :
  fs_wf w -> rng_ok w -> path = Fstab.fn_or_default self fn ->
  Fstab.write self fn w = (Raise e, w') ->
  os.names (os.fs w') !! path = os.names (os.fs w) !! path /\
  os.lookup_inode (os.fs w') path = os.lookup_inode (os.fs w) path.
Proof.
  intros Hwf Hrng Hpath Hw. rewrite write_split, <- Hpath in Hw. clear Hpath.
  assert (Hsteps : exists r1 w1, write_steps_1_4 self path w = (r1, w1) /\
                                 os.fs w' = os.fs w1).
  { apply bind_inv in Hw as [(temp' & w1 & Hsteps & Hren)|(e' & Hsteps & _)].
    - exists (Ok temp'), w1. split; [done|]. unfold Fstab.rename_file in Hren.
      by apply rename_inv in Hren as [[_ ?]|(? & ? & _)].
    - by exists (Raise e'), w'. }
  destruct Hsteps as (r1 & w1 & Hsteps & Hfs). rewrite Hfs.
  destruct (steps_1_4_spec _ _ _ _ _ Hwf Hrng Hsteps)
    as [(_ & _ & ->)|(temp & t & _ & _ & Htf & Htb & Hleft & _)]; [done|].
  destruct Hleft as (Hnone & Htnone & Htemp & _ & Hnames & Hinodes).
  assert (Hbf : path <> path +:+ ".bak").
  { intros Heq. symmetry in Heq. by apply sapp_id_inv in Heq. }
  assert (Hname : os.names (os.fs w1) !! path = os.names (os.fs w) !! path)
    by (by apply Hnames).
  split; [done|]. unfold os.lookup_inode. rewrite Hname.
  destruct (os.names (os.fs w) !! path) as [ino|] eqn:Hino; [|done]. simpl.
  destruct (Hwf _ _ Hino) as [i Hi].
  rewrite Hinodes; [done|]. intros ->. congruence.
Qed.

End write_whole.

(** X13: a successful [read] replaces the table by one line per line of
    the file, in order, each parsed on its own; the lines render to the
    very text that was read, so that their concatenation is the content of
    the file as text mode delivers it.  The file system is not changed. *)
Theorem read_parses_every_line `{PyRuntime} `{!PyRuntimeLaws} `{PyBuiltins}
    (self self' : Fstab.t) (fn : option string) (path : string) (w w' : os.world) :
  path = Fstab.fn_or_default self fn ->
  Fstab.read self fn w = (Ok tt, self', w') ->
  exists content,
    file_content w path = Some content /\
    Fstab.lines self' = map Line.__init__ (Str.lines (text_mode content)) /\
    mapM Line.get_raw (Fstab.lines self') = Ok (PyStr <$> Str.lines (text_mode content)) /\
    concat_all (Str.lines (text_mode content)) = text_mode content /\
    Fstab.fstab_file self' = Fstab.fstab_file self /\
    os.fs w' = os.fs w.
Proof.
  intros -> Hr. apply read_spec in Hr as (Hfs & _ & _ & Hfile & Hok & _).
  destruct (Hok eq_refl) as (content & Hc & Hlines). exists content.
  split; [done|]. split; [done|]. rewrite Hlines.
  split; [apply mapM_get_raw_init|]. split; [apply concat_all_lines|done].
Qed.

Lemma read_parses_every_line_witness :
  exists content,
    file_content quiet_world "/etc/fstab" = Some content /\
    Fstab.lines (@Fstab.read py3_runtime py3_builtins one_entry None quiet_world).1.2
      = map (@Line.__init__ py3_runtime) (Str.lines (py3.universal_newlines content)) /\
    mapM Line.get_raw
      (Fstab.lines (@Fstab.read py3_runtime py3_builtins one_entry None quiet_world).1.2)
      = Ok (PyStr <$> Str.lines (py3.universal_newlines content)) /\
    concat_all (Str.lines (py3.universal_newlines content))
      = py3.universal_newlines content /\
    Fstab.fstab_file (@Fstab.read py3_runtime py3_builtins one_entry None quiet_world).1.2
      = "/etc/fstab" /\
    os.fs (@Fstab.read py3_runtime py3_builtins one_entry None quiet_world).2
      = os.fs quiet_world.
Proof.
  apply (@read_parses_every_line py3_runtime py3_laws py3_builtins one_entry
           (@Fstab.read py3_runtime py3_builtins one_entry None quiet_world).1.2
           None "/etc/fstab" quiet_world
           (@Fstab.read py3_runtime py3_builtins one_entry None quiet_world).2 eq_refl).
  vm_compute. reflexivity.
Defined.

(** X14: [read] never changes the file system, and when the file is not
    there it raises the error of [open] and leaves the table as it was. *)
Theorem read_missing_file `{PyRuntime} `{PyBuiltins}
    (self : Fstab.t) (fn : option string) (path : string) (w : os.world) :
  path = Fstab.fn_or_default self fn ->
  os.fs (Fstab.read self fn w).2 = os.fs w /\
  (file_content w path = None ->
   exists e w', Fstab.read self fn w = (Raise (OSError e), self, w')).
Proof.
  intros ->.
  destruct (Fstab.read self fn w) as [[r self'] w'] eqn:Hr.
  apply read_spec in Hr as (Hfs & _ & _ & _ & _ & Hmiss).
  split; [done|]. intros Hnone.
  destruct (Hmiss Hnone) as [[e ->] ->]. by exists e, w'.
Qed.

Lemma read_missing_file_witness :
  os.fs (@Fstab.read py3_runtime py3_builtins one_entry (Some "/etc/mtab") quiet_world).2
    = os.fs quiet_world /\
  (file_content quiet_world "/etc/mtab" = None ->
   exists e w',
     @Fstab.read py3_runtime py3_builtins one_entry (Some "/etc/mtab") quiet_world
       = (Raise (OSError e), one_entry, w')).
Proof.
  exact (@read_missing_file py3_runtime py3_builtins one_entry (Some "/etc/mtab")
           "/etc/mtab" quiet_world eq_refl).
Defined.

(** X15: reading a file and writing the table back without a change
    leaves the file with the content it had, as long as text mode reads
    that content as it is (no carriage return in it, or Python 2); the
    backup then holds the same content, and the permission bits are
    kept. *)
Theorem read_then_write `{PyRuntime} `{!PyRuntimeLaws} `{PyBuiltins}
    (self self1 : Fstab.t) (fn : option string) (path content : string)
    (w w1 w2 : os.world) :
  fs_wf w -> rng_ok w ->
  path = Fstab.fn_or_default self fn ->
  file_content w path = Some content ->
  text_mode content = content ->
  Fstab.read self fn w = (Ok tt, self1, w1) ->
  Fstab.write self1 fn w1 = (Ok tt, w2) ->
  file_content w2 path = Some content /\
  file_content w2 (path +:+ ".bak") = Some content /\
  os.names (os.fs w2) !! (path +:+ ".bak") = os.names (os.fs w) !! path /\
  exists old_mode new_mode,
    file_mode w path = Some old_mode /\ file_mode w2 path = Some new_mode /\
    os.S_IMODE new_mode = os.S_IMODE old_mode.
Proof.
  intros Hwf Hrng -> Hc Htext Hr Hw.
  apply read_spec in Hr as (Hfs1 & Hrng1 & _ & Hfile & Hok & _).
  destruct (Hok eq_refl) as (content' & Hc' & Hlines). rewrite Hc in Hc'.
  injection Hc' as <-. rewrite Htext in Hlines.
  assert (Hwf1 : fs_wf w1) by (unfold fs_wf; by rewrite Hfs1).
  assert (Hrng1' : rng_ok w1) by (unfold rng_ok; by rewrite Hrng1).
  assert (Hpath : Fstab.fn_or_default self fn = Fstab.fn_or_default self1 fn).
  { unfold Fstab.fn_or_default. by rewrite Hfile. }
  destruct (write_ok_fs self1 fn _ w1 w2 Hwf1 Hrng1' Hpath Hw)
    as (temp & t & raws & ino & i & m & Hraws & Hname & Hino & _ & Htnone & _ & _ & Hbp
        & Hmode & Hp2 & Hb2 & _ & _ & Ht2 & Hi2).
  rewrite Hlines, mapM_get_raw_init in Hraws. injection Hraws as Hraws.
  apply PyStr_fmap_inj in Hraws. subst raws. rewrite concat_all_lines in Ht2.
  rewrite Hfs1 in Hname, Hino, Htnone.
  assert (ino <> t) by (intros ->; congruence).
  assert (Hi : os.data i = content).
  { unfold file_content, os.lookup_inode in Hc. rewrite Hname in Hc. simpl in Hc.
    rewrite Hino in Hc. simpl in Hc. congruence. }
  unfold file_content, file_mode, os.lookup_inode.
  rewrite Hp2, Hb2, Hname. simpl. rewrite Ht2, Hino, Hi2, Hfs1, Hino by done. simpl.
  rewrite Hi. do 3 (split; [done|]). by eexists _, _.
Qed.

Lemma read_then_write_witness :
  file_content
    (Fstab.write (@Fstab.read py3_runtime py3_builtins one_entry None quiet_world).1.2 None
       (@Fstab.read py3_runtime py3_builtins one_entry None quiet_world).2).2 "/etc/fstab"
    = Some "proc /proc proc defaults 0 0" /\
  file_content
    (Fstab.write (@Fstab.read py3_runtime py3_builtins one_entry None quiet_world).1.2 None
       (@Fstab.read py3_runtime py3_builtins one_entry None quiet_world).2).2 "/etc/fstab.bak"
    = Some "proc /proc proc defaults 0 0".
Proof.
  destruct (@read_then_write py3_runtime py3_laws py3_builtins one_entry
              (@Fstab.read py3_runtime py3_builtins one_entry None quiet_world).1.2
              None "/etc/fstab" "proc /proc proc defaults 0 0" quiet_world
              (@Fstab.read py3_runtime py3_builtins one_entry None quiet_world).2
              (Fstab.write
                 (@Fstab.read py3_runtime py3_builtins one_entry None quiet_world).1.2 None
                 (@Fstab.read py3_runtime py3_builtins one_entry None quiet_world).2).2
              (etc_fstab_wf []) (etc_fstab_rng []) eq_refl eq_refl eq_refl)
    as (Hfile & Hbak & _).
  - vm_compute. reflexivity.
  - vm_compute. reflexivity.
  - split; [exact Hfile|exact Hbak].
Defined.

(** X16: [write] is all or nothing for the file it replaces: whenever it
    raises, at whichever step, the name still leads to the same inode,
    with the content and the mode it had. *)
Theorem write_all_or_nothing (self : Fstab.t) (fn : option string) (path : string)
    (w w' : os.world) (e : exn) :
  fs_wf w -> rng_ok w ->
  path = Fstab.fn_or_default self fn ->
  Fstab.write self fn w = (Raise e, w') ->
  os.names (os.fs w') !! path = os.names (os.fs w) !! path /\
  file_content w' path = file_content w path /\
  file_mode w' path = file_mode w path.
Proof.
  intros Hwf Hrng Hpath Hw.
  destruct (write_raise_fs _ _ _ _ _ _ Hwf Hrng Hpath Hw) as [Hname Hlook].
  unfold file_content, file_mode. by rewrite Hlook.
Qed.

Lemma write_all_or_nothing_witness :
  os.names (os.fs (Fstab.write one_entry None link_refused_world).2) !! "/etc/fstab"
    = os.names (os.fs link_refused_world) !! "/etc/fstab" /\
  file_content (Fstab.write one_entry None link_refused_world).2 "/etc/fstab"
    = file_content link_refused_world "/etc/fstab" /\
  file_mode (Fstab.write one_entry None link_refused_world).2 "/etc/fstab"
    = file_mode link_refused_world "/etc/fstab".
Proof.
  apply (write_all_or_nothing one_entry None "/etc/fstab" link_refused_world
           (Fstab.write one_entry None link_refused_world).2 (OSError EPERM)
           (etc_fstab_wf _) (etc_fstab_rng _) eq_refl).
  vm_compute. reflexivity.
Defined.

(** X17: [write] cannot create the file: when there is no file under the
    name, it raises, and afterwards there is still none. *)
Theorem write_needs_the_file (self : Fstab.t) (fn : option string) (path : string)
    (w : os.world) :
  fs_wf w -> rng_ok w ->
  path = Fstab.fn_or_default self fn ->
  file_content w path = None ->
  exists e w',
    Fstab.write self fn w = (Raise e, w') /\ file_content w' path = None.
Proof.
  intros Hwf Hrng Hpath Hnone.
  destruct (Fstab.write self fn w) as [[[]|e] w'] eqn:Hw.
  - destruct (write_ok_fs _ _ _ _ _ Hwf Hrng Hpath Hw)
      as (temp & t & raws & ino & i & m & _ & Hname & Hino & _).
    unfold file_content, os.lookup_inode in Hnone. rewrite Hname in Hnone.
    simpl in Hnone. rewrite Hino in Hnone. done.
  - exists e, w'. split; [done|].
    destruct (write_raise_fs _ _ _ _ _ _ Hwf Hrng Hpath Hw) as [_ Hlook].
    unfold file_content in *. by rewrite Hlook.
Qed.

Lemma write_needs_the_file_witness :
  exists e w',
    Fstab.write one_entry (Some "/etc/mtab") quiet_world = (Raise e, w') /\
    file_content w' "/etc/mtab" = None.
Proof.
  apply (write_needs_the_file one_entry (Some "/etc/mtab") "/etc/mtab" quiet_world
           (etc_fstab_wf []) (etc_fstab_rng []) eq_refl).
  reflexivity.
Defined.

(** X18: a successful [write] changes two names and no other: the file
    and its backup.  Every other name leads to the inode, the content and
    the mode it had before, and a name that was free is free afterwards;
    the temporary file is not left behind. *)
Theorem write_touches_nothing_else (self : Fstab.t) (fn : option string)
    (path name : string) (w w' : os.world) :
  fs_wf w -> rng_ok w ->
  path = Fstab.fn_or_default self fn ->
  Fstab.write self fn w = (Ok tt, w') ->
  name <> path -> name <> path +:+ ".bak" ->
  os.names (os.fs w') !! name = os.names (os.fs w) !! name /\
  file_content w' name = file_content w name /\
  file_mode w' name = file_mode w name.
Proof.
  intros Hwf Hrng Hpath Hw Hnp Hnb.
  destruct (write_ok_fs _ _ _ _ _ Hwf Hrng Hpath Hw)
    as (temp & t & raws & ino & i & m & _ & _ & _ & Htemp & Htnone & _ & _ & _
        & _ & _ & _ & Htemp' & Hnames & _ & Hinodes).
  assert (Hname : os.names (os.fs w') !! name = os.names (os.fs w) !! name).
  { destruct (decide (name = temp)) as [->|Hnt]; [congruence|]. by apply Hnames. }
  assert (Hlook : os.lookup_inode (os.fs w') name = os.lookup_inode (os.fs w) name).
  { unfold os.lookup_inode. rewrite Hname.
    destruct (os.names (os.fs w) !! name) as [k|] eqn:Hk; [|done]. simpl.
    destruct (Hwf _ _ Hk) as [ik Hik].
    rewrite Hinodes; [done|]. intros ->. congruence. }
  unfold file_content, file_mode. by rewrite Hlook.
Qed.

Lemma write_touches_nothing_else_witness :
  os.names (os.fs (Fstab.write one_entry None quiet_world).2) !! "/etc/fstab.k3x9_ab2"
    = os.names (os.fs quiet_world) !! "/etc/fstab.k3x9_ab2" /\
  file_content (Fstab.write one_entry None quiet_world).2 "/etc/fstab.k3x9_ab2"
    = file_content quiet_world "/etc/fstab.k3x9_ab2" /\
  file_mode (Fstab.write one_entry None quiet_world).2 "/etc/fstab.k3x9_ab2"
    = file_mode quiet_world "/etc/fstab.k3x9_ab2".
Proof.
  apply (write_touches_nothing_else one_entry None "/etc/fstab" "/etc/fstab.k3x9_ab2"
           quiet_world (Fstab.write one_entry None quiet_world).2
           (etc_fstab_wf []) (etc_fstab_rng []) eq_refl); [|done..].
  vm_compute. reflexivity.
Defined.

(** ** Where the temporary file is made *)

Section temporary.






End temporary.



(** ** Rewriting a file in place *)

Section in_place.

Lemma slength_app s t : String.length (s +:+ t) = (String.length s + String.length t)%nat.
Proof. induction s as [|c s IH]; [done|]. rewrite sapp_cons. simpl. by rewrite IH. Qed.

Lemma resize_app s t : Str.resize (String.length s) (s +:+ t) = s.
Proof. induction s as [|c s IH]; [done|]. rewrite sapp_cons. simpl. by rewrite IH. Qed.

Lemma drop_app s n t : Str.drop (String.length s + n) (s +:+ t) = Str.drop n t.
Proof. induction s as [|c s IH]; [done|]. rewrite sapp_cons. simpl. by rewrite IH. Qed.

Lemma drop_length n t : exists pre, (String.length pre <= n)%nat /\ t = pre +:+ Str.drop n t.
Proof.
  revert t. induction n as [|n IH]; intros t.
  - exists "". split; [simpl; lia|]. by destruct t.
  - destruct t as [|c t]; [exists ""; split; [simpl; lia|done]|].
    destruct (IH t) as (pre & Hlen & Ht). exists (String c pre).
    split; [simpl; lia|]. simpl. rewrite sapp_cons. by rewrite <- Ht.
Qed.

Lemma open_rplus_inv name w r w' :
  os.open_rplus name w = (r, w') ->
  os.fs w' = os.fs w /\
  ((exists e, r = Raise (OSError e)) \/
   exists ino i, r = Ok ino /\ os.lookup_inode (os.fs w) name = Some (ino, i)).
Proof.
  intros Hs.
  apply syscall_inv in Hs as (? & ? & [[[e ->] Hfs]|(m & w0 & -> & Hw0 & _ & Hc)]).
  - split; [done|]. left. by eexists.
  - rewrite Hw0 in Hc. destruct (os.lookup_inode _ _) as [[ino i]|] eqn:Hl; [|done].
    simpl in Hc. injection Hc as <- Hfs. split; [done|]. right. by eexists _, _.
Qed.

Lemma open_a_inv name w r w' ino i :
  os.open_a name w = (r, w') ->
  os.lookup_inode (os.fs w) name = Some (ino, i) ->
  os.fs w' = os.fs w /\ ((exists e, r = Raise (OSError e)) \/ r = Ok ino).
Proof.
  intros Hs Hl.
  apply syscall_inv in Hs as (? & ? & [[[e ->] Hfs]|(m & w0 & -> & Hw0 & _ & Hc)]).
  - split; [done|]. left. by eexists.
  - rewrite Hw0, Hl in Hc. simpl in Hc. injection Hc as <- Hfs. split; [done|]. by right.
Qed.

Lemma lseek_inv f pos w r w' : os.lseek f pos w = (r, w') -> os.fs w' = os.fs w.
Proof.
  intros Hs. apply syscall_inv in Hs as (_ & _ & [[_ ?]|(? & w0 & _ & Hw0 & _ & Hc)]);
    [done|]. simpl in Hc. injection Hc as _ Hfs. congruence.
Qed.

Lemma pwrite_inv f pos text w w' :
  os.pwrite f pos text w = (Ok tt, w') ->
  exists i, os.inodes (os.fs w) !! f = Some i /\
    os.fs w' = os.FS (os.names (os.fs w))
                 (<[f := os.Inode (os.st_mode i)
                           (Str.resize pos (os.data i) +:+ text
                              +:+ Str.drop (pos + String.length text) (os.data i))]>
                    (os.inodes (os.fs w))).
Proof.
  intros Hs. apply syscall_inv in Hs as (_ & _ & [[[e ?] _]|(m & w0 & _ & Hw0 & _ & Hc)]);
    [done|].
  rewrite Hw0 in Hc. destruct (os.inodes _ !! f) as [i|] eqn:Hi; [|done].
  simpl in Hc. injection Hc as _ Hfs. by exists i.
Qed.

Lemma ftruncate_inv f size w w' :
  os.ftruncate f size w = (Ok tt, w') ->
  exists i, os.inodes (os.fs w) !! f = Some i /\
    os.fs w' = os.FS (os.names (os.fs w))
                 (<[f := os.Inode (os.st_mode i) (Str.resize size (os.data i))]>
                    (os.inodes (os.fs w))).
Proof.
  intros Hs. apply syscall_inv in Hs as (_ & _ & [[[e ?] _]|(m & w0 & _ & Hw0 & _ & Hc)]);
    [done|].
  rewrite Hw0 in Hc. destruct (os.inodes _ !! f) as [i|] eqn:Hi; [|done].
  simpl in Hc. injection Hc as _ Hfs. by exists i.
Qed.

Lemma os_bind_ok {A B} (m : os.IO A) (k : A -> os.IO B) w b w' :
  os.bind m k w = (Ok b, w') ->
  exists a w1, m w = (Ok a, w1) /\ k a w1 = (Ok b, w').
Proof.
  unfold os.bind. destruct (m w) as [[a|e] w1]; [|done]. intros Hk. by exists a, w1.
Qed.

Lemma os_finally_ok {A} (body : os.IO A) (cleanup : os.IO unit) w a w' :
  os.finally body cleanup w = (Ok a, w') ->
  exists w1, body w = (Ok a, w1) /\ cleanup w1 = (Ok tt, w').
Proof.
  unfold os.finally. destruct (body w) as [r w1].
  destruct (cleanup w1) as [[[]|e] w2] eqn:Hc; intros Hf; [|done].
  injection Hf as -> <-. by exists w1.
Qed.

(** The lines written one after the other from an offset replace what
    was there. *)
Lemma writelines_spec f lines w pos' w' m written rest :
  os.inodes (os.fs w) !! f = Some (os.Inode m (written +:+ rest)) ->
  os.writelines f (String.length written) lines w = (Ok pos', w') ->
  os.names (os.fs w') = os.names (os.fs w) /\
  pos' = String.length (written +:+ concat_all lines) /\
  exists rest',
    os.inodes (os.fs w')
    = <[f := os.Inode m ((written +:+ concat_all lines) +:+ rest')]> (os.inodes (os.fs w)).
Proof.
  revert w written rest. induction lines as [|line lines IH]; intros w written rest Hf Hw.
  - simpl in Hw. injection Hw as <- <-. split; [done|]. rewrite sapp_nil_r.
    split; [done|]. exists rest. by rewrite insert_id.
  - cbn [os.writelines] in Hw. apply os_bind_ok in Hw as ([] & w1 & Hp & Hw).
    apply pwrite_inv in Hp as (i & Hi & Hfs1). rewrite Hf in Hi. injection Hi as <-.
    simpl in Hfs1. rewrite resize_app, drop_app in Hfs1.
    rewrite <- slength_app in Hw.
    destruct (drop_length (String.length line) rest) as (pre & _ & Hrest).
    rewrite <- !sapp_assoc in Hfs1.
    destruct (IH w1 (written +:+ line) (Str.drop (String.length line) rest))
      as (Hnames & Hpos & rest' & Hinodes).
    { rewrite Hfs1. simpl. by rewrite lookup_insert_eq. }
    { exact Hw. }
    rewrite Hfs1 in Hnames, Hinodes. simpl in *.
    split; [done|]. rewrite <- sapp_assoc. split; [done|].
    exists rest'. by rewrite Hinodes, insert_insert_eq.
Qed.

End in_place.

(** ** setup.py: the davfs2 secret *)

Section secret.
Context `{PyBuiltins}.

Lemma bind_ok {A B} (m : os.IO A) (k : A -> os.IO B) w b w' :
  (m ≫= k) w = (Ok b, w') ->
  exists a w1, m w = (Ok a, w1) /\ k a w1 = (Ok b, w').
Proof.
  intros Hb. apply bind_inv in Hb as [(a & w1 & ? & ?)|(e & _ & ?)]; [|done].
  by exists a, w1.
Qed.

(** The first block of [add_davfs2_secret]: the file keeps the lines that
    do not start with the URL, and nothing else. *)
Lemma rewrite_secrets_ok url w w' :
  os.with_open_rplus secrets_file (fun f =>
    lines ← os.readlines f;
    os.lseek f 0;;
    pos ← os.writelines f 0 (filter (fun l => Str.startswith l url = false) lines);
    os.ftruncate f pos) w = (Ok tt, w') ->
  exists ino i,
    os.lookup_inode (os.fs w) secrets_file = Some (ino, i) /\
    os.names (os.fs w') = os.names (os.fs w) /\
    os.inodes (os.fs w')
    = <[ino := os.Inode (os.st_mode i)
                 (concat_all (other_secrets url (text_mode (os.data i))))]>
        (os.inodes (os.fs w)).
Proof.
  unfold os.with_open_rplus. intros Hw.
  apply os_bind_ok in Hw as (f & w1 & Hopen & Hw).
  apply open_rplus_inv in Hopen as (Hfs1 & [[e ?]|(ino & i & [= ->] & Hl)]); [done|].
  exists ino, i. split; [done|].
  apply lookup_inode_Some in Hl as [Hname Hino].
  apply os_finally_ok in Hw as (w5 & Hbody & Hclose). apply close_inv in Hclose.
  apply bind_ok in Hbody as (lines & w2 & Hread & Hbody).
  apply readlines_inv in Hread as (Hfs2 & _ & _ & Hlines).
  destruct (Hlines _ eq_refl) as (i' & Hi' & ->). rewrite Hfs1, Hino in Hi'.
  injection Hi' as <-.
  apply bind_ok in Hbody as ([] & w3 & Hseek & Hbody). apply lseek_inv in Hseek.
  apply bind_ok in Hbody as (pos & w4 & Hwl & Htrunc).
  assert (Hpre : os.inodes (os.fs w3) !! ino
                 = Some (os.Inode (os.st_mode i) ("" +:+ os.data i))).
  { rewrite Hseek, Hfs2, Hfs1, sapp_nil_l, Hino. by destruct i. }
  destruct (writelines_spec ino _ w3 pos w4 (os.st_mode i) "" (os.data i) Hpre Hwl)
    as (Hnames4 & -> & rest' & Hinodes4).
  rewrite sapp_nil_l in *.
  apply ftruncate_inv in Htrunc as (i4 & Hi4 & Hfs5).
  rewrite Hinodes4, lookup_insert_eq in Hi4. injection Hi4 as <-.
  simpl in Hfs5. rewrite resize_app in Hfs5.
  rewrite Hclose, Hfs5. simpl. rewrite Hnames4, Hinodes4, insert_insert_eq.
  by rewrite Hseek, Hfs2, Hfs1.
Qed.

(** The second block: the secret is appended to the file that is there. *)
Lemma append_secret_ok text w w' ino i :
  os.lookup_inode (os.fs w) secrets_file = Some (ino, i) ->
  os.with_open_a secrets_file (fun f => os.file_write f text) w = (Ok tt, w') ->
  os.names (os.fs w') = os.names (os.fs w) /\
  os.inodes (os.fs w')
  = <[ino := os.Inode (os.st_mode i) (os.data i +:+ text)]> (os.inodes (os.fs w)).
Proof.
  unfold os.with_open_a. intros Hl Hw.
  apply os_bind_ok in Hw as (f & w1 & Hopen & Hw).
  apply (open_a_inv _ _ _ _ _ _ Hopen) in Hl as Hopen'.
  destruct Hopen' as (Hfs1 & [[e ?]|[= ->]]); [done|].
  apply lookup_inode_Some in Hl as [Hname Hino].
  apply os_finally_ok in Hw as (w2 & Hwrite & Hclose). apply close_inv in Hclose.
  apply file_write_inv in Hwrite as [[[e ?] _]|(i' & Hi' & Hfs2)]; [done|].
  rewrite Hfs1, Hino in Hi'. injection Hi' as <-.
  rewrite Hclose, Hfs2. simpl. by rewrite Hfs1.
Qed.

Lemma setup_bind_ok {A B} (m : setup.IO A) (k : A -> setup.IO B) h b h' :
  (m ≫= k) h = (Returns b, h') ->
  exists a h1, m h = (Returns a, h1) /\ k a h1 = (Returns b, h').
Proof.
  unfold mbind, setup.IO_bind, setup.bind.
  destruct (m h) as [[a|e] h1]; [|done]. intros Hk. by exists a, h1.
Qed.

Lemma setup_io_ok {A} (m : os.IO A) h a h' :
  setup.io m h = (Returns a, h') ->
  m (setup.world h) = (Ok a, setup.world h') /\
  setup.log h' = setup.log h /\ setup.passwd h' = setup.passwd h /\
  setup.home h' = setup.home h.
Proof.
  unfold setup.io. destruct (m (setup.world h)) as [[a'|e] w']; [|done].
  simpl. intros [= -> <-]. done.
Qed.

End secret.

Section secret_spec.
Context `{PyBuiltins}.

(** What a successful [add_davfs2_secret] leaves, inode by inode. *)
Lemma add_davfs2_secret_ok url username password h h' :
  setup.add_davfs2_secret url username password h = (Returns tt, h') ->
  exists ino i,
    os.lookup_inode (os.fs (setup.world h)) secrets_file = Some (ino, i) /\
    os.names (os.fs (setup.world h')) = os.names (os.fs (setup.world h)) /\
    os.inodes (os.fs (setup.world h'))
    = <[ino := os.Inode (os.st_mode i)
                 (concat_all (other_secrets url (text_mode (os.data i)))
                    +:+ secret_line url username password)]>
        (os.inodes (os.fs (setup.world h))) /\
    setup.log h' = setup.log h ++ [(setup.INFO, "Adding credentials to davfs2 config")].
Proof.
  unfold setup.add_davfs2_secret. intros Hadd.
  apply setup_bind_ok in Hadd as ([] & h1 & Hlog & Hadd).
  unfold setup.LOG.info in Hlog. injection Hlog as <-.
  apply setup_bind_ok in Hadd as ([] & h2 & Hrewrite & Happend).
  apply setup_io_ok in Hrewrite as (Hrewrite & Hlog2 & _). simpl in Hrewrite, Hlog2.
  apply setup_io_ok in Happend as (Happend & Hlog3 & _).
  apply rewrite_secrets_ok in Hrewrite as (ino & i & Hl & Hnames2 & Hinodes2).
  exists ino, i. split; [done|].
  apply lookup_inode_Some in Hl as [Hname Hino].
  assert (Hl2 : os.lookup_inode (os.fs (setup.world h2)) secrets_file
                = Some (ino, os.Inode (os.st_mode i)
                               (concat_all (other_secrets url (text_mode (os.data i)))))).
  { apply lookup_inode_Some. by rewrite Hnames2, Hinodes2, lookup_insert_eq. }
  destruct (append_secret_ok _ _ _ _ _ Hl2 Happend) as [Hnames3 Hinodes3].
  rewrite Hnames3, Hinodes3, Hnames2, Hinodes2, insert_insert_eq. simpl.
  split; [done|]. split; [done|]. congruence.
Qed.

End secret_spec.

(** X20: a successful [add_davfs2_secret] leaves the secrets file with
    the lines it had that do not start with the URL, in their order,
    followed by one new line: the URL, the user name and the password
    between double quotes, each double quote of the password preceded by
    a backslash.  The mode of the file and all names are as before, and
    one record is logged. *)
Theorem add_davfs2_secret_rewrites `{PyBuiltins} (url username password : string)
    (h h' : setup.host) :
  setup.add_davfs2_secret url username password h = (Returns tt, h') ->
  exists old mode,
    file_content (setup.world h) secrets_file = Some old /\
    file_mode (setup.world h) secrets_file = Some mode /\
    file_content (setup.world h') secrets_file
      = Some (concat_all (other_secrets url (text_mode old))
                +:+ secret_line url username password) /\
    file_mode (setup.world h') secrets_file = Some mode /\
    os.names (os.fs (setup.world h')) = os.names (os.fs (setup.world h)) /\
    setup.log h' = setup.log h ++ [(setup.INFO, "Adding credentials to davfs2 config")].
Proof.
  intros Hadd.
  apply add_davfs2_secret_ok in Hadd as (ino & i & Hl & Hnames & Hinodes & Hlog).
  exists (os.data i), (os.st_mode i).
  unfold file_content, file_mode. rewrite Hl. simpl.
  apply lookup_inode_Some in Hl as [Hname Hino].
  unfold os.lookup_inode. rewrite Hnames, Hname. simpl.
  rewrite Hinodes, lookup_insert_eq. simpl. done.
Qed.

Lemma add_davfs2_secret_rewrites_witness :
  exists old mode,
    file_content (setup.world secrets_host) secrets_file = Some old /\
    file_mode (setup.world secrets_host) secrets_file = Some mode /\
    file_content
      (setup.world (@setup.add_davfs2_secret py3_builtins "https://example.org/dav"
                      "carol" "pass" secrets_host).2) secrets_file
      = Some (concat_all (other_secrets "https://example.org/dav"
                            (py3.universal_newlines old))
                +:+ secret_line "https://example.org/dav" "carol" "pass") /\
    file_mode
      (setup.world (@setup.add_davfs2_secret py3_builtins "https://example.org/dav"
                      "carol" "pass" secrets_host).2) secrets_file = Some mode /\
    os.names (os.fs (setup.world
                       (@setup.add_davfs2_secret py3_builtins "https://example.org/dav"
                          "carol" "pass" secrets_host).2))
      = os.names (os.fs (setup.world secrets_host)) /\
    setup.log (@setup.add_davfs2_secret py3_builtins "https://example.org/dav"
                 "carol" "pass" secrets_host).2
      = setup.log secrets_host ++ [(setup.INFO, "Adding credentials to davfs2 config")].
Proof.
  apply (@add_davfs2_secret_rewrites py3_builtins "https://example.org/dav" "carol" "pass"
           secrets_host
           (@setup.add_davfs2_secret py3_builtins "https://example.org/dav"
              "carol" "pass" secrets_host).2).
  vm_compute. reflexivity.
Defined.

(** ** Lines of text *)

Section text_lines.

Lemma concat_all_app l1 l2 : concat_all (l1 ++ l2) = concat_all l1 +:+ concat_all l2.
Proof.
  induction l1 as [|x l1 IH]; [done|]. simpl. by rewrite IH, sapp_assoc.
Qed.

Lemma lines_one_line l s : one_line l -> Str.lines (l +:+ s) = l :: Str.lines s.
Proof.
  intros (body & -> & Hbody). unfold no_LF in Hbody.
  induction body as [|c body IH]; [done|].
  simpl in Hbody. apply andb_prop in Hbody as [Hc Hbody].
  apply negb_true_iff in Hc. rewrite !sapp_cons. cbn [Str.lines].
  rewrite Hc, (IH Hbody). done.
Qed.

Lemma lines_concat ls : Forall one_line ls -> Str.lines (concat_all ls) = ls.
Proof.
  induction 1 as [|l ls Hl Hls IH]; [done|]. simpl.
  by rewrite lines_one_line, IH.
Qed.

Lemma lines_nonempty c s : Str.lines (String c s) <> [].
Proof.
  simpl. destruct (bool_decide _); [done|]. by destruct (Str.lines s).
Qed.

Lemma lines_whole s : whole_lines s -> Forall one_line (Str.lines s).
Proof.
  induction s as [|c s IH]; [by constructor|]. intros [?|Hend]; [done|].
  assert (Hs : whole_lines s).
  { destruct s as [|c' s]; [by left|]. by right. }
  specialize (IH Hs). cbn [Str.lines].
  destruct (bool_decide (c = "010"%char)) eqn:Hc.
  - apply bool_decide_eq_true in Hc as ->. constructor; [|done]. by exists "".
  - destruct s as [|c' s].
    { simpl in Hend. congruence. }
    pose proof (lines_nonempty c' s) as Hne.
    destruct (Str.lines (String c' s)) as [|l ls]; [done|].
    apply Forall_cons in IH as [(body & -> & Hbody) Hls]. constructor; [|done].
    exists (String c body). split; [done|]. unfold no_LF in *. simpl. by rewrite Hc.
Qed.

Lemma startswith_app p r : Str.startswith (p +:+ r) p = true.
Proof.
  unfold Str.startswith. induction p as [|c p IH]; [by destruct r|].
  rewrite sapp_cons. cbn [String.prefix]. by destruct (ascii_dec c c).
Qed.

Lemma filter_keeps_all {A} (P : A -> Prop) `{!forall x, Decision (P x)} (l : list A) :
  Forall P l -> filter P l = l.
Proof.
  induction 1 as [|x l Hx Hl IH]; [done|].
  by rewrite filter_cons, decide_True, IH.
Qed.

Lemma filter_drops_all {A} (P : A -> Prop) `{!forall x, Decision (P x)} (l : list A) :
  Forall (fun x => ~ P x) l -> filter P l = [].
Proof.
  induction 1 as [|x l Hx Hl IH]; [done|].
  by rewrite filter_cons, decide_False, IH.
Qed.

Lemma Forall_filter_of {A} (P Q : A -> Prop) `{!forall x, Decision (P x)} (l : list A) :
  Forall Q l -> Forall Q (filter P l).
Proof.
  rewrite !Forall_forall. intros HQ x Hx. apply HQ.
  by apply list_elem_of_filter in Hx as [_ ?].
Qed.

Lemma filter_holds {A} (P : A -> Prop) `{!forall x, Decision (P x)} (l : list A) :
  Forall P (filter P l).
Proof.
  rewrite Forall_forall. intros x Hx. by apply list_elem_of_filter in Hx as [? _].
Qed.

Lemma no_CR_app s t : no_CR (s +:+ t) <-> no_CR s /\ no_CR t.
Proof. unfold no_CR. rewrite sforallb_app. apply andb_true_iff. Qed.

Lemma no_LF_app s t : no_LF (s +:+ t) <-> no_LF s /\ no_LF t.
Proof. unfold no_LF. rewrite sforallb_app. apply andb_true_iff. Qed.

Lemma no_CR_concat ls : no_CR (concat_all ls) <-> Forall no_CR ls.
Proof.
  induction ls as [|l ls IH]; [by split; [constructor|]|].
  simpl. rewrite no_CR_app, Forall_cons, IH. done.
Qed.

Lemma no_CR_lines s : no_CR s -> Forall no_CR (Str.lines s).
Proof. intros Hs. apply no_CR_concat. by rewrite concat_all_lines. Qed.

Lemma replace_free (c old : ascii) new s :
  Str.forallb (fun a => negb (bool_decide (a = c))) new = true ->
  Str.forallb (fun a => negb (bool_decide (a = c))) s = true ->
  Str.forallb (fun a => negb (bool_decide (a = c))) (Str.replace old new s) = true.
Proof.
  intros Hnew. induction s as [|a s IH]; [done|]. simpl. intros Hs.
  apply andb_prop in Hs as [Ha Hs]. rewrite sforallb_app, (IH Hs), andb_true_r.
  destruct (bool_decide (a = old)); [done|]. simpl. by rewrite Ha.
Qed.

Lemma secret_line_one_line url username password :
  no_LF url -> no_LF username -> no_LF password ->
  one_line (secret_line url username password).
Proof.
  intros Hu Hn Hp.
  exists (url +:+ " " +:+ username +:+ " " +:+ setup.DQ
            +:+ Str.replace "034" (String "092" setup.DQ) password +:+ setup.DQ).
  split; [unfold secret_line; by rewrite <- !sapp_assoc|].
  rewrite !no_LF_app. repeat split; try done.
  by apply replace_free.
Qed.

Lemma secret_line_no_CR url username password :
  no_CR url -> no_CR username -> no_CR password ->
  no_CR (secret_line url username password).
Proof.
  intros Hu Hn Hp. unfold secret_line. rewrite !no_CR_app. repeat split; try done.
  by apply replace_free.
Qed.

End text_lines.

(** X21: on a secrets file that is a whole number of lines,
    [add_davfs2_secret] with a URL, user name and password that fit in a
    line leaves exactly one line that starts with the URL, the new one;
    and a second call with the same arguments leaves the file as the
    first call left it. *)
Theorem add_davfs2_secret_once `{PyRuntime} `{PyBuiltins} `{!PyBuiltinsLaws}
    (url username password old : string) (h h1 : setup.host) :
  file_content (setup.world h) secrets_file = Some old ->
  whole_lines old -> no_CR old ->
  plain url -> plain username -> plain password ->
  setup.add_davfs2_secret url username password h = (Returns tt, h1) ->
  exists content,
    file_content (setup.world h1) secrets_file = Some content /\
    filter (fun l => Str.startswith l url = true) (Str.lines content)
      = [secret_line url username password] /\
    forall h2,
      setup.add_davfs2_secret url username password h1 = (Returns tt, h2) ->
      file_content (setup.world h2) secrets_file = Some content.
Proof.
  intros Hold Hwhole Hcr [Hu1 Hu2] [Hn1 Hn2] [Hp1 Hp2] Hadd.
  set (L := secret_line url username password).
  set (kept := other_secrets url old).
  assert (Hkept1 : Forall one_line kept).
  { apply Forall_filter_of. by apply lines_whole. }
  assert (Hkept2 : Forall (fun l => Str.startswith l url = false) kept)
    by apply filter_holds.
  assert (HL : one_line L) by (by apply secret_line_one_line).
  assert (Hlines : Str.lines (concat_all kept +:+ L) = kept ++ [L]).
  { rewrite <- (sapp_nil_r L) at 1.
    change (L +:+ "") with (concat_all [L]). rewrite <- concat_all_app.
    apply lines_concat. apply Forall_app. split; [done|]. by constructor. }
  assert (Hstart : Str.startswith L url = true) by apply startswith_app.
  assert (Hcontent : forall h h', 
            setup.add_davfs2_secret url username password h = (Returns tt, h') ->
            forall c, file_content (setup.world h) secrets_file = Some c ->
            file_content (setup.world h') secrets_file
            = Some (concat_all (other_secrets url (text_mode c)) +:+ L)).
  { intros ha hb Hab c Hc.
    apply add_davfs2_secret_ok in Hab as (ino & i & Hl & Hnames & Hinodes & _).
    unfold file_content in *. rewrite Hl in Hc. injection Hc as <-.
    apply lookup_inode_Some in Hl as [Hname Hino].
    unfold os.lookup_inode. rewrite Hnames, Hname. simpl.
    by rewrite Hinodes, lookup_insert_eq. }
  pose proof (Hcontent _ _ Hadd _ Hold) as Hfirst.
  rewrite (text_mode_no_CR old Hcr) in Hfirst. fold kept in Hfirst.
  exists (concat_all kept +:+ L). split; [exact Hfirst|]. split.
  - rewrite Hlines, filter_app, filter_cons, filter_nil, decide_True by done.
    rewrite filter_drops_all; [done|].
    eapply Forall_impl; [exact Hkept2|]. simpl. intros l Hl. congruence.
  - intros h2 Hadd2. rewrite (Hcontent _ _ Hadd2 _ Hfirst).
    rewrite text_mode_no_CR.
    + unfold other_secrets at 1. rewrite Hlines, filter_app, filter_cons, filter_nil.
      rewrite decide_False by congruence. rewrite app_nil_r.
      by rewrite filter_keeps_all.
    + apply no_CR_app. split; [|by apply secret_line_no_CR].
      apply no_CR_concat. apply Forall_filter_of. by apply no_CR_lines.
Qed.

Lemma add_davfs2_secret_once_witness :
  exists content,
    file_content
      (setup.world (@setup.add_davfs2_secret py3_builtins "https://example.org/dav"
                      "carol" "pass" secrets_host).2) secrets_file = Some content /\
    filter (fun l => Str.startswith l "https://example.org/dav" = true) (Str.lines content)
      = [secret_line "https://example.org/dav" "carol" "pass"] /\
    forall h2,
      @setup.add_davfs2_secret py3_builtins "https://example.org/dav" "carol" "pass"
        (@setup.add_davfs2_secret py3_builtins "https://example.org/dav"
           "carol" "pass" secrets_host).2 = (Returns tt, h2) ->
      file_content (setup.world h2) secrets_file = Some content.
Proof.
  apply (@add_davfs2_secret_once py3_runtime py3_builtins py3_builtins_laws
           "https://example.org/dav" "carol" "pass"
           ("/home/ubuntu/dav alice secret" +:+ LF
              +:+ "https://example.org/dav bob " +:+ setup.DQ +:+ "old" +:+ setup.DQ +:+ LF)
           secrets_host).
  - reflexivity.
  - right. reflexivity.
  - reflexivity.
  - split; reflexivity.
  - split; reflexivity.
  - split; reflexivity.
  - vm_compute. reflexivity.
Defined.

(** X22: [add_davfs2_secret] does not create the secrets file: when it is
    not there the call raises the error of [open] and the file system is
    as before. *)
Theorem add_davfs2_secret_needs_the_file `{PyBuiltins} (url username password : string)
    (h : setup.host) :
  file_content (setup.world h) secrets_file = None ->
  exists e h',
    setup.add_davfs2_secret url username password h = (Raises (Exn (OSError e)), h') /\
    os.fs (setup.world h') = os.fs (setup.world h).
Proof.
  intros Hnone. unfold setup.add_davfs2_secret.
  unfold mbind, setup.IO_bind, setup.bind, setup.LOG.info, setup.io. simpl.
  change "/etc/davfs2/secrets" with secrets_file.
  unfold os.with_open_rplus, os.bind.
  destruct (os.open_rplus secrets_file (setup.world h)) as [[f|e] w1] eqn:Hopen;
    apply open_rplus_inv in Hopen as (Hfs & [[e' ?]|(ino & i & ? & Hl)]); simplify_eq.
  - unfold file_content in Hnone. by rewrite Hl in Hnone.
  - by eexists _, _.
Qed.

Lemma add_davfs2_secret_needs_the_file_witness :
  exists e h',
    @setup.add_davfs2_secret py3_builtins "https://example.org/dav" "carol" "pass" fstab_host
      = (Raises (Exn (OSError e)), h') /\
    os.fs (setup.world h') = os.fs (setup.world fstab_host).
Proof.
  apply (@add_davfs2_secret_needs_the_file py3_builtins
           "https://example.org/dav" "carol" "pass" fstab_host).
  reflexivity.
Defined.

(** ** setup.py: the entry in the mount table *)

Section fstab_entry.
Context `{PyRuntime} `{!PyRuntimeLaws} `{PyBuiltins}.

Lemma read_raises self fn w e self' w' :
  Fstab.read self fn w = (Raise e, self', w') -> exists e', e = OSError e'.
Proof.
  unfold Fstab.read. intros Hr.
  destruct (os.open_r _ w) as [[f|e1] w1] eqn:Hopen.
  - destruct (os.readlines f w1) as [rl w2] eqn:Hrl.
    assert (Hrl' : forall e2, rl = Raise e2 -> exists e', e2 = OSError e').
    { intros e2 ->. unfold os.readlines, os.bind in Hrl.
      destruct (os.file_read f w1) as [[bytes|e3] w3] eqn:Hread; [done|].
      injection Hrl as <- <-.
      apply syscall_inv in Hread as (_ & _ & [[[e' [= ->]] _]|(? & ? & ? & _)]); [|done].
      by eexists. }
    destruct (os.close f w2) as [rc w3] eqn:Hcl.
    assert (Hcl' : forall e2, rc = Raise e2 -> exists e', e2 = OSError e').
    { intros e2 ->.
      apply syscall_inv in Hcl as (_ & _ & [[[e' [= ->]] _]|(? & ? & ? & _)]); [|done].
      by eexists. }
    destruct rl as [file_lines|e2], rc as [[]|e3]; simplify_eq; eauto.
  - injection Hr as <- <- <-.
    apply syscall_inv in Hopen as (_ & _ & [[[e' [= ->]] _]|(? & ? & ? & _)]); [|done].
    by eexists.
Qed.

Lemma get_default_user_ok h user h' :
  setup.get_default_user h = (Returns user, h') ->
  default_user_of h user /\
  os.fs (setup.world h') = os.fs (setup.world h) /\
  os.rng (setup.world h') = os.rng (setup.world h) /\
  setup.log h' = setup.log h /\ setup.passwd h' = setup.passwd h /\
  setup.home h' = setup.home h.
Proof.
  unfold setup.get_default_user, default_user_of.
  destruct (setup.passwd h !! 1000) as [name|] eqn:Hpw.
  - intros [= -> <-]. split; [by left|done].
  - intros Hg. apply setup_bind_ok in Hg as (entries & h1 & Hls & Hg).
    unfold setup.listdir_home in Hls.
    apply setup_io_ok in Hls as (Hls & Hlog & Hpasswd & Hhome).
    apply syscall_inv in Hls as (Hrng & _ & [[[e ?] _]|(? & w0 & [= <-] & Hw0 & _ & Hc)]);
      [done|].
    destruct (setup.home h) as [l|] eqn:Hh; [|done]. simpl in Hc.
    injection Hc as -> Hfs.
    destruct entries as [|name others]; [done|].
    injection Hg as -> <-.
    split; [right; split; [done|by eexists]|]. split; [congruence|]. done.
Qed.

(** When the table read from the file has a line for the mount point,
    [add_fstab_entry] goes no further. *)
Lemma add_fstab_entry_found h content :
  file_content (setup.world h) "/etc/fstab" = Some content ->
  (0 < entries_for (map Line.__init__ (Str.lines (text_mode content)))
         setup.CLOUDSTOR_MOUNT)%nat ->
  exists r h',
    setup.add_fstab_entry h = (r, h') /\
    os.fs (setup.world h') = os.fs (setup.world h) /\
    setup.log h' = setup.log h /\
    (r = Returns true \/ exists e, r = Raises (Exn (OSError e))).
Proof.
  intros Hc Hpos. unfold setup.add_fstab_entry, mbind, setup.IO_bind, setup.bind.
  destruct (Fstab.read (Fstab.__init__ "/etc/fstab") None (setup.world h))
    as [[r1 fstab1] w1] eqn:Hread.
  pose proof (read_spec _ _ _ _ _ _ Hread) as (Hfs & _ & _ & _ & Hok & _).
  destruct r1 as [[]|e].
  - destruct (Hok eq_refl) as (content' & Hc' & Hlines). simpl in Hc'.
    rewrite Hc in Hc'. injection Hc' as <-.
    assert (Hget : exists line,
              Fstab.get_entry fstab1 setup.CLOUDSTOR_MOUNT = Ok (Some line)).
    { unfold Fstab.get_entry. rewrite Hlines.
      destruct (get_entry_loop_first
                  (map Line.__init__ (Str.lines (text_mode content)))
                  setup.CLOUDSTOR_MOUNT (initialised_map_init _))
        as [[_ Hnone]|(before & line & after & _ & _ & _ & ->)]; [lia|].
      by eexists. }
    destruct Hget as [line Hget]. unfold setup.lift. rewrite Hget. simpl.
    eexists _, _. split; [reflexivity|]. simpl. split; [done|]. split; [done|]. by left.
  - destruct (read_raises _ _ _ _ _ _ Hread) as [e' ->].
    eexists _, _. split; [reflexivity|]. simpl. split; [done|]. split; [done|].
    right. by eexists.
Qed.

End fstab_entry.

Section fstab_entry_added.
Context `{PyRuntime} `{!PyRuntimeLaws} `{PyBuiltins}.

(** When the table has no line for the mount point and every step
    succeeds, the file gets one more line and the backup the old
    content. *)
Lemma add_fstab_entry_added h h' content :
  fs_wf (setup.world h) -> rng_ok (setup.world h) ->
  file_content (setup.world h) "/etc/fstab" = Some content ->
  entries_for (map Line.__init__ (Str.lines (text_mode content)))
    setup.CLOUDSTOR_MOUNT = 0%nat ->
  setup.add_fstab_entry h = (Returns true, h') ->
  exists user,
    default_user_of h user /\
    file_content (setup.world h') "/etc/fstab"
      = Some (text_mode content +:+ cloudstor_line user) /\
    file_content (setup.world h') "/etc/fstab.bak" = Some content /\
    setup.log h' = setup.log h ++ [(setup.INFO, "Adding fstab entry")] /\
    (forall name, name <> "/etc/fstab" -> name <> "/etc/fstab.bak" ->
       os.names (os.fs (setup.world h')) !! name = os.names (os.fs (setup.world h)) !! name).
Proof.
  intros Hwf Hrng Hc Hnone Hadd. unfold setup.add_fstab_entry in Hadd.
  apply setup_bind_ok in Hadd as (fstab1 & h1 & Hread & Hadd).
  destruct (Fstab.read (Fstab.__init__ "/etc/fstab") None (setup.world h))
    as [[r1 fstab1'] w1] eqn:Hr.
  destruct r1 as [[]|e]; [|done]. injection Hread as -> <-.
  pose proof (read_spec _ _ _ _ _ _ Hr) as (Hfs1 & Hrng1 & _ & Hfile & Hok & _).
  destruct (Hok eq_refl) as (content' & Hc' & Hlines). simpl in Hc', Hfile.
  rewrite Hc in Hc'. injection Hc' as <-. clear Hok Hr.
  apply setup_bind_ok in Hadd as (found & h2 & Hget & Hadd).
  unfold setup.lift in Hget.
  assert (Hinit : initialised (Fstab.lines fstab1))
    by (rewrite Hlines; apply initialised_map_init).
  unfold Fstab.get_entry in Hget.
  destruct (get_entry_loop_spec (Fstab.lines fstab1) setup.CLOUDSTOR_MOUNT Hinit)
    as (found' & Hget' & Hfound & _).
  rewrite Hget' in Hget. injection Hget as -> <-.
  assert (found = None) as -> by (apply Hfound; by rewrite Hlines).
  rewrite bool_decide_eq_true_2 in Hadd by done.
  apply setup_bind_ok in Hadd as ([] & h5 & Hbranch & Hret).
  injection Hret as <-.
  apply setup_bind_ok in Hbranch as ([] & h3 & Hlog & Hbranch).
  unfold setup.LOG.info in Hlog. injection Hlog as <-.
  apply setup_bind_ok in Hbranch as (user & h4 & Huser & Hbranch).
  apply get_default_user_ok in Huser as (Huser & Hfs4 & Hrng4 & Hlog4 & _).
  simpl in Hfs4, Hrng4, Hlog4, Huser.
  apply setup_bind_ok in Hbranch as (fstab2 & h4' & Hentry & Hwrite).
  unfold setup.lift in Hentry.
  rewrite add_entry_spec in Hentry by done. injection Hentry as <- <-.
  rewrite delete_skipping_none in Hwrite by (by rewrite Hlines).
  apply setup_io_ok in Hwrite as (Hwrite & Hlog5 & _).
  assert (Hwf4 : fs_wf (setup.world h4)) by (unfold fs_wf; by rewrite Hfs4, Hfs1).
  assert (Hrng4' : rng_ok (setup.world h4)) by (unfold rng_ok; by rewrite Hrng4, Hrng1).
  assert (Hpath : "/etc/fstab"
                  = Fstab.fn_or_default
                      (Fstab.mk (Fstab.fstab_file fstab1)
                         (Fstab.lines fstab1 ++
                          [Line.__init__
                             (Fstab.format_entry setup.CLOUDSTOR_URL setup.CLOUDSTOR_MOUNT
                                "davfs"
                                (if bool_decide (user = "") then "_netdev"
                                 else "uid=" +:+ user +:+ ",_netdev") 0 0)])) None)
    by (simpl; congruence).
  destruct (write_ok_fs _ None "/etc/fstab" _ _ Hwf4 Hrng4' Hpath Hwrite)
    as (temp & t & raws & ino & i & m & Hraws & Hname & Hino & Htemp & Htnone & _ & _ & Hbp
        & _ & Hp & Hb & Htemp' & Hnames & Ht & Hinodes).
  change ("/etc/fstab" +:+ ".bak") with "/etc/fstab.bak" in *.
  exists user. split; [exact Huser|].
  fold (cloudstor_options user) in Hraws.
  fold (cloudstor_line user) in Hraws.
  simpl in Hraws. rewrite Hlines in Hraws.
  change [Line.__init__ (cloudstor_line user)]
    with (map Line.__init__ [cloudstor_line user]) in Hraws.
  rewrite <- map_app, mapM_get_raw_init in Hraws. injection Hraws as Hraws.
  apply PyStr_fmap_inj in Hraws. subst raws.
  rewrite concat_all_app, concat_all_lines in Ht. simpl in Ht. rewrite sapp_nil_r in Ht.
  rewrite Hfs4, Hfs1 in Hname, Hino, Htnone, Htemp.
  assert (ino <> t) by (intros ->; congruence).
  assert (Hi : os.data i = content).
  { unfold file_content, os.lookup_inode in Hc. rewrite Hname in Hc. simpl in Hc.
    rewrite Hino in Hc. simpl in Hc. congruence. }
  unfold file_content, os.lookup_inode. rewrite Hp, Hb. simpl.
  rewrite Ht, Hinodes, Hfs4, Hfs1, Hino by done. simpl. rewrite Hi.
  split; [done|]. split; [done|]. split; [congruence|].
  intros name Hn1 Hn2. destruct (decide (name = temp)) as [->|Hnt].
  - by rewrite Htemp, Htemp'.
  - rewrite Hnames by done. by rewrite Hfs4, Hfs1.
Qed.

End fstab_entry_added.

Section fstab_entry_again.
Context `{PyRuntime} `{!PyRuntimeLaws}.

Lemma default_user_unique h user user' :
  default_user_of h user -> default_user_of h user' -> user = user'.
Proof.
  intros [Hu|[Hu [o Ho]]] [Hu'|[Hu' [o' Ho']]]; congruence.
Qed.

Lemma cloudstor_line_one_line user : no_LF user -> one_line (cloudstor_line user).
Proof.
  intros Hu.
  exists (setup.CLOUDSTOR_URL +:+ " " +:+ setup.CLOUDSTOR_MOUNT +:+ " " +:+ "davfs" +:+ " "
            +:+ cloudstor_options user +:+ " " +:+ Str.of_Z 0 +:+ " " +:+ Str.of_Z 0).
  split.
  - unfold cloudstor_line, Fstab.format_entry. by rewrite !sapp_assoc.
  - rewrite !no_LF_app. repeat split; try done.
    unfold cloudstor_options. destruct (bool_decide _); [done|].
    rewrite !no_LF_app. by repeat split.
Qed.

Lemma cloudstor_line_no_CR user : no_CR user -> no_CR (cloudstor_line user).
Proof.
  intros Hu.
  unfold cloudstor_line, Fstab.format_entry.
  rewrite !no_CR_app. repeat split; try done.
  unfold cloudstor_options. destruct (bool_decide _); [done|].
  rewrite !no_CR_app. by repeat split.
Qed.

(** The line that was added is found when the file is read again. *)
Lemma cloudstor_line_found content user :
  whole_lines content -> no_LF user ->
  Forall one_word [setup.CLOUDSTOR_URL; setup.CLOUDSTOR_MOUNT; "davfs";
                   cloudstor_options user] ->
  (0 < entries_for (map Line.__init__ (Str.lines (content +:+ cloudstor_line user)))
         setup.CLOUDSTOR_MOUNT)%nat.
Proof.
  intros Hwhole Hu Hwords.
  rewrite !Forall_cons in Hwords. destruct Hwords as (Hw1 & Hw2 & Hw3 & Hw4 & _).
  assert (Hlines : Str.lines (content +:+ cloudstor_line user)
                   = Str.lines content ++ [cloudstor_line user]).
  { rewrite <- (concat_all_lines content) at 1.
    rewrite <- (sapp_nil_r (cloudstor_line user)) at 1.
    change (cloudstor_line user +:+ "") with (concat_all [cloudstor_line user]).
    rewrite <- concat_all_app. apply lines_concat. apply Forall_app.
    split; [by apply lines_whole|]. constructor; [|done].
    by apply cloudstor_line_one_line. }
  rewrite Hlines, map_app, entries_for_app. simpl.
  unfold cloudstor_line at 1. rewrite init_canonical by done.
  rewrite entries_for_cons, mounted_at_canonical, bool_decide_eq_true_2 by done. lia.
Qed.

End fstab_entry_again.

Lemma directory_lookup (line : Line.t) (directory : string) :
  Line.__getattr__ line "directory" = Ok (PyStr directory) <->
  Line.dict line !! "directory" = Some (PyStr directory).
Proof.
  unfold Line.__getattr__. destruct (Line.dict line !! "directory"); [|done].
  split; congruence.
Qed.

Lemma entries_for_elem (lines : list Line.t) (line : Line.t) (directory : string) :
  line ∈ lines -> Line.dict line !! "directory" = Some (PyStr directory) ->
  (0 < entries_for lines directory)%nat.
Proof.
  intros Hin Hdir. unfold entries_for.
  assert (Hf : line ∈ filter (fun l => Line.dict l !! "directory" = Some (PyStr directory))
                         lines) by (by apply list_elem_of_filter).
  destruct (filter _ lines); [by apply elem_of_nil in Hf|simpl; lia].
Qed.

Lemma entries_for_none (lines : list Line.t) (directory : string) :
  Forall (fun line => Line.dict line !! "directory" <> Some (PyStr directory)) lines ->
  entries_for lines directory = 0%nat.
Proof.
  intros Hall. unfold entries_for. by rewrite filter_drops_all.
Qed.

(** X23: when [/etc/fstab] already holds a line whose mount point is
    [/cloudstor], [add_fstab_entry] changes nothing: the file system is as
    before whatever the outcome, nothing is logged, and the result is
    [True] unless reading the file failed. *)
Theorem add_fstab_entry_keeps_existing `{PyRuntime} `{!PyRuntimeLaws} `{PyBuiltins}
    (h : setup.host) (content line : string) :
  file_content (setup.world h) "/etc/fstab" = Some content ->
  line ∈ Str.lines (text_mode content) ->
  Line.__getattr__ (Line.__init__ line) "directory" = Ok (PyStr setup.CLOUDSTOR_MOUNT) ->
  exists r h',
    setup.add_fstab_entry h = (r, h') /\
    os.fs (setup.world h') = os.fs (setup.world h) /\
    setup.log h' = setup.log h /\
    (r = Returns true \/ exists e, r = Raises (Exn (OSError e))).
Proof.
  intros Hc Hline Hdir. apply (add_fstab_entry_found h content Hc).
  apply (entries_for_elem _ (Line.__init__ line)).
  - apply list_elem_of_fmap. by exists line.
  - by apply directory_lookup.
Qed.

(** X24: when [/etc/fstab] holds no line for [/cloudstor] and every step
    succeeds, [add_fstab_entry] appends one line to the text of the file:
    the CloudStor URL, [/cloudstor], [davfs], the options
    [uid=<user>,_netdev] for the default user of the host (the name of
    uid 1000, or else the first entry of [/home]) and [0 0].  The backup
    holds the old content, no other name changes, and one record is
    logged. *)
Theorem add_fstab_entry_appends `{PyRuntime} `{!PyRuntimeLaws} `{PyBuiltins}
    (h h' : setup.host) (content : string) :
  fs_wf (setup.world h) -> rng_ok (setup.world h) ->
  file_content (setup.world h) "/etc/fstab" = Some content ->
  Forall (fun line => Line.__getattr__ (Line.__init__ line) "directory"
                      <> Ok (PyStr setup.CLOUDSTOR_MOUNT))
         (Str.lines (text_mode content)) ->
  setup.add_fstab_entry h = (Returns true, h') ->
  exists user,
    default_user_of h user /\
    file_content (setup.world h') "/etc/fstab"
      = Some (text_mode content +:+ cloudstor_line user) /\
    file_content (setup.world h') "/etc/fstab.bak" = Some content /\
    setup.log h' = setup.log h ++ [(setup.INFO, "Adding fstab entry")] /\
    (forall name, name <> "/etc/fstab" -> name <> "/etc/fstab.bak" ->
       os.names (os.fs (setup.world h')) !! name = os.names (os.fs (setup.world h)) !! name).
Proof.
  intros Hwf Hrng Hc Hnone Hadd.
  apply (add_fstab_entry_added h h' content Hwf Hrng Hc); [|done].
  apply entries_for_none. rewrite Forall_fmap.
  eapply Forall_impl; [exact Hnone|]. simpl. intros line Hline Hdir.
  apply Hline. by apply directory_lookup.
Qed.

(** X25: [add_fstab_entry] adds its line once.  On a mount table that is a
    whole number of lines without carriage returns, with a default user
    whose name makes the options a single word, a second call after a
    successful first one finds the line for [/cloudstor] and leaves the
    file system as the first call left it. *)
Theorem add_fstab_entry_twice `{PyRuntime} `{!PyRuntimeLaws} `{PyBuiltins}
    `{!PyBuiltinsLaws} (h h1 : setup.host) (content user : string) :
  fs_wf (setup.world h) -> rng_ok (setup.world h) ->
  file_content (setup.world h) "/etc/fstab" = Some content ->
  whole_lines content -> no_CR content ->
  default_user_of h user -> plain user ->
  Forall one_word [setup.CLOUDSTOR_URL; setup.CLOUDSTOR_MOUNT; "davfs";
                   cloudstor_options user] ->
  setup.add_fstab_entry h = (Returns true, h1) ->
  exists r h2,
    setup.add_fstab_entry h1 = (r, h2) /\
    os.fs (setup.world h2) = os.fs (setup.world h1) /\
    setup.log h2 = setup.log h1 /\
    (r = Returns true \/ exists e, r = Raises (Exn (OSError e))).
Proof.
  intros Hwf Hrng Hc Hwhole Hcr Huser [Hu1 Hu2] Hwords Hadd.
  pose proof (text_mode_no_CR content Hcr) as Htext.
  destruct (decide (entries_for (map Line.__init__ (Str.lines (text_mode content)))
                      setup.CLOUDSTOR_MOUNT = 0%nat)) as [Hnone|Hsome].
  - destruct (add_fstab_entry_added h h1 content Hwf Hrng Hc Hnone Hadd)
      as (user' & Huser' & Hfile & _).
    rewrite <- (default_user_unique _ _ _ Huser Huser'), Htext in Hfile.
    apply (add_fstab_entry_found h1 _ Hfile).
    rewrite text_mode_no_CR.
    + by apply cloudstor_line_found.
    + apply no_CR_app. split; [done|]. by apply cloudstor_line_no_CR.
  - destruct (add_fstab_entry_found h content Hc) as (r & h' & Hadd' & Hfs & _); [lia|].
    rewrite Hadd in Hadd'. injection Hadd' as _ <-.
    apply (add_fstab_entry_found h1 content); [|lia].
    unfold file_content in *. by rewrite Hfs.
Qed.

Lemma fstab_host_wf : fs_wf (setup.world fstab_host).
Proof.
  intros name ino. simpl. intros Hn.
  apply lookup_singleton_Some in Hn as [_ <-]. by rewrite lookup_singleton_eq.
Qed.

Lemma fstab_host_rng : rng_ok (setup.world fstab_host).
Proof. intros n. simpl. split; [reflexivity|discriminate]. Qed.

Lemma add_fstab_entry_keeps_existing_witness :
  exists r h',
    @setup.add_fstab_entry py3_runtime py3_builtins
      (@setup.add_fstab_entry py3_runtime py3_builtins fstab_host).2 = (r, h') /\
    os.fs (setup.world h')
      = os.fs (setup.world (@setup.add_fstab_entry py3_runtime py3_builtins fstab_host).2) /\
    setup.log h' = setup.log (@setup.add_fstab_entry py3_runtime py3_builtins fstab_host).2 /\
    (r = Returns true \/ exists e, r = Raises (Exn (OSError e))).
Proof.
  apply (@add_fstab_entry_keeps_existing py3_runtime py3_laws py3_builtins
           (@setup.add_fstab_entry py3_runtime py3_builtins fstab_host).2
           ("proc /proc proc defaults 0 0" +:+ LF +:+ cloudstor_line "ubuntu")
           (cloudstor_line "ubuntu")).
  - vm_compute. reflexivity.
  - compute_done.
  - reflexivity.
Defined.

Lemma add_fstab_entry_appends_witness :
  exists user,
    default_user_of fstab_host user /\
    file_content (setup.world (@setup.add_fstab_entry py3_runtime py3_builtins fstab_host).2)
      "/etc/fstab"
      = Some (py3.universal_newlines ("proc /proc proc defaults 0 0" +:+ LF)
                +:+ cloudstor_line user) /\
    file_content (setup.world (@setup.add_fstab_entry py3_runtime py3_builtins fstab_host).2)
      "/etc/fstab.bak" = Some ("proc /proc proc defaults 0 0" +:+ LF) /\
    setup.log (@setup.add_fstab_entry py3_runtime py3_builtins fstab_host).2
      = setup.log fstab_host ++ [(setup.INFO, "Adding fstab entry")] /\
    (forall name, name <> "/etc/fstab" -> name <> "/etc/fstab.bak" ->
       os.names (os.fs (setup.world
                          (@setup.add_fstab_entry py3_runtime py3_builtins fstab_host).2))
         !! name
       = os.names (os.fs (setup.world fstab_host)) !! name).
Proof.
  apply (@add_fstab_entry_appends py3_runtime py3_laws py3_builtins fstab_host
           (@setup.add_fstab_entry py3_runtime py3_builtins fstab_host).2
           ("proc /proc proc defaults 0 0" +:+ LF) fstab_host_wf fstab_host_rng).
  - reflexivity.
  - by repeat constructor.
  - vm_compute. reflexivity.
Defined.

Lemma add_fstab_entry_twice_witness :
  exists r h2,
    @setup.add_fstab_entry py3_runtime py3_builtins
      (@setup.add_fstab_entry py3_runtime py3_builtins fstab_host).2 = (r, h2) /\
    os.fs (setup.world h2)
      = os.fs (setup.world (@setup.add_fstab_entry py3_runtime py3_builtins fstab_host).2) /\
    setup.log h2 = setup.log (@setup.add_fstab_entry py3_runtime py3_builtins fstab_host).2 /\
    (r = Returns true \/ exists e, r = Raises (Exn (OSError e))).
Proof.
  apply (@add_fstab_entry_twice py3_runtime py3_laws py3_builtins py3_builtins_laws
           fstab_host (@setup.add_fstab_entry py3_runtime py3_builtins fstab_host).2
           ("proc /proc proc defaults 0 0" +:+ LF) "ubuntu" fstab_host_wf fstab_host_rng).
  - reflexivity.
  - right. reflexivity.
  - reflexivity.
  - left. reflexivity.
  - split; reflexivity.
  - repeat constructor; discriminate || reflexivity.
  - vm_compute. reflexivity.
Defined.

Section fstab_entry_without_user.
Context `{PyRuntime} `{!PyRuntimeLaws} `{PyBuiltins}.

Lemma setup_bind_inv {A B} (m : setup.IO A) (k : A -> setup.IO B) h r h' :
  (m ≫= k) h = (r, h') ->
  (exists a h1, m h = (Returns a, h1) /\ k a h1 = (r, h')) \/
  (exists e, m h = (Raises e, h') /\ r = Raises e).
Proof.
  unfold mbind, setup.IO_bind, setup.bind. destruct (m h) as [[a|e] h1]; intros Hk.
  - left. by exists a, h1.
  - right. exists e. by simplify_eq.
Qed.

Lemma get_default_user_nobody h r h' :
  setup.passwd h !! 1000 = None -> setup.home h = Some [] ->
  setup.get_default_user h = (r, h') ->
  os.fs (setup.world h') = os.fs (setup.world h) /\ setup.log h' = setup.log h /\
  (r = Raises IndexError \/ exists e, r = Raises (Exn (OSError e))).
Proof.
  intros Hpw Hhome. unfold setup.get_default_user. rewrite Hpw.
  unfold mbind, setup.IO_bind, setup.bind, setup.listdir_home, setup.io.
  rewrite Hhome.
  destruct (os.syscall _ (setup.world h)) as [rl w1] eqn:Hsys.
  apply syscall_inv in Hsys as (_ & _ & [[[e' ->] Hfs]|(l & w0 & -> & Hw0 & _ & Hc)]).
  - simpl. intros [= <- <-]. simpl. split; [done|]. split; [done|]. right. by eexists.
  - simpl in Hc. injection Hc as <- Hfs. simpl. intros [= <- <-]. simpl.
    split; [congruence|]. split; [done|]. by left.
Qed.

End fstab_entry_without_user.

(** X26: on a host where uid 1000 has no account and [/home] is empty,
    [add_fstab_entry] cannot name a default user: when the mount table has
    no line for [/cloudstor] the call raises [IndexError] (or the error of
    a failed system call) and leaves the file system as it was. *)
Theorem add_fstab_entry_without_user `{PyRuntime} `{!PyRuntimeLaws} `{PyBuiltins}
    (h : setup.host) (content : string) :
  file_content (setup.world h) "/etc/fstab" = Some content ->
  Forall (fun line => Line.__getattr__ (Line.__init__ line) "directory"
                      <> Ok (PyStr setup.CLOUDSTOR_MOUNT))
         (Str.lines (text_mode content)) ->
  setup.passwd h !! 1000 = None -> setup.home h = Some [] ->
  exists r h',
    setup.add_fstab_entry h = (r, h') /\
    os.fs (setup.world h') = os.fs (setup.world h) /\
    (r = Raises IndexError \/ exists e, r = Raises (Exn (OSError e))).
Proof.
  intros Hc Hnone Hpw Hhome.
  destruct (setup.add_fstab_entry h) as [r h'] eqn:Hadd. exists r, h'.
  split; [done|]. unfold setup.add_fstab_entry in Hadd.
  apply setup_bind_inv in Hadd as [(fstab1 & h1 & Hread & Hadd)|(e & Hread & ->)];
    destruct (Fstab.read (Fstab.__init__ "/etc/fstab") None (setup.world h))
      as [[r1 fstab1'] w1] eqn:Hr;
    pose proof (read_spec _ _ _ _ _ _ Hr) as (Hfs1 & _ & _ & _ & Hok & _).
  2:{ destruct r1 as [[]|e1]; [done|]. injection Hread as <- <-.
      destruct (read_raises _ _ _ _ _ _ Hr) as [e' ->]. split; [done|]. right. by eexists. }
  destruct r1 as [[]|e1]; [|done]. injection Hread as -> <-.
  destruct (Hok eq_refl) as (content' & Hc' & Hlines). simpl in Hc'.
  rewrite Hc in Hc'. injection Hc' as <-.
  assert (Hget : Fstab.get_entry fstab1 setup.CLOUDSTOR_MOUNT = Ok None).
  { unfold Fstab.get_entry. rewrite Hlines.
    destruct (get_entry_loop_spec (map Line.__init__ (Str.lines (text_mode content)))
                setup.CLOUDSTOR_MOUNT (initialised_map_init _))
      as (found & -> & Hfound & _).
    f_equal. apply Hfound. apply entries_for_none. rewrite Forall_fmap.
    eapply Forall_impl; [exact Hnone|]. simpl. intros line Hline Hdir.
    apply Hline. by apply directory_lookup. }
  apply setup_bind_inv in Hadd as [(found & h2 & Hlift & Hadd)|(e & Hlift & ->)];
    unfold setup.lift in Hlift; rewrite Hget in Hlift; [|done].
  injection Hlift as <- <-. rewrite bool_decide_eq_true_2 in Hadd by done.
  apply setup_bind_inv in Hadd as [([] & h5 & Hbranch & Hret)|(e & Hbranch & ->)].
  { apply setup_bind_inv in Hbranch as [([] & h3 & Hlog & Hbranch)|(e & Hlog & ?)];
      [|done].
    injection Hlog as <-.
    apply setup_bind_inv in Hbranch as [(user & h4 & Huser & _)|(e & Huser & ?)];
      apply get_default_user_nobody in Huser as (_ & _ & [?|[? ?]]); done. }
  apply setup_bind_inv in Hbranch as [([] & h3 & Hlog & Hbranch)|(e' & Hlog & ?)];
    [|done].
  injection Hlog as <-.
  apply setup_bind_inv in Hbranch as [(user & h4 & Huser & _)|(e' & Huser & [= <-])];
    apply get_default_user_nobody in Huser as (Hfs & _ & Huser); try done.
  - by destruct Huser as [?|[? ?]].
  - split; [simpl in Hfs; congruence|].
    destruct Huser as [[= ->]|[e0 [= ->]]]; [by left|right; by eexists].
Qed.

Lemma add_fstab_entry_without_user_witness :
  exists r h',
    @setup.add_fstab_entry py3_runtime py3_builtins nobody_host = (r, h') /\
    os.fs (setup.world h') = os.fs (setup.world nobody_host) /\
    (r = Raises IndexError \/ exists e, r = Raises (Exn (OSError e))).
Proof.
  apply (@add_fstab_entry_without_user py3_runtime py3_laws py3_builtins nobody_host
           ("proc /proc proc defaults 0 0" +:+ LF)).
  - reflexivity.
  - by repeat constructor.
  - reflexivity.
  - reflexivity.
Defined.
